(** * The HTTP/WebSocket gateway of the database ([src/jbr/jbr.c])

    A shallow embedding of the request path of [jbr.c]: the request parser
    [_jbr_fill_ctx], the access-token gate and dispatcher of
    [_jbr_on_http_request], the six operation handlers, the chunked query
    stream ([_jbr_query_visitor], [_jbr_flush_chunk]), the WebSocket
    upgrade handler [_jbr_on_http_upgrade] and the WebSocket message handler
    [_jbr_ws_on_message].

    The handlers are translated as state-passing functions over a [world]
    that records what the C code does to the response handle and to the
    socket.  The database, the JSON printer and the HTTP server library are
    collaborators whose code is not part of [jbr.c]; they appear as fields of
    an environment record and as a list of outcomes of the fallible library
    calls. *)

From Stdlib Require Import List ZArith NArith Ascii String Bool Lia Arith.
Import ListNotations.
Open Scope Z_scope.

Set Implicit Arguments.

(** ** C strings and [<ctype.h>] / [<string.h>] / [<stdlib.h>] helpers *)

Definition cstr := list ascii.

Definition lit (s : string) : cstr := list_ascii_of_string s.

Arguments lit : simpl never.

Definition NUL : ascii := "000"%char.
Definition CRLF : cstr := ["013"%char; "010"%char].
Definition TAB : ascii := "009"%char.

Definition ascii_eqb (a b : ascii) : bool := Ascii.eqb a b.

Fixpoint cstr_eqb (a b : cstr) : bool :=
  match a, b with
  | [], [] => true
  | x :: a', y :: b' => ascii_eqb x y && cstr_eqb a' b'
  | _, _ => false
  end.

Definition len (s : cstr) : Z := Z.of_nat (List.length s).

(** Bytes of a buffer up to (not including) the first NUL: what a C string
    function sees of it. *)
Fixpoint c_str (s : cstr) : cstr :=
  match s with
  | [] => []
  | c :: t => if ascii_eqb c NUL then [] else c :: c_str t
  end.

(** [isspace] in the C locale. *)
Definition isspace (c : ascii) : bool :=
  let n := nat_of_ascii c in
  (Nat.eqb n 32 || (Nat.leb 9 n && Nat.leb n 13))%bool.

Definition isdigit (c : ascii) : bool :=
  let n := nat_of_ascii c in (Nat.leb 48 n && Nat.leb n 57)%bool.

Definition digit_val (c : ascii) : Z := Z.of_nat (nat_of_ascii c) - 48.

Fixpoint skip_spaces (s : cstr) : cstr :=
  match s with
  | c :: t => if isspace c then skip_spaces t else s
  | [] => []
  end.

(** Longest prefix of decimal digits, and what follows it. *)
Fixpoint span_digits (s : cstr) : cstr * cstr :=
  match s with
  | c :: t =>
      if isdigit c then let '(d, r) := span_digits t in (c :: d, r)
      else ([], s)
  | [] => ([], [])
  end.

Definition digits_val (d : cstr) : Z :=
  fold_left (fun acc c => 10 * acc + digit_val c) d 0.

Definition LLONG_MAX : Z := 9223372036854775807.
Definition LLONG_MIN : Z := -9223372036854775808.

Definition clamp_ll (v : Z) : Z :=
  if v >? LLONG_MAX then LLONG_MAX
  else if v <? LLONG_MIN then LLONG_MIN else v.

(** [strtoll(nptr, &eptr, 10)]: the converted value and the bytes of the C
    string from [eptr] on (so [*eptr == '\0'] exactly when the second
    component is empty).  Leading white space and one sign are accepted; with
    no digits nothing is converted and [eptr = nptr]; out-of-range values
    saturate. *)
Definition strtoll (nptr : cstr) : Z * cstr :=
  let s0 := c_str nptr in
  let s1 := skip_spaces s0 in
  let '(neg, s2) :=
    match s1 with
    | "-"%char :: t => (true, t)
    | "+"%char :: t => (false, t)
    | _ => (false, s1)
    end in
  let '(d, rest) := span_digits s2 in
  match d with
  | [] => (0, s0)
  | _ => (clamp_ll (if neg then - digits_val d else digits_val d), rest)
  end.

(** [strchr(s, '/')], as the offset of the first ['/'] of the C string. *)
Fixpoint strchr_slash (s : cstr) : option nat :=
  match s with
  | [] => None
  | c :: t =>
      if ascii_eqb c NUL then None
      else if ascii_eqb c "/"%char then Some O
      else option_map S (strchr_slash t)
  end.

(** [strstr(hay, needle) != NULL] on C strings. *)
Fixpoint is_prefix (p s : cstr) : bool :=
  match p, s with
  | [], _ => true
  | x :: p', y :: s' => ascii_eqb x y && is_prefix p' s'
  | _ :: _, [] => false
  end.

Fixpoint strstr_found (hay needle : cstr) : bool :=
  is_prefix needle hay ||
  match hay with
  | [] => false
  | _ :: t => strstr_found t needle
  end.

(** [memcmp(a, b, n) != 0]. *)
Definition memcmp_ne (a b : cstr) (n : nat) : bool :=
  negb (cstr_eqb (firstn n a) (firstn n b)).

(** ** Number formatting ([%lld], [%zX], [iwitoa]) *)

Definition digit_char (d : N) : ascii :=
  if (d <? 10)%N then ascii_of_N (48 + d) else ascii_of_N (55 + d).

Fixpoint utoa_aux (fuel : nat) (base n : N) (acc : cstr) : cstr :=
  match fuel with
  | O => acc
  | S f =>
      let acc' := digit_char (n mod base) :: acc in
      if (n / base =? 0)%N then acc' else utoa_aux f base (n / base) acc'
  end.

Definition utoa (base n : N) : cstr :=
  utoa_aux (S (N.to_nat (N.log2 n))) base n [].

(** ["%zX"]: upper-case hexadecimal, no prefix, no padding.  A buffer size
    has at most 16 hexadecimal digits, so the bound of the [snprintf] in
    [_jbr_flush_chunk] never cuts the text. *)
Definition fmt_zX (n : nat) : cstr := utoa 16 (N.of_nat n).

(** ["%lld"] and [iwitoa]: signed decimal. *)
Definition fmt_lld (v : Z) : cstr :=
  if v <? 0 then "-"%char :: utoa 10 (Z.to_N (- v)) else utoa 10 (Z.to_N v).

(** ** Objects of the HTTP server library ([fiobj.h])

    The server hands the request's method, path and header values to the
    handlers as [FIOBJ] handles.  A handle is a machine word: [0] for "no
    object", the constant [6] for the [null] primitive, and a tagged, 8-byte
    aligned pointer for an allocated object (tag [2] for a string).  A header
    received once is a string; a header received several times is an array of
    the values. *)

Inductive FIOBJ : Type :=
| FIOBJ_INVALID
| FIOBJ_NULL
| FIOBJ_STRING (ptr : positive) (s : cstr)
| FIOBJ_ARRAY (ptr : positive) (items : list cstr).

(** The handle as the integer the C code compares. *)
Definition fiobj_handle (o : FIOBJ) : Z :=
  match o with
  | FIOBJ_INVALID => 0
  | FIOBJ_NULL => 6
  | FIOBJ_STRING p _ => 8 * Z.pos p + 2
  | FIOBJ_ARRAY p _ => 8 * Z.pos p
  end.

(** [!h] *)
Definition fiobj_is_null (o : FIOBJ) : bool := fiobj_handle o =? 0.

(** [fiobj_type_is(o, FIOBJ_T_STRING)] *)
Definition fiobj_type_is_string (o : FIOBJ) : bool :=
  match o with FIOBJ_STRING _ _ => true | _ => false end.

(** [fiobj_obj2cstr(o)]: the bytes and length of the object's string view;
    empty for no object and for containers. *)
Definition fiobj_obj2cstr (o : FIOBJ) : cstr :=
  match o with
  | FIOBJ_INVALID => []
  | FIOBJ_NULL => lit "null"
  | FIOBJ_STRING _ s => s
  | FIOBJ_ARRAY _ _ => []
  end.

(** The request as the handlers read it.  Header names are stored in lower
    case by the server; [fiobj_hash_get2] is the lookup by name. *)
Record http_s : Type := mk_http_s {
  req_method : FIOBJ;
  req_path : FIOBJ;
  req_headers : list (cstr * FIOBJ);
  req_body : cstr
}.

Fixpoint fiobj_hash_get2 (h : list (cstr * FIOBJ)) (name : cstr) : FIOBJ :=
  match h with
  | [] => FIOBJ_INVALID
  | (k, v) :: t => if cstr_eqb k name then v else fiobj_hash_get2 t name
  end.

Definition k_header_x_access_token : cstr := lit "x-access-token".
Definition k_header_x_hints : cstr := lit "x-hints".
Definition k_header_content_length : cstr := lit "content-length".
Definition k_header_content_type : cstr := lit "content-type".

(** ** Result codes ([iwrc])

    An [iwrc] is zero on success; otherwise it is an error code, optionally
    carrying an [errno] that [iwrc_strip_code] removes.  The codes named in
    [jbr.c] are constructors; [ECODE_OTHER] stands for every other code of
    the registry. *)

Inductive ecode : Type :=
| IW_ERROR_ALLOC
| IW_ERROR_INVALID_ARGS
| IWKV_ERROR_NOTFOUND
| JBL_ERROR_PARSE_JSON
| JBL_ERROR_PARSE_INVALID_CODEPOINT
| JBL_ERROR_PARSE_INVALID_UTF8
| JBL_ERROR_PARSE_UNQUOTED_STRING
| JBL_ERROR_PATCH_TARGET_INVALID
| JBL_ERROR_PATCH_NOVALUE
| JBL_ERROR_PATCH_INVALID_OP
| JBL_ERROR_PATCH_TEST_FAILED
| JBL_ERROR_PATCH_INVALID_ARRAY_INDEX
| JBL_ERROR_JSON_POINTER
| JQL_ERROR_QUERY_PARSE
| JQL_ERROR_NO_COLLECTION
| JBR_ERROR_HTTP_LISTEN
| JBR_ERROR_SEND_RESPONSE
| JBR_ERROR_WS_UPGRADE
| ECODE_OTHER (n : positive).

Inductive iwrc : Type :=
| IW_OK
| IW_ERR (e : ecode) (errno : Z).

(** [if (rc)] *)
Definition rc_is_err (rc : iwrc) : bool :=
  match rc with IW_OK => false | IW_ERR _ _ => true end.

Definition iwrc_set_errno (e : ecode) (errno : Z) : iwrc := IW_ERR e errno.

Definition iwrc_strip_code (rc : iwrc) : iwrc :=
  match rc with IW_OK => IW_OK | IW_ERR e _ => IW_ERR e 0 end.

Definition ENOMEM : Z := 12.

(** [rc == IWKV_ERROR_NOTFOUND] on the unstripped code. *)
Definition rc_is_notfound (rc : iwrc) : bool :=
  match rc with
  | IW_ERR IWKV_ERROR_NOTFOUND errno => errno =? 0
  | _ => false
  end.

(** The codes are distinct constants; [ecode_tag] numbers them so that two
    codes can be compared as the [switch] statements do. *)
Definition ecode_tag (e : ecode) : Z :=
  match e with
  | IW_ERROR_ALLOC => 1
  | IW_ERROR_INVALID_ARGS => 2
  | IWKV_ERROR_NOTFOUND => 3
  | JBL_ERROR_PARSE_JSON => 4
  | JBL_ERROR_PARSE_INVALID_CODEPOINT => 5
  | JBL_ERROR_PARSE_INVALID_UTF8 => 6
  | JBL_ERROR_PARSE_UNQUOTED_STRING => 7
  | JBL_ERROR_PATCH_TARGET_INVALID => 8
  | JBL_ERROR_PATCH_NOVALUE => 9
  | JBL_ERROR_PATCH_INVALID_OP => 10
  | JBL_ERROR_PATCH_TEST_FAILED => 11
  | JBL_ERROR_PATCH_INVALID_ARRAY_INDEX => 12
  | JBL_ERROR_JSON_POINTER => 13
  | JQL_ERROR_QUERY_PARSE => 14
  | JQL_ERROR_NO_COLLECTION => 15
  | JBR_ERROR_HTTP_LISTEN => 16
  | JBR_ERROR_SEND_RESPONSE => 17
  | JBR_ERROR_WS_UPGRADE => 18
  | ECODE_OTHER n => 18 + Z.pos n
  end.

(** [case e:] of a [switch (rc)] on a stripped code. *)
Definition rc_code_is (rc : iwrc) (e : ecode) : bool :=
  match rc with
  | IW_OK => false
  | IW_ERR e' errno => (ecode_tag e' =? ecode_tag e) && (errno =? 0)
  end.

(** ** The request context ([JBRCTX]) *)

Inductive jbr_method_t : Type :=
| JBR_GET | JBR_PUT | JBR_PATCH | JBR_DELETE | JBR_POST | JBR_HEAD.

(** The enumerators' values: [JBR_GET = 1] and counting. *)
Definition jbr_method_val (m : jbr_method_t) : Z :=
  match m with
  | JBR_GET => 1 | JBR_PUT => 2 | JBR_PATCH => 3
  | JBR_DELETE => 4 | JBR_POST => 5 | JBR_HEAD => 6
  end.

Definition method_eqb (a b : jbr_method_t) : bool :=
  jbr_method_val a =? jbr_method_val b.

(** [collection] is the pointer together with the [collection_len] bytes it
    designates ([None] for the null pointer); [wbuf] and [explain] are the
    two optional string buffers with their contents.  [method] is [None]
    while the field is still zero. *)
Record JBRCTX : Type := mk_JBRCTX {
  method : option jbr_method_t;
  collection : option cstr;
  id : Z;
  read_anon : bool;
  data_sent : bool;
  wbuf : option cstr;
  explain : option cstr
}.

Definition collection_len (r : JBRCTX) : Z :=
  match collection r with Some c => len c | None => 0 end.

(** [memset(r, 0, sizeof( *r))] *)
Definition JBRCTX_zero : JBRCTX :=
  mk_JBRCTX None None 0 false false None None.

Definition set_method (m : jbr_method_t) (r : JBRCTX) : JBRCTX :=
  mk_JBRCTX (Some m) (collection r) (id r) (read_anon r) (data_sent r)
            (wbuf r) (explain r).
Definition set_collection (c : option cstr) (r : JBRCTX) : JBRCTX :=
  mk_JBRCTX (method r) c (id r) (read_anon r) (data_sent r)
            (wbuf r) (explain r).
Definition set_id (i : Z) (r : JBRCTX) : JBRCTX :=
  mk_JBRCTX (method r) (collection r) i (read_anon r) (data_sent r)
            (wbuf r) (explain r).
Definition set_read_anon (b : bool) (r : JBRCTX) : JBRCTX :=
  mk_JBRCTX (method r) (collection r) (id r) b (data_sent r)
            (wbuf r) (explain r).
Definition set_data_sent (b : bool) (r : JBRCTX) : JBRCTX :=
  mk_JBRCTX (method r) (collection r) (id r) (read_anon r) b
            (wbuf r) (explain r).
Definition set_wbuf (b : option cstr) (r : JBRCTX) : JBRCTX :=
  mk_JBRCTX (method r) (collection r) (id r) (read_anon r) (data_sent r)
            b (explain r).
Definition set_explain (b : option cstr) (r : JBRCTX) : JBRCTX :=
  mk_JBRCTX (method r) (collection r) (id r) (read_anon r) (data_sent r)
            (wbuf r) b.

(** ** The collaborators: server configuration, database, error registry *)

(** Modelled from the spec: the [EJDB_HTTP] options structure is declared in
    [ejdb2.h], which is not part of the sources; the spec lists "optional
    access token (byte string), anonymous-read flag (bool)".  [access_token]
    holds the [access_token_len] bytes of the token. *)
Record EJDB_HTTP : Type := mk_EJDB_HTTP {
  access_token : option cstr;
  http_read_anon : bool
}.

Definition access_token_len (h : EJDB_HTTP) : nat :=
  match access_token h with Some t => List.length t | None => O end.

(** Modelled from the spec: a binary JSON document ([JBL], declared in
    [jbl.h] outside the sources), seen through the "JSON parse/serialize with
    a streaming printer": the text [jbl_as_json] produces for it, compact and
    with [JBL_PRINT_PRETTY], and the size of its binary form. *)
Record JBL : Type := mk_JBL {
  jbl_json : cstr;
  jbl_json_pretty : cstr;
  jbl_bn_size : Z
}.

(** Modelled from the spec: [EJDB_DOC] (declared in [ejdb2.h]), what the
    visitor "receives one document at a time": the id, the raw document and
    the optional node form. *)
Record EJDB_DOC : Type := mk_EJDB_DOC {
  doc_id : Z;
  doc_raw : JBL;
  doc_node : option JBL
}.

(** Modelled from the spec: a compiled query ([JQL]) with what
    [query_has_apply] and [query_error_message] answer for it. *)
Record JQL : Type := mk_JQL {
  jql_has_apply : bool;
  jql_error : option cstr
}.

(** Modelled from the spec: what one [query_execute] does, namely the text
    it writes to the explain log when one is attached, the documents it hands
    to the visitor in result order, and the code it returns when the visitor
    never failed ("ok | error"). *)
Record exec_plan : Type := mk_exec_plan {
  ex_log : cstr;
  ex_docs : list EJDB_DOC;
  ex_rc : iwrc
}.

(** Modelled from the spec: the database facade of section 6.3 ([put],
    [put_new], [patch], [remove], [get], [query_compile], [query_execute],
    JSON parse), whose code (ejdb2.c, jbl.c, jql.c) is not part of the
    sources.  Each operation is a function of its arguments giving the result
    code and the value it produces. *)
Record EJDB : Type := mk_EJDB {
  ejdb_get : cstr -> Z -> iwrc * JBL;
  ejdb_put : cstr -> JBL -> Z -> iwrc;
  ejdb_put_new : cstr -> JBL -> iwrc * Z;
  ejdb_patch : cstr -> cstr -> Z -> iwrc;
  ejdb_remove : cstr -> Z -> iwrc;
  jbl_from_json : cstr -> iwrc * JBL;
  jql_create : cstr -> iwrc * JQL;
  ejdb_exec_plan : JQL -> exec_plan
}.

(** The environment of a request: the [JBR] handle ([http], [db]), the
    error-text registry [iwlog_ecode_explained], and the two size constants
    that [jbr.c] takes from headers outside the sources. *)
Record JBR : Type := mk_JBR {
  http : EJDB_HTTP;
  db : EJDB;
  iwlog_ecode_explained : iwrc -> option cstr;
  JBNUMBUF_SIZE : Z;
  EJDB_COLLECTION_NAME_MAX_LEN : Z
}.

Definition JBR_HTTP_CHUNK_SIZE : Z := 4096.

(** ** The world a handler acts on *)

(** The heap objects [jbr.c] allocates and releases itself. *)
Inductive res_t : Type := RES_WBUF | RES_EXPLAIN | RES_XSTR | RES_WCTX.

Definition headers := list (cstr * cstr).

(** What a handler does that is visible outside it, in the order it does it:
    the calls of the server library that produce output, the error log, and
    the allocation and release of its own buffers. *)
Inductive event : Type :=
| EvSendError (status : Z)
| EvSendBody (status : Z) (hdrs : headers) (body : option cstr) (bodylen : Z)
| EvWriteHeaders (status : Z) (hdrs : headers)
| EvWrite (data : cstr)
| EvComplete
| EvLog (rc : iwrc)
| EvUpgrade (anon : bool)
| EvNew (r : res_t)
| EvDestroy (r : res_t).

(** [w_ctx] is the [JBRCTX] of the request, [w_status] and [w_out_headers]
    the response fields of the [http_s] handle, [w_faults] the outcomes of
    the fallible library calls still to come ([true]: the call fails; every
    call after the end of the list succeeds), [w_trace] the events so far. *)
Record world : Type := mk_world {
  w_ctx : JBRCTX;
  w_status : Z;
  w_out_headers : headers;
  w_faults : list bool;
  w_trace : list event
}.

Definition world_init (faults : list bool) : world :=
  mk_world JBRCTX_zero 200 [] faults [].

(** A small state monad over the world. *)
Definition M (A : Type) : Type := world -> A * world.

Definition ret {A : Type} (a : A) : M A := fun w => (a, w).

Definition bind {A B : Type} (m : M A) (k : A -> M B) : M B :=
  fun w => let '(a, w') := m w in k a w'.

Notation "x <- m ;; k" := (bind m (fun x => k))
  (at level 61, m at next level, right associativity).
Notation "m ;; k" := (bind m (fun _ => k))
  (at level 61, right associativity).

(** [RCRET(rc)]: leave with [rc] when it is an error, go on otherwise. *)
Definition rcret (m : M iwrc) (k : M iwrc) : M iwrc :=
  rc <- m ;; if rc_is_err rc then ret rc else k.

Notation "m ;;? k" := (rcret m k) (at level 61, right associativity).

Definition exec {A : Type} (m : M A) (w : world) : world := snd (m w).

Definition get_ctx : M JBRCTX := fun w => (w_ctx w, w).

Definition upd_ctx (f : JBRCTX -> JBRCTX) : M unit :=
  fun w => (tt, mk_world (f (w_ctx w)) (w_status w) (w_out_headers w)
                         (w_faults w) (w_trace w)).

Definition emit (e : event) : M unit :=
  fun w => (tt, mk_world (w_ctx w) (w_status w) (w_out_headers w)
                         (w_faults w) (w_trace w ++ [e])).

Definition set_status (s : Z) : M unit :=
  fun w => (tt, mk_world (w_ctx w) s (w_out_headers w)
                         (w_faults w) (w_trace w)).

Definition set_out_headers (h : headers) : M unit :=
  fun w => (tt, mk_world (w_ctx w) (w_status w) h (w_faults w) (w_trace w)).

(** The outcome of the next fallible library call. *)
Definition fault : M bool :=
  fun w => match w_faults w with
           | [] => (false, w)
           | f :: fs => (f, mk_world (w_ctx w) (w_status w) (w_out_headers w)
                                     fs (w_trace w))
           end.

Definition ERR (e : ecode) : iwrc := IW_ERR e 0.
Definition ALLOC_FAILED : iwrc := iwrc_set_errno IW_ERROR_ALLOC ENOMEM.

(** *** Library calls *)

Definition iwlog_ecode_error3 (rc : iwrc) : M unit := emit (EvLog rc).

Definition http_send_error (status : Z) : M unit := emit (EvSendError status).

Definition http_complete : M unit := emit EvComplete.

(** [http_send_body(r, body, bodylen)]: the response goes out with the
    handle's current status and headers; the result is [true] when the call
    reports failure. *)
Definition http_send_body (body : option cstr) (bodylen : Z) : M bool :=
  fun w => (emit (EvSendBody (w_status w) (w_out_headers w) body bodylen) ;;
            fault) w.

(** [http_write_headers(req) < 0] *)
Definition http_write_headers : M bool :=
  failed <- fault ;;
  if failed then ret true
  else (fun w => (emit (EvWriteHeaders (w_status w) (w_out_headers w)) ;;
                  ret false) w).

(** [fio_write(uuid, data, n) < 0] *)
Definition fio_write (data : cstr) : M bool :=
  failed <- fault ;;
  if failed then ret true else (emit (EvWrite data) ;; ret false).

Fixpoint has_header (h : headers) (name : cstr) : bool :=
  match h with
  | [] => false
  | (k, _) :: t => cstr_eqb k name || has_header t name
  end.

(** [wbuf] as the buffer functions see it ([_jbr_flush_chunk] asserts that
    the pointer is not null). *)
Definition wbuf_bytes (r : JBRCTX) : cstr :=
  match wbuf r with Some b => b | None => [] end.

(** [iwxstr_cat(wbuf, data, n)] and [iwxstr_printf(wbuf, ...)] on the
    assembly buffer: the bytes are appended unless the buffer cannot grow. *)
Definition iwxstr_cat_wbuf (data : cstr) : M iwrc :=
  failed <- fault ;;
  if failed then ret ALLOC_FAILED
  else (upd_ctx (fun r => set_wbuf (Some (wbuf_bytes r ++ data)) r) ;;
        ret IW_OK).

(** [jbl_as_json(jbl, jbl_xstr_json_printer, wbuf, 0)] and
    [jbl_node_as_json]: the compact text of the document is appended. *)
Definition jbl_as_json_wbuf (j : JBL) : M iwrc := iwxstr_cat_wbuf (jbl_json j).

(** *** Response helpers of [jbr.c] *)

Definition _jbr_http_set_content_type (ctype : cstr) : M unit :=
  fun w =>
    if has_header (w_out_headers w) k_header_content_type then (tt, w)
    else set_out_headers (w_out_headers w ++ [(k_header_content_type, ctype)]) w.

Definition _jbr_http_set_header (name val : cstr) : M unit :=
  fun w => set_out_headers (w_out_headers w ++ [(name, val)]) w.

(** The handle and its header table are live for the whole request callback,
    so the [IW_ERROR_INVALID_ARGS] guard at the head of the C function does
    not fire. *)
Definition _jbr_http_send (status : Z) (ctype : option cstr)
           (body : option cstr) (bodylen : Z) : M iwrc :=
  set_status status ;;
  match ctype with
  | Some c => _jbr_http_set_content_type c
  | None => ret tt
  end ;;
  failed <- http_send_body body bodylen ;;
  if failed then
    iwlog_ecode_error3 (ERR JBR_ERROR_SEND_RESPONSE) ;;
    ret (ERR JBR_ERROR_SEND_RESPONSE)
  else ret IW_OK.

Definition _jbr_http_error_send (status : Z) : M iwrc :=
  _jbr_http_send status None None 0.

Definition _jbr_http_error_send2 (status : Z) (ctype : cstr)
           (body : option cstr) (bodylen : Z) : M iwrc :=
  _jbr_http_send status (Some ctype) body bodylen.

Definition strlen_opt (s : option cstr) : Z :=
  match s with Some b => len (c_str b) | None => 0 end.

(** The macro [JBR_RC_REPORT(code_, r_, rc_)]. *)
Definition JBR_RC_REPORT (jbr : JBR) (code : Z) (rc : iwrc) : M unit :=
  (if 500 <=? code then iwlog_ecode_error3 rc else ret tt) ;;
  let strerr := iwlog_ecode_explained jbr rc in
  _jbr_http_send code (Some (lit "text/plain")) strerr (strlen_opt strerr) ;;
  ret tt.

(** ** The chunked query stream *)

Definition write_or_fail (data : cstr) : M iwrc :=
  failed <- fio_write data ;;
  if failed then
    iwlog_ecode_error3 (ERR JBR_ERROR_SEND_RESPONSE) ;;
    ret (ERR JBR_ERROR_SEND_RESPONSE)
  else ret IW_OK.

Definition _jbr_flush_chunk (finish : bool) : M iwrc :=
  r <- get_ctx ;;
  (if negb (data_sent r) then
     set_status 200 ;;
     _jbr_http_set_content_type (lit "application/json") ;;
     _jbr_http_set_header (lit "transfer-encoding") (lit "chunked") ;;
     failed <- http_write_headers ;;
     if failed then
       iwlog_ecode_error3 (ERR JBR_ERROR_SEND_RESPONSE) ;;
       ret (ERR JBR_ERROR_SEND_RESPONSE)
     else (upd_ctx (set_data_sent true) ;; ret IW_OK)
   else ret IW_OK) ;;?
  r <- get_ctx ;;
  let buf := wbuf_bytes r in
  if negb finish && (len buf <? JBR_HTTP_CHUNK_SIZE) then ret IW_OK
  else
    (if 0 <? len buf then
       write_or_fail (fmt_zX (List.length buf) ++ CRLF) ;;?
       write_or_fail buf ;;?
       write_or_fail CRLF ;;?
       (upd_ctx (set_wbuf (Some [])) ;; ret IW_OK)
     else ret IW_OK) ;;?
    (if finish then write_or_fail (lit "0" ++ CRLF ++ CRLF) else ret IW_OK).

Definition explain_separator : cstr := lit "--------------------".

Definition _jbr_query_visitor (doc : EJDB_DOC) : M iwrc :=
  r <- get_ctx ;;
  match wbuf r with
  | Some _ => ret IW_OK
  | None =>
      failed <- fault ;;
      if failed then ret (iwrc_set_errno IW_ERROR_ALLOC ENOMEM)
      else (emit (EvNew RES_WBUF) ;; upd_ctx (set_wbuf (Some [])) ;;
            ret IW_OK)
  end ;;?
  r <- get_ctx ;;
  match explain r with
  | Some e =>
      iwxstr_cat_wbuf e ;;?
      iwxstr_cat_wbuf explain_separator ;;?
      (emit (EvDestroy RES_EXPLAIN) ;; upd_ctx (set_explain None) ;;
       ret IW_OK)
  | None => ret IW_OK
  end ;;?
  iwxstr_cat_wbuf (CRLF ++ fmt_lld (doc_id doc) ++ [TAB]) ;;?
  match doc_node doc with
  | Some n => jbl_as_json_wbuf n
  | None => jbl_as_json_wbuf (doc_raw doc)
  end ;;?
  _jbr_flush_chunk false.

(** Modelled from the spec: the visitor loop of [ejdb_exec], whose code is
    not part of the sources ("Execute the query with a visitor callback that
    receives one document at a time in result order"; on a visitor error
    "the visitor MUST cease producing documents"). *)
Fixpoint visit_all (docs : list EJDB_DOC) : M iwrc :=
  match docs with
  | [] => ret IW_OK
  | d :: ds => _jbr_query_visitor d ;;? visit_all ds
  end.

(** Modelled from the spec: [ejdb_exec].  The engine writes the plan to the
    attached log, which is the context's explain buffer, before the first
    document, calls the visitor on each document until one call fails, and
    returns the visitor's error or its own result. *)
Definition ejdb_exec (p : exec_plan) : M iwrc :=
  upd_ctx (fun r => match explain r with
                    | Some e => set_explain (Some (e ++ ex_log p)) r
                    | None => r
                    end) ;;
  visit_all (ex_docs p) ;;?
  ret (ex_rc p).

(** ** The operation handlers *)

Definition iwxstr_destroy_explain : M unit :=
  r <- get_ctx ;;
  match explain r with
  | Some _ => emit (EvDestroy RES_EXPLAIN) ;; upd_ctx (set_explain None)
  | None => ret tt
  end.

Definition iwxstr_destroy_wbuf : M unit :=
  r <- get_ctx ;;
  match wbuf r with
  | Some _ => emit (EvDestroy RES_WBUF) ;; upd_ctx (set_wbuf None)
  | None => ret tt
  end.

(** The report at the label [finish] of [_jbr_on_query]: [if (rc)] strips
    the code and switches on it; [r] is the context at that point. *)
Definition finish_response (jbr : JBR) (q : JQL) (rc : iwrc) (r : JBRCTX)
  : M unit :=
  if rc_is_err rc then
    let rc := iwrc_strip_code rc in
    if rc_code_is rc JQL_ERROR_QUERY_PARSE then
      let err := jql_error q in
      _jbr_http_error_send2 400 (lit "text/plain") err (strlen_opt err) ;;
      ret tt
    else if rc_code_is rc JQL_ERROR_NO_COLLECTION then
      JBR_RC_REPORT jbr 400 rc
    else if data_sent r then
      iwlog_ecode_error3 rc ;; http_complete
    else JBR_RC_REPORT jbr 500 rc
  else if data_sent r then http_complete
  else (_jbr_http_send 200 None None 0 ;; ret tt).

(** [_jbr_on_query] from the label [finish] on: the report, then the release
    of the two buffers. *)
Definition _jbr_on_query_finish (jbr : JBR) (q : JQL) (rc : iwrc) : M unit :=
  r <- get_ctx ;;
  finish_response jbr q rc r ;;
  iwxstr_destroy_explain ;;
  iwxstr_destroy_wbuf.

(** The hints block of [_jbr_on_query] for a single-valued header [h]: the
    explain buffer is allocated when the value mentions [explain]. *)
Definition query_hints (h : FIOBJ) : M iwrc :=
  if negb (fiobj_is_null h)
     && strstr_found (c_str (fiobj_obj2cstr h)) (lit "explain")
  then
    failed <- fault ;;
    if failed then ret (iwrc_set_errno IW_ERROR_ALLOC ENOMEM)
    else (emit (EvNew RES_EXPLAIN) ;;
          upd_ctx (set_explain (Some [])) ;; ret IW_OK)
  else ret IW_OK.

(** The close of the stream after [ejdb_exec]:
    [if (!rc && rctx->wbuf) { ... }]. *)
Definition query_close (rc : iwrc) (r : JBRCTX) : M iwrc :=
  match rc, wbuf r with
  | IW_OK, Some _ => iwxstr_cat_wbuf CRLF ;;? _jbr_flush_chunk true
  | _, _ => ret rc
  end.

(** [_jbr_on_query] from the call of [ejdb_exec] on. *)
Definition query_run (jbr : JBR) (q : JQL) : M unit :=
  rc <- ejdb_exec (ejdb_exec_plan (db jbr) q) ;;
  r <- get_ctx ;;
  rc <- query_close rc r ;;
  _jbr_on_query_finish jbr q rc.

Definition _jbr_on_query (jbr : JBR) (req : http_s) : M unit :=
  let data := req_body req in
  if len data <? 1 then _jbr_http_error_send 400 ;; ret tt
  else
    let '(rc, q) := jql_create (db jbr) data in
    if rc_is_err rc then _jbr_on_query_finish jbr q rc
    else
      r <- get_ctx ;;
      if read_anon r && jql_has_apply q then
        _jbr_http_error_send 403 ;; ret tt
      else
        let h := fiobj_hash_get2 (req_headers req) k_header_x_hints in
        if negb (fiobj_is_null h) && negb (fiobj_type_is_string h) then
          _jbr_http_error_send 400 ;; ret tt
        else
          rc <- query_hints h ;;
          if rc_is_err rc then _jbr_on_query_finish jbr q rc
          else query_run jbr q.

(** The ten [case] labels of the switch in [_jbr_on_patch]. *)
Definition patch_input_errors : list ecode :=
  [ JBL_ERROR_PARSE_JSON; JBL_ERROR_PARSE_INVALID_CODEPOINT;
    JBL_ERROR_PARSE_INVALID_UTF8; JBL_ERROR_PARSE_UNQUOTED_STRING;
    JBL_ERROR_PATCH_TARGET_INVALID; JBL_ERROR_PATCH_NOVALUE;
    JBL_ERROR_PATCH_INVALID_OP; JBL_ERROR_PATCH_TEST_FAILED;
    JBL_ERROR_PATCH_INVALID_ARRAY_INDEX; JBL_ERROR_JSON_POINTER ].

Definition is_patch_input_error (rc : iwrc) : bool :=
  existsb (rc_code_is rc) patch_input_errors.

(** The collection name as the database receives it: the C string in the
    [cname] buffer of [_jbr_on_http_request]. *)
Definition cname (r : JBRCTX) : cstr :=
  match collection r with Some c => c_str c | None => [] end.

Definition _jbr_on_patch (jbr : JBR) (req : http_s) : M unit :=
  r <- get_ctx ;;
  if read_anon r then _jbr_http_error_send 403 ;; ret tt
  else
    let data := req_body req in
    if len data <? 1 then _jbr_http_error_send 400 ;; ret tt
    else
      let rc := iwrc_strip_code (ejdb_patch (db jbr) (cname r) data (id r)) in
      (* the switch: every case ends in [break] *)
      (if is_patch_input_error rc then JBR_RC_REPORT jbr 400 rc
       else ret tt) ;;
      if rc_is_err rc then JBR_RC_REPORT jbr 500 rc
      else (_jbr_http_send 200 None None 0 ;; ret tt).

Definition _jbr_on_delete (jbr : JBR) (req : http_s) : M unit :=
  r <- get_ctx ;;
  if read_anon r then _jbr_http_error_send 403 ;; ret tt
  else
    let rc := ejdb_remove (db jbr) (cname r) (id r) in
    if rc_is_notfound rc then _jbr_http_error_send 404 ;; ret tt
    else if rc_is_err rc then JBR_RC_REPORT jbr 500 rc
    else (_jbr_http_send 200 None None 0 ;; ret tt).

Definition _jbr_on_put (jbr : JBR) (req : http_s) : M unit :=
  r <- get_ctx ;;
  if read_anon r then _jbr_http_error_send 403 ;; ret tt
  else
    let data := req_body req in
    if len data <? 1 then _jbr_http_error_send 400 ;; ret tt
    else
      let '(rc, jbl) := jbl_from_json (db jbr) data in
      if rc_is_err rc then JBR_RC_REPORT jbr 400 rc
      else
        let rc := ejdb_put (db jbr) (cname r) jbl (id r) in
        if rc_is_err rc then JBR_RC_REPORT jbr 500 rc
        else (_jbr_http_send 200 None None 0 ;; ret tt).

Definition _jbr_on_post (jbr : JBR) (req : http_s) : M unit :=
  r <- get_ctx ;;
  if read_anon r then _jbr_http_error_send 403 ;; ret tt
  else
    let data := req_body req in
    if len data <? 1 then _jbr_http_error_send 400 ;; ret tt
    else
      let '(rc, jbl) := jbl_from_json (db jbr) data in
      if rc_is_err rc then JBR_RC_REPORT jbr 400 rc
      else
        let '(rc, new_id) := ejdb_put_new (db jbr) (cname r) jbl in
        if rc_is_err rc then JBR_RC_REPORT jbr 500 rc
        else
          let nbuf := fmt_lld new_id in
          _jbr_http_send 200 (Some (lit "text/plain")) (Some nbuf) (len nbuf) ;;
          ret tt.

(** [_jbr_on_get] serves GET and HEAD.  Its test for HEAD reads
    [req->method], the request's method object, and compares that handle with
    the enumerator [JBR_HEAD]. *)
Definition _jbr_on_get (jbr : JBR) (req : http_s) : M unit :=
  r <- get_ctx ;;
  let '(rc, jbl) := ejdb_get (db jbr) (cname r) (id r) in
  if rc_is_notfound rc then _jbr_http_error_send 404 ;; ret tt
  else if rc_is_err rc then JBR_RC_REPORT jbr 500 rc
  else if fiobj_handle (req_method req) =? jbr_method_val JBR_HEAD then
    (* jbl_as_json(jbl, jbl_count_json_printer, &nbytes, JBL_PRINT_PRETTY) *)
    failed <- fault ;;
    if failed then JBR_RC_REPORT jbr 500 ALLOC_FAILED
    else
      let nbytes := len (jbl_json_pretty jbl) in
      _jbr_http_send 200 (Some (lit "application/json")) None nbytes ;;
      ret tt
  else
    failed <- fault ;;
    if failed then JBR_RC_REPORT jbr 500 (iwrc_set_errno IW_ERROR_ALLOC ENOMEM)
    else
      emit (EvNew RES_XSTR) ;;
      (* jbl_as_json(jbl, jbl_xstr_json_printer, xstr, JBL_PRINT_PRETTY) *)
      failed <- fault ;;
      (if failed then JBR_RC_REPORT jbr 500 ALLOC_FAILED
       else
         let xstr := jbl_json_pretty jbl in
         _jbr_http_send 200 (Some (lit "application/json"))
                        (Some xstr) (len xstr) ;;
         ret tt) ;;
      emit (EvDestroy RES_XSTR).

(** ** The request parser *)

Definition parse_method (m : cstr) : option jbr_method_t :=
  match List.length m with
  | 3%nat => if cstr_eqb (lit "GET") m then Some JBR_GET
             else if cstr_eqb (lit "PUT") m then Some JBR_PUT else None
  | 4%nat => if cstr_eqb (lit "POST") m then Some JBR_POST
             else if cstr_eqb (lit "HEAD") m then Some JBR_HEAD else None
  | 5%nat => if cstr_eqb (lit "PATCH") m then Some JBR_PATCH else None
  | 6%nat => if cstr_eqb (lit "DELETE") m then Some JBR_DELETE else None
  | _ => None
  end.

(** The label [finish] of [_jbr_fill_ctx]. *)
Definition fill_ctx_finish (jbr : JBR) (r : JBRCTX) : option JBRCTX :=
  if collection_len r <=? EJDB_COLLECTION_NAME_MAX_LEN jbr then Some r
  else None.

(** [_jbr_fill_ctx]: [Some r] for [true] with the context it filled, [None]
    for [false].  Where [strchr] finds no second slash the path has at least
    two bytes, so the test [path.len > 1] of the C code holds. *)
Definition _jbr_fill_ctx (jbr : JBR) (req : http_s) : option JBRCTX :=
  match parse_method (fiobj_obj2cstr (req_method req)) with
  | None => None
  | Some m =>
      let r := set_method m JBRCTX_zero in
      let path := fiobj_obj2cstr (req_path req) in
      if fiobj_is_null (req_path req)
         || ((len path =? 1) && ascii_eqb (nth 0 path NUL) "/"%char)
      then Some r
      else if len path <? 2 then None
      else
        match strchr_slash (tl path) with
        | None =>
            match m with
            | JBR_GET | JBR_HEAD | JBR_PUT | JBR_DELETE | JBR_PATCH => None
            | JBR_POST => fill_ctx_finish jbr (set_collection (Some (tl path)) r)
            end
        | Some k =>
            let r := set_collection (Some (firstn k (tl path))) r in
            let nlen := len path - (Z.of_nat k + 1) - 1 in
            if nlen <? 1 then fill_ctx_finish jbr r
            else if nlen >? JBNUMBUF_SIZE jbr - 1 then None
            else
              let nbuf := skipn (S k) (tl path) in
              let '(v, eptr) := strtoll nbuf in
              let r := set_id v r in
              if negb (len eptr =? 0) || (v <? 1) || method_eqb m JBR_POST
              then None
              else fill_ctx_finish jbr r
        end
  end.

(** ** The token gate and the dispatcher *)

Inductive gate_t : Type :=
| GATE_PROCESS
| GATE_REPLY (status : Z).

Definition method_is (r : JBRCTX) (m : jbr_method_t) : bool :=
  match method r with Some m' => method_eqb m' m | None => false end.

Definition collection_is_null (r : JBRCTX) : bool :=
  match collection r with Some _ => false | None => true end.

(** The block [if (http->access_token) { ... }] of [_jbr_on_http_request]:
    either control reaches the label [process] with the context it leaves,
    or the request is answered with [http_send_error]. *)
Definition _jbr_token_gate (jbr : JBR) (req : http_s) (r : JBRCTX)
  : gate_t * JBRCTX :=
  match access_token (http jbr) with
  | None => (GATE_PROCESS, r)
  | Some tok =>
      let h := fiobj_hash_get2 (req_headers req) k_header_x_access_token in
      if fiobj_is_null h then
        if http_read_anon (http jbr)
           && (method_is r JBR_GET || method_is r JBR_HEAD
               || (method_is r JBR_POST && collection_is_null r))
        then (GATE_PROCESS, set_read_anon true r)
        else (GATE_REPLY 401, r)
      else if negb (fiobj_type_is_string h) then (GATE_REPLY 400, r)
      else
        let hv := fiobj_obj2cstr h in
        if negb (Nat.eqb (List.length hv) (access_token_len (http jbr)))
           || memcmp_ne hv tok (access_token_len (http jbr))
        then (GATE_REPLY 403, r)
        else (GATE_PROCESS, r)
  end.

(** [_jbr_on_http_request] from the label [process] on. *)
Definition _jbr_process (jbr : JBR) (req : http_s) : M unit :=
  r <- get_ctx ;;
  match collection r with
  | Some _ =>
      match method r with
      | Some JBR_GET | Some JBR_HEAD => _jbr_on_get jbr req
      | Some JBR_POST => _jbr_on_post jbr req
      | Some JBR_PUT => _jbr_on_put jbr req
      | Some JBR_PATCH => _jbr_on_patch jbr req
      | Some JBR_DELETE => _jbr_on_delete jbr req
      | None => http_send_error 400
      end
  | None =>
      if method_is r JBR_POST then _jbr_on_query jbr req
      else http_send_error 400
  end.

Definition _jbr_on_http_request (jbr : JBR) (req : http_s) : M unit :=
  match _jbr_fill_ctx jbr req with
  | None => http_send_error 400
  | Some r =>
      match _jbr_token_gate jbr req r with
      | (GATE_REPLY status, _) => http_send_error status
      | (GATE_PROCESS, r') => upd_ctx (fun _ => r') ;; _jbr_process jbr req
      end
  end.

(** ** The WebSocket upgrade *)

(** [_jbr_on_http_upgrade(req, requested_protocol, len)].  [anon] is the
    [read_anon] field of the session context [wctx]. *)
Definition _jbr_on_http_upgrade (jbr : JBR) (req : http_s)
           (requested_protocol : cstr) : M unit :=
  let path := fiobj_obj2cstr (req_path req) in
  if (negb (len path =? 1) || negb (ascii_eqb (nth 0 path NUL) "/"%char))
     || (negb (len requested_protocol =? 9)
         || negb (ascii_eqb (nth 1 requested_protocol NUL) "e"%char))
  then http_send_error 400
  else
    failed <- fault ;;
    if failed then http_send_error 500
    else
      emit (EvNew RES_WCTX) ;;
      let upgrade (anon : bool) : M unit :=
        failed <- fault ;;
        if failed then
          emit (EvDestroy RES_WCTX) ;;
          JBR_RC_REPORT jbr 500 (ERR JBR_ERROR_WS_UPGRADE)
        else emit (EvUpgrade anon) in
      match access_token (http jbr) with
      | None => upgrade false
      | Some tok =>
          let h := fiobj_hash_get2 (req_headers req) k_header_x_access_token in
          (* if (!h) { if (http->read_anon) wctx->read_anon = true;
                       else { free(wctx); 401; return; } } *)
          if fiobj_is_null h && negb (http_read_anon (http jbr)) then
            emit (EvDestroy RES_WCTX) ;; http_send_error 401
          else
            let anon := fiobj_is_null h in
            (* control continues with the type test, also when h is null *)
            if negb (fiobj_type_is_string h) then
              emit (EvDestroy RES_WCTX) ;; http_send_error 400
            else
              let hv := fiobj_obj2cstr h in
              if negb (Nat.eqb (List.length hv) (access_token_len (http jbr)))
                 || memcmp_ne hv tok (access_token_len (http jbr))
              then emit (EvDestroy RES_WCTX) ;; http_send_error 403
              else upgrade anon
      end.

(** What the server library did for the request: the trace of a handler run
    from the initial world. *)
Definition run (m : M unit) (faults : list bool) : list event :=
  w_trace (exec m (world_init faults)).

(** ** The WebSocket message handler *)

Definition JBR_MAX_KEY_LEN : Z := 36.

Inductive jbwsop_t : Type := JBWS_SET | JBWS_ADD | JBWS_DEL | JBWS_PATCH.

(** What [_jbr_ws_on_message] does with a frame: it closes the socket, or it
    calls one of the five document handlers with the C strings it cut out of
    the frame, or it returns without doing anything ([None]). *)
Inductive ws_call : Type :=
| WS_CLOSE
| WS_ADD_DOCUMENT (key coll json : cstr)
| WS_SET_DOCUMENT (key coll : cstr) (id : Z) (json : cstr)
| WS_DEL_DOCUMENT (key coll : cstr) (id : Z)
| WS_PATCH_DOCUMENT (key coll : cstr) (id : Z) (json : cstr)
| WS_QUERY (key query : cstr).

(** [for (pos = 0; pos < len && !isspace(data[pos]); ++pos);]: the bytes
    before [pos] and the bytes from [pos] on. *)
Fixpoint span_nonspace (s : cstr) : cstr * cstr :=
  match s with
  | c :: t =>
      if isspace c then ([], s)
      else let '(a, b) := span_nonspace t in (c :: a, b)
  | [] => ([], [])
  end.

(** [strncmp(a, b, n) == 0]; a byte read past the end of either string is
    its terminating NUL. *)
Fixpoint strncmp_eq (a b : cstr) (n : nat) : bool :=
  match n with
  | O => true
  | S n' =>
      let ca := hd NUL a in
      let cb := hd NUL b in
      if negb (ascii_eqb ca cb) then false
      else if ascii_eqb ca NUL then true
      else strncmp_eq (tl a) (tl b) n'
  end.

(** The chain of [strncmp] tests on the command token of [pos] bytes. *)
Definition ws_command (data : cstr) (pos : nat) : option jbwsop_t :=
  if strncmp_eq (lit "set") data pos then Some JBWS_SET
  else if strncmp_eq (lit "add") data pos then Some JBWS_ADD
  else if strncmp_eq (lit "del") data pos then Some JBWS_DEL
  else if strncmp_eq (lit "patch") data pos then Some JBWS_PATCH
  else None.

(** The loop that copies leading digits into [nbuf]: at most [n] of them. *)
Fixpoint take_digits (n : nat) (s : cstr) : cstr * cstr :=
  match n, s with
  | S n', c :: t =>
      if isdigit c then let '(d, r) := take_digits n' t in (c :: d, r)
      else ([], s)
  | _, _ => ([], s)
  end.

(** [_jbr_ws_on_message(ws, msg, is_text)].  [iwatoi] is the library's
    decimal conversion, which the handler applies to the digits it copied.
    Each string argument of a call is the byte range the handler delimits
    for it: the key and the collection are copied out and terminated, the
    rest of the frame is terminated in place ([data[len] = 0]) and, for
    [add], passed as it stands. *)
Definition _jbr_ws_on_message (iwatoi : cstr -> Z) (jbr : JBR)
           (msg : cstr) (is_text : bool) : option ws_call :=
  if negb is_text then Some WS_CLOSE
  else if len msg <? 1 then None
  else
    let data := skip_spaces msg in
    if len data <? 1 then None
    else
      (* Fetch key *)
      let '(key, rest) := span_nonspace data in
      if (len rest <? 1) || (len key >? JBR_MAX_KEY_LEN) then None
      else
        (* Space *)
        let data := skip_spaces rest in
        if len data <? 1 then None
        else
          (* Fetch command *)
          let '(cmd, after) := span_nonspace data in
          let wsop := if 0 <? len after
                      then ws_command data (List.length cmd) else None in
          match wsop with
          | None => Some (WS_QUERY key data)
          | Some op =>
              let data := skip_spaces after in
              if len data <? 1 then None
              else
                let '(coll, rest) := span_nonspace data in
                if (len coll <? 1) || (len rest <? 1)
                   || (len coll >? EJDB_COLLECTION_NAME_MAX_LEN jbr)
                then None
                else
                  let data := skip_spaces rest in
                  if len data <? 1 then None
                  else
                    match op with
                    | JBWS_ADD =>
                        Some (WS_ADD_DOCUMENT key coll data)
                    | _ =>
                        let '(nbuf, r) :=
                          take_digits (Z.to_nat (JBNUMBUF_SIZE jbr - 1)) data in
                        let data := skip_spaces r in
                        let id := iwatoi nbuf in
                        if id <? 1 then None
                        else
                          match op with
                          | JBWS_SET =>
                              Some (WS_SET_DOCUMENT key coll
                                                    id data)
                          | JBWS_DEL =>
                              Some (WS_DEL_DOCUMENT key coll id)
                          | JBWS_PATCH =>
                              Some (WS_PATCH_DOCUMENT key coll
                                                      id data)
                          | JBWS_ADD => None
                          end
                    end
          end.

(** ** Properties of traces *)

Definition is_write_headers (e : event) : bool :=
  match e with EvWriteHeaders _ _ => true | _ => false end.

(** A status-bearing response: [http_send_body] or [http_send_error]. *)
Definition is_response (e : event) : bool :=
  match e with EvSendBody _ _ _ _ | EvSendError _ => true | _ => false end.

(** The header block of a chunked response has been written. *)
Definition committed (t : list event) : bool := existsb is_write_headers t.

(** The status-bearing responses of a trace that come after a written header
    block. *)
Fixpoint late_responses (c : bool) (t : list event) : list event :=
  match t with
  | [] => []
  | e :: t' =>
      (if c && is_response e then [e] else [])
      ++ late_responses (c || is_write_headers e) t'
  end.

Definition event_status (e : event) : option Z :=
  match e with
  | EvSendError s | EvSendBody s _ _ _ | EvWriteHeaders s _ => Some s
  | _ => None
  end.

Definition not403 (e : event) : Prop := event_status e <> Some 403.

(** The statuses of the responses of a trace, in order. *)
Fixpoint responses (t : list event) : list Z :=
  match t with
  | [] => []
  | EvSendBody s _ _ _ :: t' | EvSendError s :: t' => s :: responses t'
  | _ :: t' => responses t'
  end.

(** The payloads handed to [fio_write], in order. *)
Fixpoint writes (t : list event) : list cstr :=
  match t with
  | [] => []
  | EvWrite d :: t' => d :: writes t'
  | _ :: t' => writes t'
  end.

Definition is_new_explain (e : event) : bool :=
  match e with EvNew RES_EXPLAIN => true | _ => false end.

Definition is_destroy_explain (e : event) : bool :=
  match e with EvDestroy RES_EXPLAIN => true | _ => false end.

Definition is_upgrade (e : event) : bool :=
  match e with EvUpgrade _ => true | _ => false end.

Definition count (p : event -> bool) (t : list event) : nat :=
  List.length (filter p t).

Definition held (b : option cstr) : nat :=
  match b with Some _ => 1%nat | None => 0%nat end.

(** The invariant of a request's world: a written header block means
    [data_sent] with status 200, no response came after a header block,
    every explain buffer allocated was released unless the context still
    holds it, and no 403 was sent unless the context is anonymous ([anon]
    is the context's [read_anon], which no handler changes). *)
Record stream_inv (anon : bool) (w : world) : Prop := mk_stream_inv {
  inv_anon : read_anon (w_ctx w) = anon;
  inv_commit : committed (w_trace w) = true ->
               data_sent (w_ctx w) = true /\ w_status w = 200;
  inv_late : late_responses false (w_trace w) = [];
  inv_explain : count is_new_explain (w_trace w)
                = (count is_destroy_explain (w_trace w)
                   + held (explain (w_ctx w)))%nat;
  inv_403 : anon = false -> Forall not403 (w_trace w)
}.

(** The result codes the stream functions of [jbr.c] produce themselves. *)
Definition stream_rc (rc : iwrc) : Prop :=
  rc = IW_OK \/ rc = ALLOC_FAILED \/ rc = ERR JBR_ERROR_SEND_RESPONSE.

(** [rc] is one of the two codes the [finish] switch of [_jbr_on_query]
    answers with 400. *)
Definition is_query_input_error (rc : iwrc) : bool :=
  rc_code_is (iwrc_strip_code rc) JQL_ERROR_QUERY_PARSE
  || rc_code_is (iwrc_strip_code rc) JQL_ERROR_NO_COLLECTION.

(** A computation that maintains the invariant and whose result is in [P]. *)
Definition keeps {A : Type} (P : A -> Prop) (m : M A) : Prop :=
  forall anon w,
    stream_inv anon w -> stream_inv anon (snd (m w)) /\ P (fst (m w)).

(** The part of the invariant that every handler maintains whatever the
    database returns. *)
Record res_inv (anon : bool) (w : world) : Prop := mk_res_inv {
  res_anon : read_anon (w_ctx w) = anon;
  res_explain : count is_new_explain (w_trace w)
                = (count is_destroy_explain (w_trace w)
                   + held (explain (w_ctx w)))%nat;
  res_403 : anon = false -> Forall not403 (w_trace w)
}.

(** An event that neither writes a header block nor touches the explain
    buffer; a response among them is allowed by [resp_ok] and is a 403 only
    for an anonymous context. *)
Definition plain_event (resp_ok anon : bool) (e : event) : Prop :=
  match e with
  | EvSendBody s _ _ _ | EvSendError s =>
      resp_ok = true /\ (s <> 403 \/ anon = true)
  | EvWriteHeaders _ _ | EvNew RES_EXPLAIN | EvDestroy RES_EXPLAIN => False
  | _ => True
  end.

(** [w'] comes from [w] by plain events only, with the context's flags and
    explain buffer untouched. *)
Record step (resp_ok : bool) (w w' : world) : Prop := mk_step {
  step_anon : read_anon (w_ctx w') = read_anon (w_ctx w);
  step_sent : data_sent (w_ctx w') = data_sent (w_ctx w);
  step_explain : explain (w_ctx w') = explain (w_ctx w);
  step_status : resp_ok = false -> w_status w' = w_status w;
  step_trace : exists d, w_trace w' = w_trace w ++ d
                         /\ Forall (plain_event resp_ok (read_anon (w_ctx w))) d
}.

(** ** Sample collaborators and requests

    A database of one collection in which only document 1 exists, whose
    queries visit [docs] and then return [exec_rc], and whose patch operation
    returns [patch_rc]. *)

Definition sample_jbl : JBL := mk_JBL (lit "{}") (lit "{ }") 5.

Definition sample_doc (n : Z) : EJDB_DOC := mk_EJDB_DOC n sample_jbl None.

Definition sample_db (docs : list EJDB_DOC) (exec_rc patch_rc : iwrc) : EJDB :=
  mk_EJDB
    (fun _ i => if i =? 1 then (IW_OK, sample_jbl)
                else (IW_ERR IWKV_ERROR_NOTFOUND 0, sample_jbl))
    (fun _ _ _ => IW_OK)
    (fun _ _ => (IW_OK, 7))
    (fun _ _ _ => patch_rc)
    (fun _ i => if i =? 1 then IW_OK else IW_ERR IWKV_ERROR_NOTFOUND 0)
    (fun _ => (IW_OK, sample_jbl))
    (fun _ => (IW_OK, mk_JQL false None))
    (fun _ => mk_exec_plan (lit "[INDEX] NO [COLLECTOR] PLAIN") docs exec_rc).

Definition sample_jbr (token : option cstr) (anon : bool)
           (docs : list EJDB_DOC) (exec_rc patch_rc : iwrc) : JBR :=
  mk_JBR (mk_EJDB_HTTP token anon) (sample_db docs exec_rc patch_rc)
         (fun _ => Some (lit "error")) 64 128.

Definition sample_req (m path : string) (hdrs : list (cstr * FIOBJ))
           (body : string) : http_s :=
  mk_http_s (FIOBJ_STRING 1 (lit m)) (FIOBJ_STRING 2 (lit path)) hdrs
            (lit body).

Definition hdr (name value : string) : cstr * FIOBJ :=
  (lit name, FIOBJ_STRING 3 (lit value)).

(** ** The query stream as the spec words it *)

(** The text the visitor prints for a document: the node form when the
    engine supplies one, the raw document otherwise. *)
Definition doc_json (d : EJDB_DOC) : cstr :=
  jbl_json (match doc_node d with Some n => n | None => doc_raw d end).

(** "The visitor appends each document using the frame
    [\r\n<decimal id>\t<document JSON>]". *)
Definition frame (d : EJDB_DOC) : cstr :=
  CRLF ++ fmt_lld (doc_id d) ++ [TAB] ++ doc_json d.

(** "a chunk is emitted: [<hex size>\r\n<buffered bytes>\r\n]", as the three
    writes that make it. *)
Definition chunk (b : cstr) : list cstr :=
  [fmt_zX (List.length b) ++ CRLF; b; CRLF].

(** "The terminating chunk is [0\r\n\r\n]". *)
Definition last_chunk : cstr := lit "0" ++ CRLF ++ CRLF.

(** The writes of a query response according to the spec, [buf] being the
    content of the assembly buffer: each document's frame is appended; when
    the buffer has reached the chunk threshold a chunk is emitted and the
    buffer cleared; after the last document the trailing [\r\n] is appended
    and the final chunk and the terminating chunk are emitted. *)
Fixpoint spec_stream (buf : cstr) (docs : list EJDB_DOC) : list cstr :=
  match docs with
  | [] => chunk (buf ++ CRLF) ++ [last_chunk]
  | d :: ds =>
      let b := buf ++ frame d in
      if JBR_HTTP_CHUNK_SIZE <=? len b then chunk b ++ spec_stream [] ds
      else spec_stream b ds
  end.

(** What the next visitor call puts in front of its document frame: the
    assembly buffer's content and, when an explain buffer is still attached,
    its content and the separator line. *)
Definition pending (r : JBRCTX) : cstr :=
  wbuf_bytes r
  ++ match explain r with
     | Some e => e ++ explain_separator
     | None => []
     end.

(** The header block of a chunked response. *)
Definition chunked_headers : headers :=
  [ (k_header_content_type, lit "application/json");
    (lit "transfer-encoding", lit "chunked") ].

(** The request carries the explain hint. *)
Definition hinted (req : http_s) : bool :=
  let h := fiobj_hash_get2 (req_headers req) k_header_x_hints in
  negb (fiobj_is_null h)
  && strstr_found (c_str (fiobj_obj2cstr h)) (lit "explain").

(** The X-Hints header is absent or a single value. *)
Definition hints_well_formed (req : http_s) : bool :=
  let h := fiobj_hash_get2 (req_headers req) k_header_x_hints in
  fiobj_is_null h || fiobj_type_is_string h.

(** The bytes in front of the first document frame of a query response. *)
Definition explain_prefix (jbr : JBR) (req : http_s) (q : JQL) : cstr :=
  if hinted req
  then ex_log (ejdb_exec_plan (db jbr) q) ++ explain_separator
  else [].

(** A query request that reaches [ejdb_exec]: it has a body that compiles,
    is allowed for the context, and its hints are well formed. *)
Definition query_admitted (jbr : JBR) (req : http_s) (q : JQL) (w : world)
  : Prop :=
  1 <= len (req_body req)
  /\ jql_create (db jbr) (req_body req) = (IW_OK, q)
  /\ read_anon (w_ctx w) && jql_has_apply q = false
  /\ hints_well_formed req = true.

(** A world at the entry of a handler, in which no library call will fail. *)
Definition fresh_world (w : world) : Prop :=
  w_faults w = [] /\ wbuf (w_ctx w) = None /\ explain (w_ctx w) = None
  /\ data_sent (w_ctx w) = false.

(** The world after [rctx->explain = iwxstr_new()] succeeded. *)
Definition attach_explain (w : world) : world :=
  mk_world (set_explain (Some []) (w_ctx w)) (w_status w) (w_out_headers w)
           (w_faults w) (w_trace w ++ [EvNew RES_EXPLAIN]).

(** What is pending in front of the first document of a query. *)
Definition first_pending (p : exec_plan) (r : JBRCTX) : cstr :=
  wbuf_bytes r
  ++ match explain r with
     | Some e => (e ++ ex_log p) ++ explain_separator
     | None => []
     end.

(** The world after [ejdb_exec] wrote the plan to the attached log. *)
Definition log_plan (p : exec_plan) (w : world) : world :=
  snd (upd_ctx (fun r => match explain r with
                         | Some e => set_explain (Some (e ++ ex_log p)) r
                         | None => r
                         end) w).

(** A query request on the root path, and the compiled query the sample
    database returns for it. *)
Definition sample_query_req (hdrs : list (cstr * FIOBJ)) : http_s :=
  sample_req "POST" "/" hdrs "@users/*".

Definition sample_q : JQL := mk_JQL false None.

(** The world in which the dispatcher calls the query handler for it. *)
Definition sample_query_world : world :=
  exec (upd_ctx (fun _ => set_method JBR_POST JBRCTX_zero)) (world_init []).

(** The context the parser fills for [HEAD /users/1], and the world in which
    the dispatcher calls [_jbr_on_get] for it. *)
Definition sample_head_ctx : JBRCTX :=
  set_id 1 (set_collection (Some (lit "users"))
              (set_method JBR_HEAD JBRCTX_zero)).

Definition sample_head_world : world :=
  exec (upd_ctx (fun _ => sample_head_ctx)) (world_init []).

(** ** Definitions for the properties beyond the spec's claims *)

(** The method names [_jbr_fill_ctx] compares the request's method with. *)
Definition method_name (m : jbr_method_t) : cstr :=
  match m with
  | JBR_GET => lit "GET"
  | JBR_PUT => lit "PUT"
  | JBR_PATCH => lit "PATCH"
  | JBR_DELETE => lit "DELETE"
  | JBR_POST => lit "POST"
  | JBR_HEAD => lit "HEAD"
  end.

(** The context [_jbr_fill_ctx] fills for a method, a collection and an id. *)
Definition ctx_of (m : jbr_method_t) (coll : cstr) (i : Z) : JBRCTX :=
  set_id i (set_collection (Some coll) (set_method m JBRCTX_zero)).

(** A collection name as it stands between two slashes of a path. *)
Definition path_component (s : cstr) : Prop :=
  Forall (fun c => c <> "/"%char /\ c <> NUL) s.

(** The world in which the dispatcher calls a document handler for the
    context [r], no library call failing. *)
Definition handler_world (r : JBRCTX) : world :=
  exec (upd_ctx (fun _ => r)) (world_init []).

Definition res_eqb (a b : res_t) : bool :=
  match a, b with
  | RES_WBUF, RES_WBUF | RES_EXPLAIN, RES_EXPLAIN
  | RES_XSTR, RES_XSTR | RES_WCTX, RES_WCTX => true
  | _, _ => false
  end.

(** Allocation and release of a resource of kind [k]. *)
Definition is_new (k : res_t) (e : event) : bool :=
  match e with EvNew k' => res_eqb k k' | _ => false end.

Definition is_destroy (k : res_t) (e : event) : bool :=
  match e with EvDestroy k' => res_eqb k k' | _ => false end.

(** The environment with the access token taken out of the configuration. *)
Definition without_token (jbr : JBR) : JBR :=
  mk_JBR (mk_EJDB_HTTP None (http_read_anon (http jbr))) (db jbr)
         (iwlog_ecode_explained jbr) (JBNUMBUF_SIZE jbr)
         (EJDB_COLLECTION_NAME_MAX_LEN jbr).

(** The entry test of [_jbr_on_http_upgrade] passes. *)
Definition upgrade_entry (req : http_s) (proto : cstr) : Prop :=
  fiobj_obj2cstr (req_path req) = lit "/"
  /\ len proto = 9 /\ nth 1 proto NUL = "e"%char.

(** The request carries the configured token, or none is configured. *)
Definition token_presented (jbr : JBR) (req : http_s) : Prop :=
  match access_token (http jbr) with
  | None => True
  | Some tok =>
      exists p, fiobj_hash_get2 (req_headers req) k_header_x_access_token
                = FIOBJ_STRING p tok
  end.

(** *** WebSocket frames *)

(** A run of bytes without white space, and a run of white space. *)
Definition nonspace (s : cstr) : Prop := Forall (fun c => isspace c = false) s.

Definition whitespace (s : cstr) : Prop :=
  Forall (fun c => isspace c = true) s.

(** A non-empty buffer whose first byte is not white space. *)
Definition starts_text (s : cstr) : Prop :=
  match s with c :: _ => isspace c = false | [] => False end.

(** A buffer that does not go on with a digit. *)
Definition no_leading_digit (s : cstr) : Prop :=
  match s with c :: _ => isdigit c = false | [] => True end.

(** A key as it fits [keybuf], a collection name as it fits [cnamebuf]. *)
Definition ws_key_ok (key : cstr) : Prop :=
  1 <= len key <= JBR_MAX_KEY_LEN /\ nonspace key.

Definition ws_coll_ok (jbr : JBR) (coll : cstr) : Prop :=
  1 <= len coll <= EJDB_COLLECTION_NAME_MAX_LEN jbr /\ nonspace coll.

(** What holds of the arguments of a call [_jbr_ws_on_message] makes. *)
Definition ws_call_ok (jbr : JBR) (is_text : bool) (c : ws_call) : Prop :=
  match c with
  | WS_CLOSE => is_text = false
  | WS_ADD_DOCUMENT key coll json =>
      is_text = true /\ ws_key_ok key /\ ws_coll_ok jbr coll
      /\ starts_text json
  | WS_SET_DOCUMENT key coll id json | WS_PATCH_DOCUMENT key coll id json =>
      is_text = true /\ ws_key_ok key /\ ws_coll_ok jbr coll /\ 1 <= id
      /\ (json = [] \/ starts_text json)
  | WS_DEL_DOCUMENT key coll id =>
      is_text = true /\ ws_key_ok key /\ ws_coll_ok jbr coll /\ 1 <= id
  | WS_QUERY key query =>
      is_text = true /\ ws_key_ok key /\ starts_text query
  end.

Definition ws_command_name (op : jbwsop_t) : cstr :=
  match op with
  | JBWS_SET => lit "set"
  | JBWS_ADD => lit "add"
  | JBWS_DEL => lit "del"
  | JBWS_PATCH => lit "patch"
  end.

(** The call for a document command with an id. *)
Definition ws_id_call (op : jbwsop_t) (key coll : cstr) (id : Z)
           (json : cstr) : option ws_call :=
  match op with
  | JBWS_SET => Some (WS_SET_DOCUMENT key coll id json)
  | JBWS_DEL => Some (WS_DEL_DOCUMENT key coll id)
  | JBWS_PATCH => Some (WS_PATCH_DOCUMENT key coll id json)
  | JBWS_ADD => None
  end.

(** A command token: a non-empty beginning of a command name. *)
Definition ws_abbreviates (cmd : cstr) (op : jbwsop_t) : Prop :=
  cmd <> [] /\ is_prefix cmd (ws_command_name op) = true.

(** A decimal conversion for the samples: [iwatoi] on a run of digits. *)
Definition sample_iwatoi (s : cstr) : Z := fst (strtoll s).

(** A non-empty run of white space. *)
Definition spaces (s : cstr) : Prop := s <> [] /\ whitespace s.

Definition sample_ws_jbr : JBR := sample_jbr None false [] IW_OK IW_OK.

(** *** The chunks of a query response *)

(** The body a chunked response carries for the documents [docs] after the
    bytes [prefix]: the frames, then the closing line end. *)
Definition stream_body (prefix : cstr) (docs : list EJDB_DOC) : cstr :=
  prefix ++ List.concat (map frame docs) ++ CRLF.

(** The writes that send the data chunks [bs] and the terminating chunk. *)
Definition chunk_writes (bs : list cstr) : list cstr :=
  List.concat (map chunk bs) ++ [last_chunk].

(** *** The buffers a request allocates *)

(** Every assembly buffer that was allocated has been released, unless the
    context still holds it, and every string buffer of [_jbr_on_get] has been
    released. *)
Record buf_inv (w : world) : Prop := mk_buf_inv {
  buf_wbuf : count (is_new RES_WBUF) (w_trace w)
             = (count (is_destroy RES_WBUF) (w_trace w)
                + held (wbuf (w_ctx w)))%nat;
  buf_xstr : count (is_new RES_XSTR) (w_trace w)
             = count (is_destroy RES_XSTR) (w_trace w)
}.

(** The context holds no assembly buffer, or holds one. *)
Definition released (w : world) : Prop :=
  buf_inv w /\ wbuf (w_ctx w) = None.

Definition attached (w : world) : Prop :=
  buf_inv w /\ wbuf (w_ctx w) <> None.

(** An event that neither allocates nor releases one of the two buffers. *)
Definition buf_event (e : event) : bool :=
  match e with
  | EvNew RES_WBUF | EvDestroy RES_WBUF
  | EvNew RES_XSTR | EvDestroy RES_XSTR => false
  | _ => true
  end.

(** [w'] comes from [w] without touching the two buffers. *)
Record buf_step (w w' : world) : Prop := mk_buf_step {
  bs_wbuf : wbuf (w_ctx w') = wbuf (w_ctx w);
  bs_trace : exists d, w_trace w' = w_trace w ++ d
                       /\ forallb buf_event d = true
}.

(** A computation that leaves the assembly buffer attached. *)
Definition keeps_attached {A : Type} (m : M A) : Prop :=
  forall w, attached w -> attached (snd (m w)).

(** *** Answered requests *)

Definition is_complete (e : event) : bool :=
  match e with EvComplete => true | _ => false end.

(** The exchange was finished: a response was sent, or the chunked response
    was completed. *)
Definition answered (t : list event) : bool :=
  existsb (fun e => is_response e || is_complete e) t.

Definition is_log (e : event) : bool :=
  match e with EvLog _ => true | _ => false end.

(** *** The end of a chunked response *)








(** * Proofs *)

(** ** Traces *)

Lemma late_responses_app c t1 t2 :
  late_responses c (t1 ++ t2)
  = late_responses c t1 ++ late_responses (c || committed t1) t2.
Proof.
  revert c; induction t1 as [|e t1 IH]; intros c; simpl.
  - now rewrite orb_false_r.
  - rewrite IH, <- app_assoc. now rewrite orb_assoc.
Qed.

Lemma committed_app t1 t2 : committed (t1 ++ t2) = committed t1 || committed t2.
Proof. apply existsb_app. Qed.

Lemma count_app p t1 t2 : count p (t1 ++ t2) = (count p t1 + count p t2)%nat.
Proof. unfold count. now rewrite filter_app, length_app. Qed.

Lemma late_responses_uncommitted t :
  committed t = false -> late_responses false t = [].
Proof.
  induction t as [|e t IH]; simpl; auto.
  intros H. apply orb_false_elim in H as [He Ht]. rewrite He. auto.
Qed.

(** ** Symbolic execution of the monad *)

Ltac unfold_m :=
  unfold JBR_RC_REPORT, _jbr_http_error_send, _jbr_http_error_send2,
    _jbr_http_send, write_or_fail, jbl_as_json_wbuf, iwxstr_cat_wbuf,
    iwxstr_destroy_explain, iwxstr_destroy_wbuf,
    fio_write, http_write_headers, http_send_body,
    http_send_error, http_complete,
    _jbr_http_set_content_type, _jbr_http_set_header,
    iwlog_ecode_error3, rcret, bind, ret, get_ctx, upd_ctx, emit,
    set_status, set_out_headers, fault, exec in *.

Ltac no_match x :=
  lazymatch x with
  | context [match _ with _ => _ end] => fail
  | _ => idtac
  end.

(** Split on the innermost undecided test of the goal. *)
Ltac break :=
  match goal with
  | |- context [match ?x with _ => _ end] =>
      no_match x; destruct x eqn:?; simpl in *
  end.

Ltac open_world w :=
  let ctx := fresh "ctx" in
  let tr := fresh "tr" in
  destruct w as [ctx ? ? ? tr]; destruct ctx; simpl in *;
  destruct (committed tr) eqn:?.

Ltac inv_leaf :=
  simpl in *; unfold count in *;
  rewrite ?committed_app, ?late_responses_app, ?filter_app, ?length_app,
    ?Forall_app in *;
  simpl in *;
  rewrite ?orb_false_r, ?orb_true_r, ?andb_false_r, ?andb_true_r,
    ?app_nil_r, ?Nat.add_0_r in *;
  repeat match goal with
         | H : ?c = true -> _ /\ _ |- _ =>
             first [ specialize (H eq_refl) | clear H ]
         | H : _ /\ _ |- _ => destruct H
         | H : ?a = ?a -> _ |- _ => specialize (H eq_refl)
         end;
  subst; simpl in *;
  try solve [ repeat split; intros;
              repeat match goal with
                     | |- Forall _ (_ :: _) => constructor
                     | |- Forall _ [] => constructor
                     | |- not403 _ => unfold not403; simpl; congruence
                     end;
              auto; try congruence; try lia ].

Ltac crush_inv w :=
  let H := fresh "Hinv" in
  intros H; destruct H as [? ? ? ? ?]; open_world w;
  unfold_m; simpl in *; repeat break;
  (split; [constructor | try (unfold stream_rc; now auto)]); inv_leaf.

(** ** The invariant along the query stream *)

Lemma keeps_ret (A : Type) (P : A -> Prop) (a : A) : P a -> keeps P (ret a).
Proof. intros H anon w Hw. now split. Qed.

Lemma keeps_bind (A B : Type) (P : A -> Prop) (Q : B -> Prop)
      (m : M A) (k : A -> M B) :
  keeps P m -> (forall a, P a -> keeps Q (k a)) -> keeps Q (bind m k).
Proof.
  intros Hm Hk anon w Hw. unfold bind.
  destruct (Hm anon w Hw) as [H1 H2]. destruct (m w) as [a w']. simpl in *.
  now apply Hk.
Qed.

Lemma keeps_rcret (m k : M iwrc) :
  keeps stream_rc m -> keeps stream_rc k -> keeps stream_rc (m ;;? k).
Proof.
  intros Hm Hk. unfold rcret. eapply keeps_bind; [exact Hm|].
  intros rc Hrc. destruct (rc_is_err rc); [now apply keeps_ret | exact Hk].
Qed.

Lemma keeps_get_ctx (A : Type) (P : A -> Prop) (k : JBRCTX -> M A) :
  (forall anon w, stream_inv anon w ->
             stream_inv anon (snd (k (w_ctx w) w)) /\ P (fst (k (w_ctx w) w))) ->
  keeps P (r <- get_ctx ;; k r).
Proof. intros H anon w Hw. unfold bind, get_ctx. now apply H. Qed.

Lemma keeps_write_or_fail data : keeps stream_rc (write_or_fail data).
Proof. intros anon w. crush_inv w. Qed.

Lemma keeps_iwxstr_cat_wbuf data : keeps stream_rc (iwxstr_cat_wbuf data).
Proof. intros anon w. crush_inv w. Qed.

Lemma keeps_flush_headers :
  keeps stream_rc
    (r <- get_ctx ;;
     if negb (data_sent r) then
       set_status 200 ;;
       _jbr_http_set_content_type (lit "application/json") ;;
       _jbr_http_set_header (lit "transfer-encoding") (lit "chunked") ;;
       failed <- http_write_headers ;;
       if failed then
         iwlog_ecode_error3 (ERR JBR_ERROR_SEND_RESPONSE) ;;
         ret (ERR JBR_ERROR_SEND_RESPONSE)
       else (upd_ctx (set_data_sent true) ;; ret IW_OK)
     else ret IW_OK).
Proof. intros anon w. crush_inv w. Qed.

Lemma keeps_clear_wbuf :
  keeps stream_rc (upd_ctx (set_wbuf (Some [])) ;; ret IW_OK).
Proof. intros anon w. crush_inv w. Qed.

Lemma rcret_inv (m k : M iwrc) (anon : bool) (w : world) :
  stream_inv anon (snd (m w)) /\ stream_rc (fst (m w)) ->
  keeps stream_rc k ->
  stream_inv anon (snd ((m ;;? k) w)) /\ stream_rc (fst ((m ;;? k) w)).
Proof.
  intros [H1 H2] Hk. unfold rcret, bind.
  destruct (m w) as [rc w1]. simpl in *.
  destruct (rc_is_err rc); [now split | now apply Hk].
Qed.

Lemma keeps_flush_chunk finish : keeps stream_rc (_jbr_flush_chunk finish).
Proof.
  unfold _jbr_flush_chunk. apply keeps_get_ctx. intros anon w Hw.
  apply rcret_inv; [exact (keeps_flush_headers Hw)|].
  apply keeps_get_ctx. clear anon w Hw. intros anon w Hw.
  destruct (negb finish && (len (wbuf_bytes (w_ctx w)) <? JBR_HTTP_CHUNK_SIZE)).
  - split; [exact Hw | now left].
  - apply rcret_inv.
    + destruct (0 <? _).
      * apply (keeps_rcret (keeps_write_or_fail _)
                 (keeps_rcret (keeps_write_or_fail _)
                    (keeps_rcret (keeps_write_or_fail _) keeps_clear_wbuf))).
        exact Hw.
      * split; [exact Hw | now left].
    + destruct finish; [apply keeps_write_or_fail |].
      apply keeps_ret; now left.
Qed.

Lemma keeps_visitor_alloc :
  keeps stream_rc
    (r <- get_ctx ;;
     match wbuf r with
     | Some _ => ret IW_OK
     | None =>
         failed <- fault ;;
         if failed then ret (iwrc_set_errno IW_ERROR_ALLOC ENOMEM)
         else (emit (EvNew RES_WBUF) ;; upd_ctx (set_wbuf (Some [])) ;;
               ret IW_OK)
     end).
Proof. intros anon w. crush_inv w. Qed.

Lemma keeps_visitor_explain :
  keeps stream_rc
    (r <- get_ctx ;;
     match explain r with
     | Some e =>
         iwxstr_cat_wbuf e ;;?
         iwxstr_cat_wbuf explain_separator ;;?
         (emit (EvDestroy RES_EXPLAIN) ;; upd_ctx (set_explain None) ;;
          ret IW_OK)
     | None => ret IW_OK
     end).
Proof. intros anon w. crush_inv w. Qed.

Lemma keeps_query_visitor doc : keeps stream_rc (_jbr_query_visitor doc).
Proof.
  unfold _jbr_query_visitor. apply keeps_get_ctx. intros anon w Hw.
  apply rcret_inv; [exact (keeps_visitor_alloc Hw)|].
  apply keeps_get_ctx. clear anon w Hw. intros anon w Hw.
  apply rcret_inv; [exact (keeps_visitor_explain Hw)|].
  apply keeps_rcret; [apply keeps_iwxstr_cat_wbuf|].
  apply keeps_rcret; [|apply keeps_flush_chunk].
  destruct (doc_node doc); apply keeps_iwxstr_cat_wbuf.
Qed.

Lemma keeps_visit_all docs : keeps stream_rc (visit_all docs).
Proof.
  induction docs as [|d ds IH]; simpl.
  - apply keeps_ret; now left.
  - apply keeps_rcret; [apply keeps_query_visitor | exact IH].
Qed.

Lemma keeps_log_plan (p : exec_plan) :
  keeps (fun _ : unit => True)
    (upd_ctx (fun r => match explain r with
                       | Some e => set_explain (Some (e ++ ex_log p)) r
                       | None => r
                       end)).
Proof.
  intros anon w [? ? ? ? ?]. open_world w; unfold_m; simpl;
    (split; [|exact I]); destruct explain0; constructor; inv_leaf.
Qed.

Lemma keeps_rcret_result (m : M iwrc) (x : iwrc) :
  keeps stream_rc m ->
  keeps (fun rc => stream_rc rc \/ rc = x) (m ;;? ret x).
Proof.
  intros Hm anon w Hw. destruct (Hm anon w Hw) as [H1 H2].
  unfold rcret, bind, ret. destruct (m w) as [rc w1]. simpl in *.
  destruct (rc_is_err rc); simpl; auto.
Qed.

(** [ejdb_exec] returns either an error of the stream or the engine's own
    result. *)
Lemma keeps_ejdb_exec p :
  keeps (fun rc => stream_rc rc \/ rc = ex_rc p) (ejdb_exec p).
Proof.
  unfold ejdb_exec. eapply keeps_bind; [apply keeps_log_plan|].
  intros _ _. apply keeps_rcret_result, keeps_visit_all.
Qed.


(** ** Plain steps *)

Lemma stream_inv_res_aux anon w : stream_inv anon w -> res_inv anon w.
Proof. intros [? ? ? ? ?]. now constructor. Qed.

Lemma step_refl b w : step b w w.
Proof. constructor; auto. exists []. now rewrite app_nil_r. Qed.

Lemma step_trans b w1 w2 w3 : step b w1 w2 -> step b w2 w3 -> step b w1 w3.
Proof.
  intros [A1 S1 E1 T1 (d1 & D1 & F1)] [A2 S2 E2 T2 (d2 & D2 & F2)].
  constructor; try congruence.
  - intros Hb. rewrite T2, T1; auto.
  - exists (d1 ++ d2). rewrite D2, D1, app_assoc. split; auto.
    apply Forall_app. split; auto. now rewrite <- A1.
Qed.

Lemma plain_event_weaken anon e : plain_event false anon e -> plain_event true anon e.
Proof. destruct e; simpl; auto; intros []; discriminate. Qed.

Lemma step_weaken w w' : step false w w' -> step true w w'.
Proof.
  intros [A S E T (d & D & F)]. constructor; auto; try discriminate.
  exists d. split; auto.
  eapply Forall_impl; [|exact F]. apply plain_event_weaken.
Qed.

Lemma plain_not_committed b anon d :
  Forall (plain_event b anon) d -> committed d = false.
Proof.
  induction 1 as [|e d He _ IH]; simpl; auto.
  rewrite IH, orb_false_r. now destruct e.
Qed.

Lemma plain_quiet_late anon c d :
  Forall (plain_event false anon) d -> late_responses c d = [].
Proof.
  intros H. revert c. induction H as [|e d He _ IH]; intros c; simpl; auto.
  rewrite IH. destruct e; simpl in *; rewrite ?andb_false_r; auto;
    destruct He; discriminate.
Qed.

Lemma plain_count_new b anon d :
  Forall (plain_event b anon) d -> count is_new_explain d = 0%nat.
Proof.
  unfold count. induction 1 as [|e d He _ IH]; simpl; auto.
  destruct e as [| | | | | | |r|r]; simpl; auto; destruct r; simpl in *; tauto.
Qed.

Lemma plain_count_destroy b anon d :
  Forall (plain_event b anon) d -> count is_destroy_explain d = 0%nat.
Proof.
  unfold count. induction 1 as [|e d He _ IH]; simpl; auto.
  destruct e as [| | | | | | |r|r]; simpl; auto; destruct r; simpl in *; tauto.
Qed.

Lemma plain_not403 b d :
  Forall (plain_event b false) d -> Forall not403 d.
Proof.
  apply Forall_impl. intros e He. unfold not403.
  destruct e; simpl in *; try discriminate; try tauto;
    destruct He as [_ [H|H]]; try discriminate; congruence.
Qed.

Lemma step_res_inv b anon w w' : step b w w' -> res_inv anon w -> res_inv anon w'.
Proof.
  intros [A S E T (d & D & F)] [R0 R1 R2]. constructor.
  - congruence.
  - rewrite D, !count_app, E, R1,
      (plain_count_new F), (plain_count_destroy F). lia.
  - rewrite D. intros Ha. apply Forall_app. split; auto.
    rewrite R0, Ha in F. eapply plain_not403; eauto.
Qed.

Lemma step_stream_inv b anon w w' :
  step b w w' -> stream_inv anon w ->
  b = false \/ data_sent (w_ctx w) = false -> stream_inv anon w'.
Proof.
  intros Hs Hw Hc.
  destruct (step_res_inv Hs (stream_inv_res_aux Hw)) as [R0 R1 R2].
  destruct Hs as [A S E T (d & D & F)]. destruct Hw as [I0 I1 I2 I3 I4].
  clear I0.
  assert (Hd : committed d = false) by (eapply plain_not_committed; eauto).
  constructor; auto.
  - rewrite D, committed_app, Hd, orb_false_r, S. intros Hcm.
    destruct (I1 Hcm) as [Hds Hst]. split; auto.
    destruct Hc as [->|Hc]; [rewrite T; auto | congruence].
  - rewrite D, late_responses_app, I2. simpl.
    destruct Hc as [->|Hc]; [eapply plain_quiet_late; eauto|].
    destruct (committed (w_trace w)) eqn:Hcm.
    + destruct (I1 eq_refl). congruence.
    + now apply late_responses_uncommitted.
Qed.

Lemma step_ret b (A : Type) (a : A) w : step b w (snd (ret a w)).
Proof. apply step_refl. Qed.

Lemma step_bind b (A B : Type) (m : M A) (k : A -> M B) w :
  step b w (snd (m w)) ->
  (forall a, step b (snd (m w)) (snd (k a (snd (m w))))) ->
  step b w (snd (bind m k w)).
Proof.
  intros H1 H2. unfold bind. destruct (m w) as [a w1]. simpl in *.
  eapply step_trans; eauto.
Qed.

Lemma step_get_ctx b (A : Type) (k : JBRCTX -> M A) w :
  step b w (snd (k (w_ctx w) w)) -> step b w (snd ((r <- get_ctx ;; k r) w)).
Proof. auto. Qed.

Lemma step_emit b e w :
  plain_event b (read_anon (w_ctx w)) e -> step b w (snd (emit e w)).
Proof. intros H. constructor; simpl; auto. exists [e]. auto. Qed.

Lemma step_fault b w : step b w (snd (fault w)).
Proof.
  unfold fault. destruct (w_faults w); simpl; [apply step_refl|].
  constructor; simpl; auto. exists []. now rewrite app_nil_r.
Qed.

Lemma step_http_send status ctype body n w :
  status <> 403 \/ read_anon (w_ctx w) = true ->
  step true w (snd (_jbr_http_send status ctype body n w)).
Proof.
  intros H. destruct w as [ctx st oh fl tr]. unfold_m. simpl in *.
  repeat break; constructor; simpl; auto; try discriminate;
    rewrite <- ?app_assoc; eexists; (split; [reflexivity|]);
    repeat first [apply Forall_nil | apply Forall_cons]; simpl; auto.
Qed.

Lemma step_http_send_error status w :
  status <> 403 \/ read_anon (w_ctx w) = true ->
  step true w (snd (http_send_error status w)).
Proof. intros H. apply step_emit. simpl. auto. Qed.

Lemma step_log b rc w : step b w (snd (iwlog_ecode_error3 rc w)).
Proof. apply step_emit. exact I. Qed.

Lemma step_http_complete b w : step b w (snd (http_complete w)).
Proof. apply step_emit. exact I. Qed.

Lemma step_rc_report jbr code rc w :
  code <> 403 -> step true w (snd (JBR_RC_REPORT jbr code rc w)).
Proof.
  intros H. unfold JBR_RC_REPORT. apply step_bind.
  - destruct (500 <=? code); [apply step_log | apply step_ret].
  - intros _. apply step_bind; [|intros; apply step_ret].
    apply step_http_send. now left.
Qed.

Ltac hbreak :=
  match goal with
  | |- context [match ?x with _ => _ end] =>
      no_match x; destruct x eqn:?; cbv beta iota
  end.

Ltac side403 := solve [ left; discriminate | right; assumption | discriminate ].

Ltac step_tac :=
  unfold _jbr_http_error_send, _jbr_http_error_send2;
  repeat first
    [ apply step_ret
    | apply step_get_ctx
    | apply step_http_send; side403
    | apply step_http_send_error; side403
    | apply step_rc_report; side403
    | apply step_log
    | apply step_http_complete
    | apply step_fault
    | apply step_emit; exact I
    | apply step_bind; [|intros ?]
    | hbreak ].

(** The five document handlers only answer: they leave the context alone and
    send a 403 only to an anonymous context. *)
Lemma step_on_put jbr req w : step true w (exec (_jbr_on_put jbr req) w).
Proof. unfold _jbr_on_put, exec. step_tac. Qed.

Lemma step_on_post jbr req w : step true w (exec (_jbr_on_post jbr req) w).
Proof. unfold _jbr_on_post, exec. step_tac. Qed.

Lemma step_on_patch jbr req w : step true w (exec (_jbr_on_patch jbr req) w).
Proof. unfold _jbr_on_patch, exec. step_tac. Qed.

Lemma step_on_delete jbr req w : step true w (exec (_jbr_on_delete jbr req) w).
Proof. unfold _jbr_on_delete, exec. step_tac. Qed.

Lemma step_on_get jbr req w : step true w (exec (_jbr_on_get jbr req) w).
Proof. unfold _jbr_on_get, exec. step_tac. Qed.

(** ** The query handler *)

Lemma exec_bind (A B : Type) (m : M A) (k : A -> M B) w :
  exec (bind m k) w = exec (k (fst (m w))) (snd (m w)).
Proof. unfold exec, bind. now destruct (m w). Qed.

Lemma destroy_explain_res anon w :
  res_inv anon w ->
  res_inv anon (snd (iwxstr_destroy_explain w))
  /\ explain (w_ctx (snd (iwxstr_destroy_explain w))) = None.
Proof.
  intros [R0 R1 R2]. destruct w as [ctx st oh fl tr]; destruct ctx.
  unfold_m; simpl in *. destruct explain0; simpl; split; auto;
    constructor; simpl in *; rewrite ?count_app, ?Forall_app; simpl;
    try lia; auto.
  intros Ha. split; auto. repeat constructor. discriminate.
Qed.

Lemma destroy_explain_stream anon w :
  stream_inv anon w -> stream_inv anon (snd (iwxstr_destroy_explain w)).
Proof.
  intros Hw. destruct (destroy_explain_res (stream_inv_res_aux Hw)) as [[R0 R1 R2] _].
  destruct Hw as [I0 I1 I2 I3 I4].
  destruct w as [ctx st oh fl tr]; destruct ctx.
  unfold_m; simpl in *. destruct explain0; simpl in *;
    constructor; simpl in *; auto.
  - rewrite committed_app. simpl. now rewrite orb_false_r.
  - rewrite late_responses_app, I2. simpl. now rewrite andb_false_r.
Qed.

Lemma step_destroy_wbuf w : step false w (snd (iwxstr_destroy_wbuf w)).
Proof.
  destruct w as [ctx st oh fl tr]; destruct ctx.
  unfold_m; simpl. destruct wbuf0; simpl; [|apply step_refl].
  constructor; simpl; auto. exists [EvDestroy RES_WBUF]. split; auto.
  repeat constructor.
Qed.

Lemma step_finish_response jbr q rc r w :
  step true w (snd (finish_response jbr q rc r w)).
Proof.
  unfold finish_response. step_tac;
    apply step_weaken; first [apply step_log | apply step_http_complete].
Qed.

Lemma step_finish_response_quiet jbr q rc r w :
  data_sent r = true -> is_query_input_error rc = false ->
  step false w (snd (finish_response jbr q rc r w)).
Proof.
  unfold finish_response, is_query_input_error. intros Hd He.
  apply orb_false_elim in He as [-> ->]. rewrite Hd.
  destruct (rc_is_err rc); cbv beta iota zeta; step_tac.
Qed.

Lemma query_finish_inv jbr q rc anon w :
  stream_inv anon w ->
  res_inv anon (exec (_jbr_on_query_finish jbr q rc) w)
  /\ explain (w_ctx (exec (_jbr_on_query_finish jbr q rc) w)) = None
  /\ (data_sent (w_ctx w) = false \/ is_query_input_error rc = false ->
      stream_inv anon (exec (_jbr_on_query_finish jbr q rc) w)).
Proof.
  intros Hw.
  unfold _jbr_on_query_finish. rewrite exec_bind. cbn [get_ctx fst snd].
  rewrite exec_bind. set (w1 := snd (finish_response jbr q rc (w_ctx w) w)).
  rewrite exec_bind. set (w2 := snd (iwxstr_destroy_explain w1)).
  unfold exec.
  pose proof (step_finish_response jbr q rc (w_ctx w) w) as S1. fold w1 in S1.
  pose proof (step_res_inv S1 (stream_inv_res_aux Hw)) as R1.
  destruct (destroy_explain_res R1) as [R2 E2]. fold w2 in R2, E2.
  pose proof (step_destroy_wbuf w2) as S3.
  split; [eapply step_res_inv; eauto|].
  split; [rewrite (step_explain S3); exact E2|].
  intros Hc. eapply step_stream_inv; [exact S3| |now left].
  apply destroy_explain_stream.
  destruct (data_sent (w_ctx w)) eqn:Hd.
  - destruct Hc as [Hc|Hc]; [discriminate|].
    eapply step_stream_inv; [|exact Hw|now left].
    now apply step_finish_response_quiet.
  - eapply step_stream_inv; [exact S1|exact Hw|now right].
Qed.

Lemma stream_rc_not_input_error rc :
  stream_rc rc -> is_query_input_error rc = false.
Proof. intros [->|[->| ->]]; reflexivity. Qed.

Lemma query_hints_inv h anon w :
  stream_inv anon w -> explain (w_ctx w) = None ->
  stream_inv anon (snd (query_hints h w))
  /\ data_sent (w_ctx (snd (query_hints h w))) = data_sent (w_ctx w).
Proof.
  intros [I0 I1 I2 I3 I4] He. unfold query_hints.
  destruct (negb (fiobj_is_null h) && _); [|split; [now constructor|reflexivity]].
  destruct w as [ctx st oh fl tr]; destruct ctx. simpl in *. subst.
  unfold_m. simpl. unfold count in *.
  destruct fl as [|[] fl]; simpl;
    (split; [|reflexivity]); constructor; simpl in *; auto;
    rewrite ?committed_app, ?late_responses_app, ?filter_app, ?length_app,
      ?Forall_app;
    simpl; rewrite ?orb_false_r, ?andb_false_r, ?app_nil_r; auto;
    try lia.
  all: try (rewrite !count_app; unfold count; simpl; lia).
  all: intros Ha; (split; auto); repeat constructor; discriminate.
Qed.

Lemma query_close_inv rc r anon w :
  stream_inv anon w ->
  stream_inv anon (snd (query_close rc r w))
  /\ (is_query_input_error rc = false ->
      is_query_input_error (fst (query_close rc r w)) = false).
Proof.
  intros Hw. unfold query_close.
  destruct rc; [destruct (wbuf r)|]; try (split; [exact Hw|auto]).
  destruct (keeps_rcret (keeps_iwxstr_cat_wbuf CRLF) (keeps_flush_chunk true) Hw)
    as [H1 H2].
  split; auto using stream_rc_not_input_error.
Qed.

Lemma step_final (P : Prop) anon w w' :
  step true w w' -> stream_inv anon w ->
  data_sent (w_ctx w) = false -> explain (w_ctx w) = None ->
  res_inv anon w' /\ explain (w_ctx w') = None /\ (P -> stream_inv anon w').
Proof.
  intros Hs Hw Hd He. split; [|split].
  - eapply step_res_inv; eauto using stream_inv_res_aux.
  - now rewrite (step_explain Hs).
  - intros _. eapply step_stream_inv; eauto.
Qed.

Lemma on_query_inv jbr req anon w :
  stream_inv anon w -> data_sent (w_ctx w) = false -> explain (w_ctx w) = None ->
  res_inv anon (exec (_jbr_on_query jbr req) w)
  /\ explain (w_ctx (exec (_jbr_on_query jbr req) w)) = None
  /\ (is_query_input_error
        (ex_rc (ejdb_exec_plan (db jbr)
                  (snd (jql_create (db jbr) (req_body req))))) = false ->
      stream_inv anon (exec (_jbr_on_query jbr req) w)).
Proof.
  intros Hw Hd He. unfold _jbr_on_query.
  destruct (len (req_body req) <? 1).
  { apply step_final with (w := w); auto. unfold exec. step_tac. }
  destruct (jql_create (db jbr) (req_body req)) as [rc q]. cbn [snd].
  destruct (rc_is_err rc).
  { destruct (query_finish_inv jbr q rc Hw) as (A & B & C).
    split; [exact A|]. split; [exact B|]. intros _. apply C. now left. }
  rewrite exec_bind. cbn [get_ctx fst snd].
  destruct (read_anon (w_ctx w) && jql_has_apply q) eqn:Han.
  { apply andb_prop in Han as [Han _].
    apply step_final with (w := w); auto. unfold exec. step_tac. }
  set (h := fiobj_hash_get2 (req_headers req) k_header_x_hints).
  destruct (negb (fiobj_is_null h) && negb (fiobj_type_is_string h)).
  { apply step_final with (w := w); auto. unfold exec. step_tac. }
  rewrite exec_bind.
  destruct (query_hints_inv h Hw He) as [H1 D1].
  set (w1 := snd (query_hints h w)) in *.
  destruct (rc_is_err (fst (query_hints h w))).
  { destruct (query_finish_inv jbr q (fst (query_hints h w)) H1) as (A & B & C).
    split; [exact A|]. split; [exact B|]. intros _. apply C. left. congruence. }
  unfold query_run. rewrite exec_bind.
  destruct (keeps_ejdb_exec (ejdb_exec_plan (db jbr) q) H1) as [H2 R2].
  set (w2 := snd (ejdb_exec (ejdb_exec_plan (db jbr) q) w1)) in *.
  set (rc2 := fst (ejdb_exec (ejdb_exec_plan (db jbr) q) w1)) in *.
  rewrite exec_bind. cbn [get_ctx fst snd]. rewrite exec_bind.
  destruct (query_close_inv rc2 (w_ctx w2) H2) as [H3 R3].
  destruct (query_finish_inv jbr q (fst (query_close rc2 (w_ctx w2) w2)) H3)
    as (A & B & C).
  split; [exact A|]. split; [exact B|]. intros Hx. apply C. right. apply R3.
  destruct R2 as [R2|R2]; [now apply stream_rc_not_input_error|].
  now rewrite R2.
Qed.

(** ** The parser's context and the dispatcher *)

Lemma fill_ctx_finish_eq jbr r r' : fill_ctx_finish jbr r = Some r' -> r' = r.
Proof. unfold fill_ctx_finish. destruct (_ <=? _); congruence. Qed.

(** [_jbr_fill_ctx] leaves every flag and buffer of the context as [memset]
    set it. *)
Lemma fill_ctx_fresh jbr req r :
  _jbr_fill_ctx jbr req = Some r ->
  read_anon r = false /\ data_sent r = false
  /\ wbuf r = None /\ explain r = None.
Proof.
  unfold _jbr_fill_ctx.
  destruct (parse_method _) as [m|]; [|discriminate].
  destruct (_ || _); [intros [= <-]; now simpl|].
  destruct (_ <? 2); [discriminate|].
  destruct (strchr_slash _) as [k|].
  - destruct (_ <? 1).
    + intros H. apply fill_ctx_finish_eq in H. subst. now simpl.
    + destruct (_ >? _); [discriminate|].
      destruct (strtoll _) as [v eptr].
      destruct (_ || _); [discriminate|].
      intros H. apply fill_ctx_finish_eq in H. subst. now simpl.
  - destruct m; try discriminate.
    intros H. apply fill_ctx_finish_eq in H. subst. now simpl.
Qed.

(** The gate leaves the context alone except for [read_anon]. *)
Lemma token_gate_ctx jbr req r g r' :
  _jbr_token_gate jbr req r = (g, r') ->
  r' = r \/ r' = set_read_anon true r.
Proof.
  unfold _jbr_token_gate. destruct (access_token (http jbr)).
  - repeat match goal with
           | |- context [if ?c then _ else _] => destruct c
           end; intros [= <- <-]; auto.
  - intros [= <- <-]; auto.
Qed.

Lemma process_inv jbr req anon w :
  stream_inv anon w -> data_sent (w_ctx w) = false -> explain (w_ctx w) = None ->
  res_inv anon (exec (_jbr_process jbr req) w)
  /\ explain (w_ctx (exec (_jbr_process jbr req) w)) = None
  /\ (is_query_input_error
        (ex_rc (ejdb_exec_plan (db jbr)
                  (snd (jql_create (db jbr) (req_body req))))) = false ->
      stream_inv anon (exec (_jbr_process jbr req) w)).
Proof.
  intros Hw Hd He. unfold _jbr_process. rewrite exec_bind. cbn [get_ctx fst snd].
  destruct (collection (w_ctx w)).
  - apply step_final with (w := w); auto.
    destruct (method (w_ctx w)) as [[]|];
      auto using step_on_get, step_on_put, step_on_patch, step_on_delete,
                 step_on_post.
    apply step_http_send_error. left; discriminate.
  - destruct (method_is (w_ctx w) JBR_POST).
    + now apply on_query_inv.
    + apply step_final with (w := w); auto.
      apply step_http_send_error. left; discriminate.
Qed.

(** A request is either answered by [http_send_error] before any handler
    runs, or handed to the dispatcher with the context the gate left. *)
Lemma request_shape jbr req w :
  (exists s, exec (_jbr_on_http_request jbr req) w = exec (http_send_error s) w
             /\ (access_token (http jbr) = None -> s = 400))
  \/ (exists r r',
         _jbr_fill_ctx jbr req = Some r
         /\ _jbr_token_gate jbr req r = (GATE_PROCESS, r')
         /\ exec (_jbr_on_http_request jbr req) w
            = exec (_jbr_process jbr req) (exec (upd_ctx (fun _ => r')) w)).
Proof.
  unfold _jbr_on_http_request.
  destruct (_jbr_fill_ctx jbr req) as [r|]; [|left; eauto].
  destruct (_jbr_token_gate jbr req r) as [[|s] r'] eqn:G.
  - right. exists r, r'. split; [reflexivity|]. split; [exact G|reflexivity].
  - left. exists s. split; auto. intros Hn.
    unfold _jbr_token_gate in G. rewrite Hn in G. discriminate.
Qed.

Lemma stream_inv_init faults r :
  explain r = None ->
  stream_inv (read_anon r) (exec (upd_ctx (fun _ => r)) (world_init faults)).
Proof.
  intros He. constructor; simpl; auto; try (intros; discriminate).
  now rewrite He.
Qed.

(** What every request maintains, from the initial world. *)
Lemma request_inv jbr req faults :
  let w' := exec (_jbr_on_http_request jbr req) (world_init faults) in
  count is_new_explain (w_trace w') = count is_destroy_explain (w_trace w')
  /\ explain (w_ctx w') = None
  /\ (access_token (http jbr) = None -> Forall not403 (w_trace w'))
  /\ (is_query_input_error
        (ex_rc (ejdb_exec_plan (db jbr)
                  (snd (jql_create (db jbr) (req_body req))))) = false ->
      late_responses false (w_trace w') = []
      /\ (committed (w_trace w') = true -> w_status w' = 200)).
Proof.
  intros w'. subst w'.
  destruct (request_shape jbr req (world_init faults))
    as [(s & -> & Hs)|(r & r' & Hf & Hg & ->)].
  - simpl. repeat split; auto; try discriminate.
    intros Hn. rewrite (Hs Hn). repeat constructor. discriminate.
  - destruct (fill_ctx_fresh _ _ Hf) as (Fa & Fd & Fw & Fe).
    assert (Hr : data_sent r' = false /\ explain r' = None
                 /\ (access_token (http jbr) = None -> read_anon r' = false)).
    { split; [|split].
      - destruct (token_gate_ctx _ _ _ Hg) as [->| ->]; auto.
      - destruct (token_gate_ctx _ _ _ Hg) as [->| ->]; auto.
      - intros Hn. unfold _jbr_token_gate in Hg. rewrite Hn in Hg.
        injection Hg as Hg. now subst. }
    destruct Hr as (Hd & He & Ha).
    pose proof (@stream_inv_init faults r' He) as Hw.
    destruct (process_inv jbr req Hw Hd He) as ([R0 R1 R2] & E & C).
    split; [|split; [exact E|split]].
    + rewrite R1, E. simpl. lia.
    + intros Hn. apply R2. auto.
    + intros Hx. destruct (C Hx) as [_ I1 I2 _ _]. split; auto.
      intros Hc. now destruct (I1 Hc).
Qed.

(** ** Strings and methods *)

Lemma cstr_eqb_eq a b : cstr_eqb a b = true <-> a = b.
Proof.
  revert b; induction a as [|x a IH]; intros [|y b]; simpl;
    try (split; [discriminate|discriminate]); try tauto.
  unfold ascii_eqb. rewrite andb_true_iff, Ascii.eqb_eq, IH.
  split; [intros [-> ->]; reflexivity | intros [= -> ->]; auto].
Qed.

Lemma cstr_eqb_refl a : cstr_eqb a a = true.
Proof. now apply cstr_eqb_eq. Qed.

Lemma method_is_spec r m : method_is r m = true <-> method r = Some m.
Proof.
  unfold method_is, method_eqb. destruct (method r) as [m'|].
  - rewrite Z.eqb_eq. split.
    + destruct m', m; simpl; intros; try reflexivity; discriminate.
    + intros [= ->]. reflexivity.
  - split; discriminate.
Qed.

Lemma collection_is_null_spec r :
  collection_is_null r = true <-> collection r = None.
Proof. unfold collection_is_null. destruct (collection r); split; congruence. Qed.

(** [hv.len != token_len || memcmp(hv, token, token_len)] is false exactly
    when the value is the token. *)
Lemma token_compare hv tok :
  negb (Nat.eqb (List.length hv) (List.length tok))
  || memcmp_ne hv tok (List.length tok) = false <-> hv = tok.
Proof.
  unfold memcmp_ne. rewrite orb_false_iff, !negb_false_iff, Nat.eqb_eq.
  split.
  - intros [Hl He]. rewrite <- Hl in He at 1. rewrite !firstn_all in He.
    now apply cstr_eqb_eq.
  - intros ->. split; auto. apply cstr_eqb_refl.
Qed.

Lemma run_rejected jbr req faults s :
  (_jbr_fill_ctx jbr req = None /\ s = 400)
  \/ (exists r r', _jbr_fill_ctx jbr req = Some r
                   /\ _jbr_token_gate jbr req r = (GATE_REPLY s, r')) ->
  run (_jbr_on_http_request jbr req) faults = [EvSendError s].
Proof.
  unfold run, _jbr_on_http_request.
  intros [[-> ->]|(r & r' & -> & ->)]; reflexivity.
Qed.

(** ** The token gate *)

(** C1 as the code has it.  With an access token configured, the parser
    runs first: a request it rejects is answered 400 whatever its
    X-Access-Token header.  For a request the parser accepted: when the
    header is absent, anonymous read is enabled and the method is GET, HEAD,
    or POST without a collection, control reaches the dispatcher with
    [read_anon = true]; when the header is absent otherwise the answer is
    401; a header received more than once is answered 400; a single value
    different from the token is answered 403; and whenever control reaches
    the dispatcher, either the value was the token itself and [read_anon] is
    false, or the request was anonymous-eligible as above. *)
Theorem token_gate_rules jbr req tok :
  access_token (http jbr) = Some tok ->
  let h := fiobj_hash_get2 (req_headers req) k_header_x_access_token in
  (_jbr_fill_ctx jbr req = None ->
   forall faults,
     run (_jbr_on_http_request jbr req) faults = [EvSendError 400])
  /\ (forall r,
      _jbr_fill_ctx jbr req = Some r ->
      let eligible :=
        method r = Some JBR_GET \/ method r = Some JBR_HEAD
        \/ (method r = Some JBR_POST /\ collection r = None) in
      (h = FIOBJ_INVALID -> http_read_anon (http jbr) = true -> eligible ->
       _jbr_token_gate jbr req r = (GATE_PROCESS, set_read_anon true r)
       /\ forall w, exec (_jbr_on_http_request jbr req) w
                    = exec (_jbr_process jbr req)
                           (exec (upd_ctx (fun _ => set_read_anon true r)) w))
      /\ (h = FIOBJ_INVALID ->
          ~ (http_read_anon (http jbr) = true /\ eligible) ->
          forall faults,
            run (_jbr_on_http_request jbr req) faults = [EvSendError 401])
      /\ (forall p items, h = FIOBJ_ARRAY p items ->
          forall faults,
            run (_jbr_on_http_request jbr req) faults = [EvSendError 400])
      /\ (forall p v, h = FIOBJ_STRING p v -> v <> tok ->
          forall faults,
            run (_jbr_on_http_request jbr req) faults = [EvSendError 403])
      /\ (forall r', _jbr_token_gate jbr req r = (GATE_PROCESS, r') ->
          (exists p, h = FIOBJ_STRING p tok /\ r' = r /\ read_anon r' = false)
          \/ (h = FIOBJ_INVALID /\ http_read_anon (http jbr) = true
              /\ eligible
              /\ r' = set_read_anon true r /\ read_anon r' = true))).
Proof.
  intros Htok. cbv zeta. split.
  { intros Hnone faults. apply run_rejected. left. now split. }
  intros r Hfill.
  set (h := fiobj_hash_get2 (req_headers req) k_header_x_access_token).
  set (eligible := method r = Some JBR_GET \/ method r = Some JBR_HEAD
                   \/ (method r = Some JBR_POST /\ collection r = None)).
  set (el := method_is r JBR_GET || method_is r JBR_HEAD
             || (method_is r JBR_POST && collection_is_null r)).
  assert (Hel : el = true <-> eligible).
  { unfold eligible, el.
    rewrite !orb_true_iff, andb_true_iff, !method_is_spec,
      collection_is_null_spec. tauto. }
  assert (Hgate : _jbr_token_gate jbr req r
    = if fiobj_is_null h then
        if http_read_anon (http jbr) && el
        then (GATE_PROCESS, set_read_anon true r) else (GATE_REPLY 401, r)
      else if negb (fiobj_type_is_string h) then (GATE_REPLY 400, r)
      else if negb (Nat.eqb (List.length (fiobj_obj2cstr h)) (List.length tok))
              || memcmp_ne (fiobj_obj2cstr h) tok (List.length tok)
           then (GATE_REPLY 403, r) else (GATE_PROCESS, r)).
  { unfold _jbr_token_gate, access_token_len. rewrite Htok. reflexivity. }
  assert (Hreq : forall w,
             exec (_jbr_on_http_request jbr req) w
             = match _jbr_token_gate jbr req r with
               | (GATE_REPLY s, _) => exec (http_send_error s) w
               | (GATE_PROCESS, r') =>
                   exec (_jbr_process jbr req) (exec (upd_ctx (fun _ => r')) w)
               end).
  { intros w. unfold _jbr_on_http_request. rewrite Hfill.
    destruct (_jbr_token_gate jbr req r) as [[|s] r']; reflexivity. }
  clearbody h el.
  destruct (fill_ctx_fresh _ _ Hfill) as (Hanon & _).
  split; [|split; [|split; [|split]]].
  - intros Hh Han He. subst h.
    assert (Hg : _jbr_token_gate jbr req r = (GATE_PROCESS, set_read_anon true r)).
    { rewrite Hgate. simpl. rewrite Han. simpl. now rewrite (proj2 Hel He). }
    split; [exact Hg|]. intros w. rewrite Hreq, Hg. reflexivity.
  - intros Hh Hne faults. subst h. apply run_rejected. right. exists r, r.
    split; [exact Hfill|]. rewrite Hgate. simpl.
    destruct (http_read_anon (http jbr)); simpl; auto.
    destruct el; auto.
    exfalso. apply Hne. split; auto. now apply Hel.
  - intros p items Hh faults. subst h. apply run_rejected. right.
    exists r, r. split; [exact Hfill|]. rewrite Hgate. reflexivity.
  - intros p v Hh Hv faults. subst h. apply run_rejected. right.
    exists r, r. split; [exact Hfill|]. rewrite Hgate. simpl.
    destruct (negb (Nat.eqb (List.length v) _) || _) eqn:E; auto.
    apply token_compare in E. contradiction.
  - intros r' Hr'. rewrite Hgate in Hr'. clear Hgate Hreq.
    destruct h as [| |p v|p items]; simpl in Hr'.
    + right. destruct (http_read_anon (http jbr)); simpl in Hr';
        [|discriminate].
      destruct el; [|discriminate].
      injection Hr' as <-. repeat split; auto. now apply Hel.
    + discriminate.
    + left. destruct (negb (Nat.eqb (List.length v) _) || _) eqn:E;
        [discriminate|].
      apply token_compare in E. subst v. injection Hr' as <-.
      exists p. auto.
    + discriminate.
Qed.

Lemma token_gate_rules_witness :
  run (_jbr_on_http_request
         (sample_jbr (Some (lit "tok")) true [] IW_OK IW_OK)
         (sample_req "POST" "/users" [] "{}")) []
  = [EvSendError 401].
Proof.
  refine (proj1 (proj2 (proj2 (@token_gate_rules
            (sample_jbr (Some (lit "tok")) true [] IW_OK IW_OK)
            (sample_req "POST" "/users" [] "{}")
            (lit "tok") eq_refl)
            (set_collection (Some (lit "users"))
                            (set_method JBR_POST JBRCTX_zero))
            eq_refl)) eq_refl _ []).
  intros [_ [H|[H|[_ H]]]]; discriminate.
Defined.

(** C1 as stated fails: the gate is behind the parser.  A request the parser
    rejects is answered 400 also when its token is wrong, for which the
    claim has 403, and also when the header is missing and the method not
    eligible for anonymous access, for which the claim has 401. *)
Lemma unparsed_request_skips_gate :
  let jbr := sample_jbr (Some (lit "tok")) false [] IW_OK IW_OK in
  let wrong := sample_req "GET" "/users" [hdr "x-access-token" "bad"] "" in
  let missing := sample_req "DELETE" "/users" [] "" in
  (fiobj_hash_get2 (req_headers wrong) k_header_x_access_token
   = FIOBJ_STRING 3 (lit "bad")
   /\ lit "bad" <> lit "tok"
   /\ run (_jbr_on_http_request jbr wrong) [] = [EvSendError 400]
   /\ run (_jbr_on_http_request jbr wrong) [] <> [EvSendError 403])
  /\ (fiobj_hash_get2 (req_headers missing) k_header_x_access_token
      = FIOBJ_INVALID
      /\ run (_jbr_on_http_request jbr missing) [] = [EvSendError 400]
      /\ run (_jbr_on_http_request jbr missing) [] <> [EvSendError 401]).
Proof.
  cbv zeta. repeat split; try reflexivity; discriminate.
Qed.

(** ** The query stream when no library call fails *)

Lemma writes_app t1 t2 : writes (t1 ++ t2) = writes t1 ++ writes t2.
Proof.
  induction t1 as [|e t1 IH]; simpl; auto.
  destruct e; simpl; now rewrite ?IH.
Qed.

Lemma responses_app t1 t2 : responses (t1 ++ t2) = responses t1 ++ responses t2.
Proof.
  induction t1 as [|e t1 IH]; simpl; auto.
  destruct e; simpl; now rewrite ?IH.
Qed.

Lemma len_app a b : len (a ++ b) = len a + len b.
Proof. unfold len. rewrite length_app. lia. Qed.

Lemma len_nonneg a : 0 <= len a.
Proof. unfold len. lia. Qed.

(** One call of [_jbr_flush_chunk] on a non-empty buffer: a chunk goes out
    exactly when the buffer has reached the chunk size or the stream is
    being finished, and the buffer is cleared after it. *)
Lemma flush_nofault finish w b :
  w_faults w = [] -> wbuf (w_ctx w) = Some b -> 0 < len b ->
  let full := finish || (JBR_HTTP_CHUNK_SIZE <=? len b) in
  let w' := snd (_jbr_flush_chunk finish w) in
  fst (_jbr_flush_chunk finish w) = IW_OK
  /\ w_faults w' = []
  /\ explain (w_ctx w') = explain (w_ctx w)
  /\ data_sent (w_ctx w') = true
  /\ wbuf (w_ctx w') = Some (if full then [] else b)
  /\ writes (w_trace w')
     = writes (w_trace w) ++ (if full then chunk b else [])
       ++ (if finish then [last_chunk] else []).
Proof.
  intros Hf Hb Hl. destruct w as [ctx st oh fl tr]. destruct ctx.
  simpl in *. subst fl wbuf0.
  unfold _jbr_flush_chunk. unfold_m. unfold wbuf_bytes. simpl.
  assert (H0 : (0 <? len b) = true) by (apply Z.ltb_lt; lia).
  destruct (JBR_HTTP_CHUNK_SIZE <=? len b) eqn:Hc.
  - assert (H1 : (len b <? JBR_HTTP_CHUNK_SIZE) = false)
      by (apply Z.ltb_ge; apply Z.leb_le in Hc; lia).
    rewrite orb_true_r.
    destruct data_sent0, finish; simpl; rewrite ?H1, ?H0; simpl;
      repeat (break; rewrite ?H1, ?H0; simpl);
      rewrite ?writes_app; simpl; rewrite ?app_nil_r, <- ?app_assoc;
      repeat split; reflexivity.
  - assert (H1 : (len b <? JBR_HTTP_CHUNK_SIZE) = true)
      by (apply Z.ltb_lt; apply Z.leb_gt in Hc; lia).
    rewrite orb_false_r.
    destruct data_sent0, finish; simpl; rewrite ?H1, ?H0; simpl;
      repeat (break; rewrite ?H1, ?H0; simpl);
      rewrite ?writes_app; simpl; rewrite ?app_nil_r, <- ?app_assoc;
      repeat split; reflexivity.
Qed.

(** A visitor call appends the document's frame behind what was pending
    (the buffer's content and, the first time, the explain text and the
    separator), releases the explain buffer, and hands over to
    [_jbr_flush_chunk]. *)
Lemma visitor_appends d w :
  w_faults w = [] ->
  _jbr_query_visitor d w
  = _jbr_flush_chunk false
      (mk_world
         (set_explain None
            (set_wbuf (Some (pending (w_ctx w) ++ frame d)) (w_ctx w)))
         (w_status w) (w_out_headers w) []
         (w_trace w
          ++ match wbuf (w_ctx w) with
             | Some _ => []
             | None => [EvNew RES_WBUF]
             end
          ++ match explain (w_ctx w) with
             | Some _ => [EvDestroy RES_EXPLAIN]
             | None => []
             end)).
Proof.
  intros Hf. destruct w as [ctx st oh fl tr]. destruct ctx. simpl in *. subst fl.
  unfold pending, frame, doc_json, _jbr_query_visitor.
  unfold jbl_as_json_wbuf, iwxstr_cat_wbuf, wbuf_bytes,
    rcret, bind, ret, get_ctx, upd_ctx, emit, fault.
  destruct wbuf0 as [b|], explain0 as [e|], (doc_node d) as [n|]; simpl;
    f_equal; f_equal; rewrite ?app_nil_r, <- ?app_assoc; simpl;
    try reflexivity; unfold set_explain, set_wbuf; simpl;
    f_equal; f_equal; rewrite <- ?app_assoc; reflexivity.
Qed.

Lemma frame_nonempty d : 0 < len (frame d).
Proof. unfold frame, CRLF, len. simpl. lia. Qed.

(** One visitor call: the buffer is flushed as one chunk exactly when it
    has reached the chunk size. *)
Lemma visitor_nofault d w :
  w_faults w = [] ->
  let b := pending (w_ctx w) ++ frame d in
  let full := JBR_HTTP_CHUNK_SIZE <=? len b in
  let w' := snd (_jbr_query_visitor d w) in
  fst (_jbr_query_visitor d w) = IW_OK
  /\ w_faults w' = []
  /\ explain (w_ctx w') = None
  /\ data_sent (w_ctx w') = true
  /\ wbuf (w_ctx w') = Some (if full then [] else b)
  /\ writes (w_trace w') = writes (w_trace w) ++ (if full then chunk b else []).
Proof.
  intros Hf. cbv zeta. rewrite (visitor_appends d w Hf).
  match goal with
  | |- context [_jbr_flush_chunk false ?w1] =>
      destruct (@flush_nofault false w1 (pending (w_ctx w) ++ frame d))
        as (A & B & C & D & E & F)
  end; try reflexivity.
  { rewrite len_app. pose proof (frame_nonempty d).
    pose proof (len_nonneg (pending (w_ctx w))). lia. }
  simpl in *. repeat split; auto.
  rewrite F, !writes_app, app_nil_r.
  destruct (wbuf (w_ctx w)), (explain (w_ctx w)); simpl;
    now rewrite ?app_nil_r.
Qed.

(** All visitor calls of a query: what was written, together with what the
    buffer still holds, is the stream of the spec. *)
Lemma visit_all_nofault docs w :
  w_faults w = [] ->
  let w' := snd (visit_all docs w) in
  fst (visit_all docs w) = IW_OK
  /\ w_faults w' = []
  /\ writes (w_trace w') ++ spec_stream (pending (w_ctx w')) []
     = writes (w_trace w) ++ spec_stream (pending (w_ctx w)) docs
  /\ (docs <> [] ->
      explain (w_ctx w') = None /\ data_sent (w_ctx w') = true
      /\ exists b, wbuf (w_ctx w') = Some b).
Proof.
  revert w. induction docs as [|d ds IH]; intros w Hf; cbv zeta.
  - simpl. split; [reflexivity|]. split; [exact Hf|]. split; [reflexivity|].
    intros H. now contradiction H.
  - destruct (visitor_nofault d w Hf) as (A & B & C & D & E & F).
    simpl. unfold rcret, bind.
    destruct (_jbr_query_visitor d w) as [rc w1]. simpl in *. subst rc.
    simpl. destruct (IH w1 B) as (A' & B' & C' & D').
    split; [exact A'|]. split; [exact B'|]. split.
    + assert (P1 : pending (w_ctx w1)
                   = if JBR_HTTP_CHUNK_SIZE <=? len (pending (w_ctx w) ++ frame d)
                     then [] else pending (w_ctx w) ++ frame d).
      { unfold pending at 1, wbuf_bytes. rewrite C, E. apply app_nil_r. }
      rewrite C', P1, F.
      destruct (JBR_HTTP_CHUNK_SIZE <=? len (pending (w_ctx w) ++ frame d));
        now rewrite <- ?app_assoc, ?app_nil_r.
    + intros _. destruct ds as [|d' ds'].
      * simpl. repeat split; auto. eauto.
      * apply D'. discriminate.
Qed.

(** An admitted query reaches [ejdb_exec], with the explain buffer attached
    when the hint asks for it. *)
Lemma on_query_admitted jbr req q w :
  query_admitted jbr req q w -> w_faults w = [] ->
  exec (_jbr_on_query jbr req) w
  = exec (query_run jbr q) (if hinted req then attach_explain w else w).
Proof.
  intros (Hb & Hq & Ha & Hh) Hf. unfold _jbr_on_query.
  replace (len (req_body req) <? 1) with false
    by (symmetry; apply Z.ltb_ge; lia).
  rewrite Hq. cbn [rc_is_err]. rewrite exec_bind. cbn [get_ctx fst snd].
  rewrite Ha. unfold hints_well_formed, hinted in *.
  set (h := fiobj_hash_get2 (req_headers req) k_header_x_hints) in *.
  replace (negb (fiobj_is_null h) && negb (fiobj_type_is_string h)) with false
    by (destruct (fiobj_is_null h), (fiobj_type_is_string h);
        simpl in *; congruence).
  cbv beta iota. rewrite exec_bind. unfold query_hints.
  destruct (negb (fiobj_is_null h) && _).
  - unfold attach_explain. destruct w as [ctx st oh fl tr]. simpl in *.
    subst fl. reflexivity.
  - reflexivity.
Qed.

Lemma finish_ok_sent jbr q w :
  data_sent (w_ctx w) = true -> explain (w_ctx w) = None ->
  w_trace (exec (_jbr_on_query_finish jbr q IW_OK) w)
  = w_trace w ++ EvComplete
       :: match wbuf (w_ctx w) with
          | Some _ => [EvDestroy RES_WBUF]
          | None => []
          end.
Proof.
  intros Hd He. destruct w as [ctx st oh fl tr]. destruct ctx. simpl in *.
  subst. unfold _jbr_on_query_finish. unfold_m. simpl.
  destruct wbuf0; simpl; now rewrite <- ?app_assoc.
Qed.

Lemma ejdb_exec_nofault p w :
  w_faults w = [] -> ex_rc p = IW_OK -> ex_docs p <> [] ->
  let w' := snd (ejdb_exec p w) in
  fst (ejdb_exec p w) = IW_OK
  /\ w_faults w' = [] /\ explain (w_ctx w') = None
  /\ data_sent (w_ctx w') = true
  /\ exists b, wbuf (w_ctx w') = Some b
               /\ writes (w_trace w') ++ spec_stream b []
                  = writes (w_trace w)
                    ++ spec_stream (first_pending p (w_ctx w)) (ex_docs p).
Proof.
  intros Hf Hrc Hdocs. cbv zeta.
  change (ejdb_exec p w)
    with ((visit_all (ex_docs p) ;;? ret (ex_rc p)) (log_plan p w)).
  set (w1 := log_plan p w).
  assert (H0 : w_faults w1 = [] /\ w_trace w1 = w_trace w
               /\ pending (w_ctx w1) = first_pending p (w_ctx w)).
  { subst w1. destruct w as [ctx st oh fl tr]. destruct ctx. simpl in *.
    subst. unfold pending, first_pending, wbuf_bytes.
    destruct explain0; simpl; auto. }
  clearbody w1. destruct H0 as (F0 & T0 & P0).
  destruct (visit_all_nofault (ex_docs p) w1 F0) as (A & B & C & D).
  destruct (D Hdocs) as (E1 & D1 & b & W1). clear D.
  unfold rcret, bind, ret.
  destruct (visit_all (ex_docs p) w1) as [rc w2].
  simpl in A, B, C, E1, D1, W1. subst rc. cbn [rc_is_err fst snd].
  repeat split; auto. exists b. split; auto.
  rewrite <- T0, <- P0, <- C. unfold pending, wbuf_bytes.
  now rewrite W1, E1, app_nil_r.
Qed.

Lemma query_close_nofault w b :
  w_faults w = [] -> wbuf (w_ctx w) = Some b ->
  let w' := snd (query_close IW_OK (w_ctx w) w) in
  fst (query_close IW_OK (w_ctx w) w) = IW_OK
  /\ explain (w_ctx w') = explain (w_ctx w)
  /\ data_sent (w_ctx w') = true
  /\ writes (w_trace w') = writes (w_trace w) ++ spec_stream b [].
Proof.
  intros Hf Hb. cbv zeta. unfold query_close. rewrite Hb.
  set (w2 := snd (iwxstr_cat_wbuf CRLF w)).
  assert (H2 : iwxstr_cat_wbuf CRLF w = (IW_OK, w2)
               /\ w_faults w2 = [] /\ wbuf (w_ctx w2) = Some (b ++ CRLF)
               /\ explain (w_ctx w2) = explain (w_ctx w)
               /\ w_trace w2 = w_trace w).
  { subst w2. destruct w as [ctx st oh fl tr]. destruct ctx. simpl in *.
    subst. unfold_m. unfold wbuf_bytes. simpl. auto. }
  destruct H2 as (Q2 & F2 & W2 & E2 & T2).
  assert (L2 : 0 < len (b ++ CRLF))
    by (rewrite len_app; pose proof (len_nonneg b); unfold CRLF, len;
        simpl; lia).
  destruct (flush_nofault true w2 F2 W2 L2) as (A3 & B3 & C3 & D3 & E3 & F3).
  unfold rcret, bind. rewrite Q2. cbn [rc_is_err].
  repeat split; auto; try congruence.
  rewrite F3, T2. reflexivity.
Qed.

(** The trace of a query that visits at least one document and succeeds:
    the writes are the stream of the spec, started with what was pending. *)
Lemma query_run_stream jbr q w :
  w_faults w = [] ->
  let p := ejdb_exec_plan (db jbr) q in
  ex_rc p = IW_OK -> ex_docs p <> [] ->
  let w' := exec (query_run jbr q) w in
  writes (w_trace w')
  = writes (w_trace w) ++ spec_stream (first_pending p (w_ctx w)) (ex_docs p).
Proof.
  intros Hf p Hrc Hdocs. cbv zeta. unfold query_run.
  rewrite exec_bind. fold p. clearbody p.
  destruct (ejdb_exec_nofault p w Hf Hrc Hdocs)
    as (A & B & C & D & b & W & S).
  rewrite A. set (w1 := snd (ejdb_exec p w)) in *.
  rewrite exec_bind. cbn [get_ctx fst snd]. rewrite exec_bind.
  destruct (query_close_nofault w1 B W) as (A2 & E2 & D2 & S2).
  rewrite A2. set (w2 := snd (query_close IW_OK (w_ctx w1) w1)) in *.
  rewrite finish_ok_sent; [|exact D2|congruence].
  rewrite writes_app, S2.
  assert (Hw3 : forall o : option cstr,
             writes (EvComplete :: match o with
                                   | Some _ => [EvDestroy RES_WBUF]
                                   | None => []
                                   end) = [])
    by (intros [|]; reflexivity).
  now rewrite Hw3, app_nil_r.
Qed.

Lemma spec_stream_first docs : forall b,
  exists size rest tail, spec_stream b docs = size :: (b ++ rest) :: tail.
Proof.
  induction docs as [|d ds IH]; intros b; simpl.
  - unfold chunk. simpl.
    exists (fmt_zX (List.length (b ++ CRLF)) ++ CRLF), CRLF, [CRLF; last_chunk].
    reflexivity.
  - destruct (JBR_HTTP_CHUNK_SIZE <=? len (b ++ frame d)).
    + unfold chunk. simpl.
      exists (fmt_zX (List.length (b ++ frame d)) ++ CRLF), (frame d),
        (CRLF :: spec_stream [] ds).
      reflexivity.
    + destruct (IH (b ++ frame d)) as (size & rest & tail & ->).
      exists size, (frame d ++ rest), tail. now rewrite <- app_assoc.
Qed.

Lemma spec_stream_last docs : forall b,
  exists init, spec_stream b docs = init ++ [last_chunk].
Proof.
  induction docs as [|d ds IH]; intros b; simpl.
  - exists (chunk (b ++ CRLF)). reflexivity.
  - destruct (JBR_HTTP_CHUNK_SIZE <=? len (b ++ frame d)).
    + destruct (IH []) as (init & ->).
      exists (chunk (b ++ frame d) ++ init). reflexivity.
    + apply IH.
Qed.

Lemma first_pending_fresh jbr req q w :
  fresh_world w ->
  first_pending (ejdb_exec_plan (db jbr) q)
    (w_ctx (if hinted req then attach_explain w else w))
  = explain_prefix jbr req q.
Proof.
  intros (Hf & Hw & He & Hd). unfold first_pending, explain_prefix, wbuf_bytes.
  destruct (hinted req).
  - destruct w as [ctx st oh fl tr]. destruct ctx. simpl in *. now subst.
  - now rewrite Hw, He.
Qed.

(** The writes of an admitted query that visits at least one document. *)
Lemma on_query_stream jbr req q w :
  fresh_world w -> query_admitted jbr req q w ->
  let p := ejdb_exec_plan (db jbr) q in
  ex_rc p = IW_OK -> ex_docs p <> [] ->
  writes (w_trace (exec (_jbr_on_query jbr req) w))
  = writes (w_trace w) ++ spec_stream (explain_prefix jbr req q) (ex_docs p).
Proof.
  intros Hfw Ha p Hrc Hd. pose proof Hfw as (Hf & Hw & He & Hds).
  rewrite (on_query_admitted Ha Hf).
  rewrite <- (first_pending_fresh jbr req q Hfw).
  rewrite query_run_stream; auto.
  - f_equal. destruct (hinted req); auto.
    unfold attach_explain. simpl. now rewrite writes_app, app_nil_r.
  - destruct (hinted req); auto.
Qed.

(** ** The query stream (C6, C7, C5, C2) *)

(** C6.  When no library call fails: a visitor call appends the frame
    [\r\n<decimal id>\t<document JSON>] of its document to the assembly
    buffer and hands over to [_jbr_flush_chunk]; a call of
    [_jbr_flush_chunk] on the non-empty buffer emits a chunk exactly when
    the buffer holds at least 4096 bytes or the stream is being finished,
    the chunk is written as [<hex size>\r\n], the buffered bytes and
    [\r\n], and the buffer is empty afterwards; and the writes of a query
    that visits at least one document are those of the stream the spec
    describes, ending with the terminating chunk [0\r\n\r\n]. *)
Theorem query_stream_framing jbr req q w :
  fresh_world w -> query_admitted jbr req q w ->
  let p := ejdb_exec_plan (db jbr) q in
  ex_rc p = IW_OK -> ex_docs p <> [] ->
  (forall d w1,
      w_faults w1 = [] -> explain (w_ctx w1) = None ->
      exists w2,
        wbuf (w_ctx w2) = Some (wbuf_bytes (w_ctx w1) ++ frame d)
        /\ w_faults w2 = []
        /\ writes (w_trace w2) = writes (w_trace w1)
        /\ _jbr_query_visitor d w1 = _jbr_flush_chunk false w2)
  /\ (forall finish w1 b,
         w_faults w1 = [] -> wbuf (w_ctx w1) = Some b -> 0 < len b ->
         let emitted := finish || (JBR_HTTP_CHUNK_SIZE <=? len b) in
         let w2 := snd (_jbr_flush_chunk finish w1) in
         fst (_jbr_flush_chunk finish w1) = IW_OK
         /\ wbuf (w_ctx w2) = Some (if emitted then [] else b)
         /\ writes (w_trace w2)
            = writes (w_trace w1)
              ++ (if emitted
                  then [fmt_zX (List.length b) ++ CRLF; b; CRLF] else [])
              ++ (if finish then [lit "0" ++ CRLF ++ CRLF] else []))
  /\ writes (w_trace (exec (_jbr_on_query jbr req) w))
     = writes (w_trace w) ++ spec_stream (explain_prefix jbr req q) (ex_docs p)
  /\ exists init,
       writes (w_trace (exec (_jbr_on_query jbr req) w))
       = init ++ [lit "0" ++ CRLF ++ CRLF].
Proof.
  intros Hfw Ha p Hrc Hd. subst p. split; [|split; [|split]].
  - intros d w1 Hf He. eexists. split; [|split; [|split]].
    4: apply (visitor_appends d w1 Hf).
    + simpl. unfold pending. now rewrite He, app_nil_r.
    + reflexivity.
    + simpl. rewrite He, !writes_app. destruct (wbuf (w_ctx w1)); simpl;
        now rewrite ?app_nil_r.
  - intros finish w1 b Hf Hb Hl. cbv zeta.
    destruct (flush_nofault finish w1 Hf Hb Hl) as (A & _ & _ & _ & E & F).
    auto.
  - now apply on_query_stream.
  - rewrite (on_query_stream Hfw Ha Hrc Hd).
    destruct (spec_stream_last (ex_docs (ejdb_exec_plan (db jbr) q))
                (explain_prefix jbr req q)) as (init & ->).
    exists (writes (w_trace w) ++ init). now rewrite app_assoc.
Qed.

Ltac witness_hyps :=
  repeat match goal with
         | |- fresh_world _ => repeat split; reflexivity
         | |- query_admitted _ _ _ _ =>
             split; [vm_compute; discriminate|repeat split; reflexivity]
         | |- _ <> [] => discriminate
         | |- _ = _ => reflexivity
         end.

Lemma query_stream_framing_witness :
  writes (w_trace (exec (_jbr_on_query
                           (sample_jbr None false [sample_doc 1; sample_doc 2]
                                       IW_OK IW_OK)
                           (sample_query_req [])) sample_query_world))
  = [ lit "E" ++ CRLF;
      (CRLF ++ lit "1" ++ [TAB] ++ lit "{}")
      ++ (CRLF ++ lit "2" ++ [TAB] ++ lit "{}") ++ CRLF;
      CRLF;
      lit "0" ++ CRLF ++ CRLF ].
Proof.
  apply (proj1 (proj2 (proj2
    (@query_stream_framing
       (sample_jbr None false [sample_doc 1; sample_doc 2] IW_OK IW_OK)
       (sample_query_req []) sample_q sample_query_world
       ltac:(witness_hyps) ltac:(witness_hyps)
       ltac:(witness_hyps) ltac:(witness_hyps))))).
Defined.

(** C7.  For a query with the explain hint that visits at least one
    document (no library call failing), the first chunk written carries the
    explain text, the separator line and then the first document's frame,
    because the first visitor call puts them into the assembly buffer in
    that order and releases the explain buffer; and whatever the request and
    whichever library call fails, when the request handler returns the
    context holds no explain buffer and every explain buffer that was
    allocated has been released exactly once. *)
Theorem explain_first_and_released jbr req q w d ds :
  fresh_world w -> query_admitted jbr req q w -> hinted req = true ->
  let p := ejdb_exec_plan (db jbr) q in
  ex_rc p = IW_OK -> ex_docs p = d :: ds ->
  (exists size rest tail,
      writes (w_trace (exec (_jbr_on_query jbr req) w))
      = writes (w_trace w)
        ++ size
           :: (ex_log p ++ explain_separator ++ frame d ++ rest)
           :: tail)
  /\ (forall w1 e,
         w_faults w1 = [] -> explain (w_ctx w1) = Some e ->
         exists w2,
           wbuf (w_ctx w2)
           = Some (wbuf_bytes (w_ctx w1) ++ e ++ explain_separator ++ frame d)
           /\ explain (w_ctx w2) = None
           /\ count is_destroy_explain (w_trace w2)
              = S (count is_destroy_explain (w_trace w1))
           /\ _jbr_query_visitor d w1 = _jbr_flush_chunk false w2)
  /\ (forall jbr' req' faults,
         let w' := exec (_jbr_on_http_request jbr' req') (world_init faults) in
         explain (w_ctx w') = None
         /\ count is_new_explain (w_trace w')
            = count is_destroy_explain (w_trace w')).
Proof.
  intros Hfw Ha Hh p Hrc Hd. subst p. split; [|split].
  - rewrite (on_query_stream Hfw Ha Hrc); [|rewrite Hd; discriminate].
    rewrite Hd. unfold explain_prefix. rewrite Hh. cbn [spec_stream].
    set (P := ex_log (ejdb_exec_plan (db jbr) q) ++ explain_separator).
    destruct (JBR_HTTP_CHUNK_SIZE <=? len (P ++ frame d)).
    + exists (fmt_zX (List.length (P ++ frame d)) ++ CRLF), [],
        (CRLF :: spec_stream [] ds).
      unfold chunk, P. rewrite app_nil_r, <- !app_assoc. reflexivity.
    + destruct (spec_stream_first ds (P ++ frame d))
        as (size & rest & tail & ->).
      exists size, rest, tail. unfold P. now rewrite <- !app_assoc.
  - intros w1 e Hf He. eexists. split; [|split; [|split]].
    4: apply (visitor_appends d w1 Hf).
    + simpl. unfold pending. now rewrite He, <- !app_assoc.
    + reflexivity.
    + simpl. rewrite He, !count_app. unfold count at 2 3. simpl.
      destruct (wbuf (w_ctx w1)); simpl; lia.
  - intros jbr' req' faults.
    destruct (request_inv jbr' req' faults) as (A & B & _).
    split; auto.
Qed.

Lemma explain_first_and_released_witness :
  writes (w_trace (exec (_jbr_on_query
                           (sample_jbr None false [sample_doc 1] IW_OK IW_OK)
                           (sample_query_req [hdr "x-hints" "explain"]))
                        sample_query_world))
  = [ lit "38" ++ CRLF;
      lit "[INDEX] NO [COLLECTOR] PLAIN" ++ lit "--------------------"
      ++ (CRLF ++ lit "1" ++ [TAB] ++ lit "{}") ++ CRLF;
      CRLF;
      lit "0" ++ CRLF ++ CRLF ].
Proof.
  destruct (proj1 (@explain_first_and_released
       (sample_jbr None false [sample_doc 1] IW_OK IW_OK)
       (sample_query_req [hdr "x-hints" "explain"]) sample_q
       sample_query_world (sample_doc 1) []
       ltac:(witness_hyps) ltac:(witness_hyps) ltac:(witness_hyps)
       ltac:(witness_hyps) ltac:(witness_hyps)))
    as (size & rest & tail & _).
  reflexivity.
Defined.

(** C5 as the code has it.  An admitted query that executes successfully and
    visits no document never creates the assembly buffer and writes no header
    block and no chunk: the handler sends one plain 200 response without a
    body, and releases the explain buffer when the hint had attached one. *)
Theorem empty_result_plain_200 jbr req q w :
  fresh_world w -> query_admitted jbr req q w ->
  let p := ejdb_exec_plan (db jbr) q in
  ex_rc p = IW_OK -> ex_docs p = [] ->
  w_trace (exec (_jbr_on_query jbr req) w)
  = w_trace w
    ++ (if hinted req then [EvNew RES_EXPLAIN] else [])
    ++ [EvSendBody 200 (w_out_headers w) None 0]
    ++ (if hinted req then [EvDestroy RES_EXPLAIN] else []).
Proof.
  intros Hfw Ha p Hrc Hd. subst p. destruct Hfw as (Hf & Hw & He & Hds).
  rewrite (on_query_admitted Ha Hf). unfold query_run, ejdb_exec.
  rewrite Hd, Hrc. destruct w as [ctx st oh fl tr]. destruct ctx.
  simpl in *. subst. unfold attach_explain, query_close, _jbr_on_query_finish.
  destruct (hinted req); unfold_m; simpl; now rewrite <- ?app_assoc.
Qed.

Lemma empty_result_plain_200_witness :
  w_trace (exec (_jbr_on_query (sample_jbr None false [] IW_OK IW_OK)
                               (sample_query_req [])) sample_query_world)
  = [EvSendBody 200 [] None 0].
Proof.
  apply (@empty_result_plain_200
           (sample_jbr None false [] IW_OK IW_OK) (sample_query_req [])
           sample_q sample_query_world
           ltac:(witness_hyps) ltac:(witness_hyps)
           ltac:(witness_hyps) ltac:(witness_hyps)).
Defined.

(** C5 as stated fails: a successful query without results is answered with
    a plain 200; no header block is written and no terminating chunk. *)
Lemma empty_result_not_chunked :
  let t := run (_jbr_on_http_request (sample_jbr None false [] IW_OK IW_OK)
                                     (sample_query_req [])) [] in
  t = [EvSendBody 200 [] None 0]
  /\ committed t = false
  /\ ~ In (EvWrite (lit "0" ++ CRLF ++ CRLF)) t.
Proof.
  cbv zeta. split; [reflexivity|]. split; [reflexivity|].
  intros [H|[]]. discriminate.
Qed.

(** *** After the header block (C2) *)




















(** The run of the witness: the engine fails after the first document was
    put into the assembly buffer and the header block written; the handler
    logs the error and completes the response. *)
Lemma mid_stream_error_trace :
  run (_jbr_on_http_request
         (sample_jbr None false [sample_doc 1] (IW_ERR IW_ERROR_ALLOC 12)
                     IW_OK)
         (sample_query_req [])) []
  = [ EvNew RES_WBUF;
      EvWriteHeaders 200 chunked_headers;
      EvLog (IW_ERR IW_ERROR_ALLOC 0);
      EvComplete;
      EvDestroy RES_WBUF ].
Proof. reflexivity. Qed.

(** The same when a write fails after the header block: here the write of
    the size line of the first chunk. *)
Lemma mid_stream_write_failure_trace :
  run (_jbr_on_http_request
         (sample_jbr None false [sample_doc 1] IW_OK IW_OK)
         (sample_query_req [])) [false; false; false; false; false; true]
  = [ EvNew RES_WBUF;
      EvWriteHeaders 200 chunked_headers;
      EvLog (ERR JBR_ERROR_SEND_RESPONSE);
      EvLog (ERR JBR_ERROR_SEND_RESPONSE);
      EvComplete;
      EvDestroy RES_WBUF ].
Proof. reflexivity. Qed.

(** ** No token configured (C10) *)

(** C10.  Without an access token the gate lets every parsed request through
    with the context untouched, so [read_anon] is false whatever the
    anonymous-read flag says, and no request is ever answered 403. *)
Theorem no_token_no_403 jbr req faults :
  access_token (http jbr) = None ->
  (forall r, _jbr_fill_ctx jbr req = Some r ->
             _jbr_token_gate jbr req r = (GATE_PROCESS, r)
             /\ read_anon r = false
             /\ forall w, exec (_jbr_on_http_request jbr req) w
                          = exec (_jbr_process jbr req)
                                 (exec (upd_ctx (fun _ => r)) w))
  /\ Forall not403 (run (_jbr_on_http_request jbr req) faults).
Proof.
  intros Hn. split.
  - intros r Hr.
    assert (Hg : _jbr_token_gate jbr req r = (GATE_PROCESS, r))
      by (unfold _jbr_token_gate; now rewrite Hn).
    split; [exact Hg|]. split; [apply (fill_ctx_fresh _ _ Hr)|].
    intros w. unfold _jbr_on_http_request. now rewrite Hr, Hg.
  - destruct (request_inv jbr req faults) as (_ & _ & C & _). exact (C Hn).
Qed.

Lemma no_token_no_403_witness :
  Forall not403
    (run (_jbr_on_http_request (sample_jbr None true [] IW_OK IW_OK)
                               (sample_req "PUT" "/users/1" [] "{}")) []).
Proof.
  apply (proj2 (@no_token_no_403 (sample_jbr None true [] IW_OK IW_OK)
                  (sample_req "PUT" "/users/1" [] "{}") [] eq_refl)).
Defined.

(** ** The PATCH handler (C3) *)

Lemma http_send_responses status ctype body n w :
  responses (w_trace (snd (_jbr_http_send status ctype body n w)))
  = responses (w_trace w) ++ [status]
  /\ w_ctx (snd (_jbr_http_send status ctype body n w)) = w_ctx w.
Proof.
  destruct w as [ctx st oh fl tr]. unfold_m. simpl.
  repeat break; rewrite ?responses_app; simpl; rewrite ?app_nil_r; auto.
Qed.

Lemma rc_report_responses jbr code rc w :
  responses (w_trace (snd (JBR_RC_REPORT jbr code rc w)))
  = responses (w_trace w) ++ [code]
  /\ w_ctx (snd (JBR_RC_REPORT jbr code rc w)) = w_ctx w.
Proof.
  unfold JBR_RC_REPORT, bind, ret, iwlog_ecode_error3, emit.
  destruct (500 <=? code); cbv beta iota;
    match goal with
    | |- context [_jbr_http_send ?s ?c ?b ?n ?w0] =>
        destruct (http_send_responses s c b n w0) as [H1 H2];
        destruct (_jbr_http_send s c b n w0) as [x w1]
    end; simpl in *; rewrite H1, H2; rewrite ?responses_app; simpl;
    now rewrite ?app_nil_r.
Qed.

Lemma patch_input_error_code e :
  In e patch_input_errors -> is_patch_input_error (IW_ERR e 0) = true.
Proof.
  unfold patch_input_errors.
  intros H. repeat (destruct H as [<-|H]; [reflexivity|]). destruct H.
Qed.

(** C3 as the code has it.  For a PATCH with a body, from an authenticated
    context: when the database's patch operation returns one of the ten
    input-error kinds, the handler calls the response writer twice, first
    with status 400 and then with status 500, because every case of the
    switch ends in [break] and control reaches the [if (rc)] report behind
    it; any other error is answered once with 500, and success once with
    200. *)
Theorem patch_reports jbr req w :
  read_anon (w_ctx w) = false -> 1 <= len (req_body req) ->
  let rc := ejdb_patch (db jbr) (cname (w_ctx w)) (req_body req)
                       (id (w_ctx w)) in
  let t := w_trace (exec (_jbr_on_patch jbr req) w) in
  (forall e errno, rc = IW_ERR e errno -> In e patch_input_errors ->
                   responses t = responses (w_trace w) ++ [400; 500])
  /\ (rc_is_err rc = true ->
      is_patch_input_error (iwrc_strip_code rc) = false ->
      responses t = responses (w_trace w) ++ [500])
  /\ (rc = IW_OK -> responses t = responses (w_trace w) ++ [200]).
Proof.
  intros Ha Hb. cbv zeta.
  assert (E : exec (_jbr_on_patch jbr req) w
    = exec ((if is_patch_input_error
                  (iwrc_strip_code
                     (ejdb_patch (db jbr) (cname (w_ctx w)) (req_body req)
                                 (id (w_ctx w))))
             then JBR_RC_REPORT jbr 400
                    (iwrc_strip_code
                       (ejdb_patch (db jbr) (cname (w_ctx w)) (req_body req)
                                   (id (w_ctx w))))
             else ret tt) ;;
            if rc_is_err
                 (iwrc_strip_code
                    (ejdb_patch (db jbr) (cname (w_ctx w)) (req_body req)
                                (id (w_ctx w))))
            then JBR_RC_REPORT jbr 500
                   (iwrc_strip_code
                      (ejdb_patch (db jbr) (cname (w_ctx w)) (req_body req)
                                  (id (w_ctx w))))
            else (_jbr_http_send 200 None None 0 ;; ret tt)) w).
  { unfold _jbr_on_patch. rewrite exec_bind. cbn [get_ctx fst snd].
    rewrite Ha.
    replace (len (req_body req) <? 1) with false
      by (symmetry; apply Z.ltb_ge; lia).
    reflexivity. }
  rewrite E. clear E.
  set (rc := ejdb_patch (db jbr) (cname (w_ctx w)) (req_body req) (id (w_ctx w))).
  clearbody rc. rewrite exec_bind. split; [|split].
  - intros e errno -> He. cbn [iwrc_strip_code rc_is_err].
    rewrite (patch_input_error_code He). unfold exec.
    destruct (rc_report_responses jbr 400 (IW_ERR e 0) w) as [H1 _].
    destruct (rc_report_responses jbr 500 (IW_ERR e 0)
                (snd (JBR_RC_REPORT jbr 400 (IW_ERR e 0) w))) as [H2 _].
    now rewrite H2, H1, <- app_assoc.
  - intros He Hn. rewrite Hn. destruct rc; [discriminate|].
    cbn [iwrc_strip_code rc_is_err ret fst snd]. unfold exec.
    apply rc_report_responses.
  - intros ->. cbn. unfold exec, bind.
    destruct (http_send_responses 200 None None 0 w) as [H1 _].
    now destruct (_jbr_http_send 200 None None 0 w).
Qed.

Lemma patch_reports_witness :
  responses
    (w_trace (exec (_jbr_on_patch
                      (sample_jbr None false [] IW_OK
                                  (IW_ERR JBL_ERROR_PARSE_JSON 0))
                      (sample_req "PATCH" "/users/1" [] "{"))
                   (world_init [])))
  = [400; 500].
Proof.
  apply (proj1 (@patch_reports
           (sample_jbr None false [] IW_OK (IW_ERR JBL_ERROR_PARSE_JSON 0))
           (sample_req "PATCH" "/users/1" [] "{") (world_init [])
           eq_refl ltac:(vm_compute; discriminate)))
    with (e := JBL_ERROR_PARSE_JSON) (errno := 0);
    [reflexivity | left; reflexivity].
Defined.

(** The whole trace of that request: a 400 response, the error log of the
    500 report, and a second response with status 500. *)
Lemma patch_parse_error_trace :
  run (_jbr_on_http_request
         (sample_jbr None false [] IW_OK (IW_ERR JBL_ERROR_PARSE_JSON 0))
         (sample_req "PATCH" "/users/1" [] "{")) []
  = [ EvSendBody 400 [(k_header_content_type, lit "text/plain")]
                 (Some (lit "error")) 5;
      EvLog (IW_ERR JBL_ERROR_PARSE_JSON 0);
      EvSendBody 500 [(k_header_content_type, lit "text/plain")]
                 (Some (lit "error")) 5 ].
Proof. reflexivity. Qed.

(** ** GET and HEAD (C8) *)

(** Only a string object can carry a method name the parser accepts. *)
Lemma parse_method_string o m :
  parse_method (fiobj_obj2cstr o) = Some m -> exists p s, o = FIOBJ_STRING p s.
Proof.
  destruct o as [| |p s|p l]; simpl; try discriminate; eauto.
Qed.

(** The handle of a parsed request's method object is never the value of
    [JBR_HEAD]: the HEAD test of [_jbr_on_get] is false for every request
    that reaches it. *)
Lemma head_test_false jbr req r :
  _jbr_fill_ctx jbr req = Some r ->
  (fiobj_handle (req_method req) =? jbr_method_val JBR_HEAD) = false.
Proof.
  unfold _jbr_fill_ctx.
  destruct (parse_method (fiobj_obj2cstr (req_method req))) as [m|] eqn:E;
    [|discriminate].
  intros _. destruct (parse_method_string _ E) as (p & s & ->).
  unfold fiobj_handle, jbr_method_val. apply Z.eqb_neq. lia.
Qed.

(** C8 as the code has it.  For a request the parser accepted, GET or HEAD
    alike, whose document exists (no library call failing), [_jbr_on_get]
    takes the branch that materializes the pretty-printed document in a
    string buffer and sends it as the body of a 200 [application/json]
    response, with the buffer's size as body length. *)
Theorem get_and_head_materialize jbr req r jbl w :
  _jbr_fill_ctx jbr req = Some r ->
  method r = Some JBR_HEAD \/ method r = Some JBR_GET ->
  ejdb_get (db jbr) (cname (w_ctx w)) (id (w_ctx w)) = (IW_OK, jbl) ->
  w_faults w = [] -> w_out_headers w = [] ->
  w_trace (exec (_jbr_on_get jbr req) w)
  = w_trace w
    ++ [ EvNew RES_XSTR;
         EvSendBody 200 [(k_header_content_type, lit "application/json")]
                    (Some (jbl_json_pretty jbl)) (len (jbl_json_pretty jbl));
         EvDestroy RES_XSTR ].
Proof.
  intros Hr _ Hg Hf Ho. unfold _jbr_on_get.
  rewrite exec_bind. cbn [get_ctx fst snd]. rewrite Hg.
  cbn [rc_is_notfound rc_is_err]. rewrite (head_test_false _ _ Hr).
  destruct w as [ctx st oh fl tr]. simpl in *. subst.
  unfold_m. simpl. now rewrite <- !app_assoc.
Qed.

Lemma get_and_head_materialize_witness :
  w_trace (exec (_jbr_on_get (sample_jbr None false [] IW_OK IW_OK)
                             (sample_req "HEAD" "/users/1" [] ""))
                sample_head_world)
  = [ EvNew RES_XSTR;
      EvSendBody 200 [(k_header_content_type, lit "application/json")]
                 (Some (lit "{ }")) 3;
      EvDestroy RES_XSTR ].
Proof.
  apply (@get_and_head_materialize
           (sample_jbr None false [] IW_OK IW_OK)
           (sample_req "HEAD" "/users/1" [] "")
           sample_head_ctx sample_jbl sample_head_world
           eq_refl (or_introl eq_refl) eq_refl eq_refl eq_refl).
Defined.

(** The whole HEAD request: the document is sent as the body. *)
Lemma head_request_trace :
  run (_jbr_on_http_request (sample_jbr None false [] IW_OK IW_OK)
                            (sample_req "HEAD" "/users/1" [] "")) []
  = [ EvNew RES_XSTR;
      EvSendBody 200 [(k_header_content_type, lit "application/json")]
                 (Some (lit "{ }")) 3;
      EvDestroy RES_XSTR ].
Proof. reflexivity. Qed.

(** ** The WebSocket upgrade (C9) *)

(** C9 as the code has it.  With a token configured, anonymous read enabled
    and no X-Access-Token header, the upgrade handler marks the session
    anonymous and then goes on to the header's type test, which a missing
    header fails: no upgrade ever takes place, and a well-formed upgrade
    request is answered 400 after the session context was freed. *)
Theorem upgrade_without_header_is_400 jbr req proto faults tok :
  access_token (http jbr) = Some tok ->
  http_read_anon (http jbr) = true ->
  fiobj_hash_get2 (req_headers req) k_header_x_access_token = FIOBJ_INVALID ->
  let t := run (_jbr_on_http_upgrade jbr req proto) faults in
  count is_upgrade t = 0%nat
  /\ (fiobj_obj2cstr (req_path req) = lit "/" ->
      len proto = 9 -> nth 1 proto NUL = "e"%char -> faults = [] ->
      t = [EvNew RES_WCTX; EvDestroy RES_WCTX; EvSendError 400]).
Proof.
  intros Ht Ha Hh. cbv zeta. unfold run, _jbr_on_http_upgrade.
  rewrite Ht, Hh, Ha. cbn [fiobj_is_null fiobj_handle fiobj_type_is_string
                            negb andb Z.eqb].
  split.
  - destruct (_ || _); [reflexivity|].
    unfold exec, bind, fault, world_init. cbn [w_faults].
    destruct faults as [|[] fs]; reflexivity.
  - intros Hp Hl He ->. rewrite Hp, Hl, He. reflexivity.
Qed.

Lemma upgrade_without_header_is_400_witness :
  run (_jbr_on_http_upgrade (sample_jbr (Some (lit "tok")) true [] IW_OK IW_OK)
                            (sample_req "GET" "/" [] "") (lit "websocket")) []
  = [EvNew RES_WCTX; EvDestroy RES_WCTX; EvSendError 400].
Proof.
  apply (proj2 (@upgrade_without_header_is_400
           (sample_jbr (Some (lit "tok")) true [] IW_OK IW_OK)
           (sample_req "GET" "/" [] "") (lit "websocket") [] (lit "tok")
           eq_refl eq_refl eq_refl));
    reflexivity.
Defined.

(** ** The request parser (C4) *)

Lemma strchr_slash_app coll rest :
  Forall (fun c => c <> "/"%char /\ c <> NUL) coll ->
  strchr_slash (coll ++ "/"%char :: rest) = Some (List.length coll).
Proof.
  induction 1 as [|c coll [H1 H2] _ IH]; simpl.
  - reflexivity.
  - unfold ascii_eqb.
    destruct (Ascii.eqb c NUL) eqn:E1; [apply Ascii.eqb_eq in E1; contradiction|].
    destruct (Ascii.eqb c "/") eqn:E2; [apply Ascii.eqb_eq in E2; contradiction|].
    now rewrite IH.
Qed.

Lemma strchr_slash_none coll :
  Forall (fun c => c <> "/"%char) coll -> strchr_slash coll = None.
Proof.
  induction 1 as [|c coll H _ IH]; simpl; auto.
  unfold ascii_eqb. destruct (Ascii.eqb c NUL); auto.
  destruct (Ascii.eqb c "/") eqn:E2; [apply Ascii.eqb_eq in E2; contradiction|].
  now rewrite IH.
Qed.

(** The parser on a path ["/" collection "/" id] with a non-empty id
    component: what [strtoll] makes of the component decides. *)
Lemma fill_ctx_with_id jbr req p m coll idc :
  parse_method (fiobj_obj2cstr (req_method req)) = Some m ->
  req_path req = FIOBJ_STRING p ("/"%char :: coll ++ "/"%char :: idc) ->
  Forall (fun c => c <> "/"%char /\ c <> NUL) coll -> idc <> [] ->
  _jbr_fill_ctx jbr req
  = if len idc >? JBNUMBUF_SIZE jbr - 1 then None
    else if negb (len (snd (strtoll idc)) =? 0) || (fst (strtoll idc) <? 1)
            || method_eqb m JBR_POST
         then None
         else fill_ctx_finish jbr
                (set_id (fst (strtoll idc))
                   (set_collection (Some coll) (set_method m JBRCTX_zero))).
Proof.
  intros Hm Hp Hc Hi. unfold _jbr_fill_ctx. rewrite Hm, Hp.
  cbn [fiobj_obj2cstr fiobj_is_null fiobj_handle tl].
  assert (Hl : len ("/"%char :: coll ++ "/"%char :: idc)
               = len coll + len idc + 2).
  { unfold len. simpl. rewrite length_app. simpl. lia. }
  assert (Hi' : 1 <= len idc).
  { destruct idc; [contradiction|]. unfold len. simpl. lia. }
  pose proof (len_nonneg coll) as Hc0.
  replace (8 * Z.pos p + 2 =? 0) with false by (symmetry; apply Z.eqb_neq; lia).
  rewrite Hl.
  replace (len coll + len idc + 2 =? 1) with false
    by (symmetry; apply Z.eqb_neq; lia).
  replace (len coll + len idc + 2 <? 2) with false
    by (symmetry; apply Z.ltb_ge; lia).
  cbn [orb andb]. rewrite (strchr_slash_app idc Hc).
  replace (len coll + len idc + 2 - (Z.of_nat (List.length coll) + 1) - 1)
    with (len idc) by (unfold len; lia).
  replace (len idc <? 1) with false by (symmetry; apply Z.ltb_ge; lia).
  rewrite firstn_app, firstn_all, Nat.sub_diag, app_nil_r.
  replace (skipn (S (List.length coll)) (coll ++ "/"%char :: idc)) with idc.
  2:{ change (S (List.length coll)) with (1 + List.length coll)%nat.
      rewrite <- skipn_skipn, skipn_app, skipn_all, Nat.sub_diag.
      reflexivity. }
  destruct (strtoll idc) as [v eptr]. reflexivity.
Qed.

Lemma gate_presented jbr req r :
  token_presented jbr req ->
  _jbr_token_gate jbr req r = (GATE_PROCESS, r).
Proof.
  unfold token_presented, _jbr_token_gate, access_token_len.
  destruct (access_token (http jbr)) as [tok|]; [|reflexivity].
  intros [p ->].
  cbn [fiobj_is_null fiobj_handle fiobj_type_is_string fiobj_obj2cstr negb].
  replace (8 * Z.pos p + 2 =? 0) with false
    by (symmetry; apply Z.eqb_neq; lia).
  now rewrite (proj2 (token_compare tok tok) eq_refl).
Qed.

(** The parser on a path ["/" collection "/"] with an empty id component:
    the length test jumps to [finish]. *)
Lemma fill_ctx_empty_id jbr req p m coll :
  parse_method (fiobj_obj2cstr (req_method req)) = Some m ->
  req_path req = FIOBJ_STRING p ("/"%char :: coll ++ ["/"%char]) ->
  Forall (fun c => c <> "/"%char /\ c <> NUL) coll ->
  _jbr_fill_ctx jbr req
  = fill_ctx_finish jbr (set_collection (Some coll) (set_method m JBRCTX_zero)).
Proof.
  intros Hm Hp Hc. unfold _jbr_fill_ctx. rewrite Hm, Hp.
  cbn [fiobj_obj2cstr fiobj_is_null fiobj_handle tl].
  assert (Hl : len ("/"%char :: coll ++ ["/"%char]) = len coll + 2).
  { unfold len. simpl. rewrite length_app. simpl. lia. }
  pose proof (len_nonneg coll) as Hc0.
  replace (8 * Z.pos p + 2 =? 0) with false by (symmetry; apply Z.eqb_neq; lia).
  rewrite Hl.
  replace (len coll + 2 =? 1) with false by (symmetry; apply Z.eqb_neq; lia).
  replace (len coll + 2 <? 2) with false by (symmetry; apply Z.ltb_ge; lia).
  cbn [orb andb]. rewrite (strchr_slash_app _ Hc).
  rewrite firstn_app, firstn_all, Nat.sub_diag. cbn [firstn].
  rewrite app_nil_r.
  replace (len coll + 2 - (Z.of_nat (List.length coll) + 1) - 1 <? 1) with true
    by (symmetry; apply Z.ltb_lt; unfold len; lia).
  reflexivity.
Qed.

(** C4 as the code has it.  For a path ["/" collection "/" id] whose id
    component is not empty, the parser accepts only if [strtoll] converts the
    whole component, the value is at least 1 and the method is not POST; the
    id components [0], [-1] and [1a] are answered 400; a path
    ["/" collection] without id is answered 400 for GET, HEAD, PUT, DELETE
    and PATCH; every request the parser rejects is answered 400; and for
    POST a path ["/" collection "/"] with an empty id component is accepted
    exactly when the collection name has at most
    [EJDB_COLLECTION_NAME_MAX_LEN] bytes, with the context of
    [POST "/" collection], so that a request that passes the token gate is
    handled by [_jbr_on_post] as an insert into the collection. *)
Theorem fill_ctx_path_rules jbr req p m coll :
  parse_method (fiobj_obj2cstr (req_method req)) = Some m ->
  Forall (fun c => c <> "/"%char /\ c <> NUL) coll ->
  (forall idc r,
      idc <> [] ->
      req_path req = FIOBJ_STRING p ("/"%char :: coll ++ "/"%char :: idc) ->
      _jbr_fill_ctx jbr req = Some r ->
      exists v, strtoll idc = (v, []) /\ 1 <= v /\ m <> JBR_POST
                /\ id r = v /\ collection r = Some coll
                /\ method r = Some m)
  /\ (forall idc,
         In idc [lit "0"; lit "-1"; lit "1a"] ->
         req_path req = FIOBJ_STRING p ("/"%char :: coll ++ "/"%char :: idc) ->
         forall faults,
           run (_jbr_on_http_request jbr req) faults = [EvSendError 400])
  /\ (coll <> [] -> m <> JBR_POST ->
      req_path req = FIOBJ_STRING p ("/"%char :: coll) ->
      forall faults,
        run (_jbr_on_http_request jbr req) faults = [EvSendError 400])
  /\ (_jbr_fill_ctx jbr req = None ->
      forall faults,
        run (_jbr_on_http_request jbr req) faults = [EvSendError 400])
  /\ (m = JBR_POST ->
      req_path req = FIOBJ_STRING p ("/"%char :: coll ++ ["/"%char]) ->
      let r := set_collection (Some coll) (set_method JBR_POST JBRCTX_zero) in
      (forall r', _jbr_fill_ctx jbr req = Some r'
                  <-> len coll <= EJDB_COLLECTION_NAME_MAX_LEN jbr /\ r' = r)
      /\ (EJDB_COLLECTION_NAME_MAX_LEN jbr < len coll ->
          forall faults,
            run (_jbr_on_http_request jbr req) faults = [EvSendError 400])
      /\ (len coll <= EJDB_COLLECTION_NAME_MAX_LEN jbr ->
          token_presented jbr req ->
          forall w, exec (_jbr_on_http_request jbr req) w
                    = exec (_jbr_on_post jbr req)
                           (exec (upd_ctx (fun _ => r)) w))).
Proof.
  intros Hm Hc.
  assert (Hrej : _jbr_fill_ctx jbr req = None ->
                 forall faults,
                   run (_jbr_on_http_request jbr req) faults = [EvSendError 400]).
  { intros H faults. apply run_rejected. now left. }
  split; [|split; [|split; [|split]]]; auto.
  - intros idc r Hi Hp. rewrite (fill_ctx_with_id jbr req Hm Hp Hc Hi).
    destruct (len idc >? _); [discriminate|].
    destruct (strtoll idc) as [v eptr]. cbn [fst snd].
    destruct (negb (len eptr =? 0)) eqn:E1; [discriminate|].
    destruct (v <? 1) eqn:E2; [discriminate|].
    destruct (method_eqb m JBR_POST) eqn:E3; [discriminate|].
    cbn [orb]. intros H. apply fill_ctx_finish_eq in H. subst r.
    exists v. repeat split.
    + f_equal. apply negb_false_iff, Z.eqb_eq in E1.
      destruct eptr; [reflexivity|]. unfold len in E1. simpl in E1. lia.
    + apply Z.ltb_ge in E2. lia.
    + intros ->. discriminate.
  - intros idc Hin Hp. apply Hrej.
    assert (Hi : idc <> []).
    { destruct Hin as [<-|[<-|[<-|[]]]]; discriminate. }
    rewrite (fill_ctx_with_id jbr req Hm Hp Hc Hi).
    destruct (len idc >? _); [reflexivity|].
    destruct Hin as [<-|[<-|[<-|[]]]]; reflexivity.
  - intros Hn Hpost Hp. apply Hrej. unfold _jbr_fill_ctx. rewrite Hm, Hp.
    cbn [fiobj_obj2cstr fiobj_is_null fiobj_handle tl].
    assert (Hl : 2 <= len ("/"%char :: coll)).
    { destruct coll; [contradiction|]. unfold len. simpl. lia. }
    replace (8 * Z.pos p + 2 =? 0) with false
      by (symmetry; apply Z.eqb_neq; lia).
    replace (len ("/"%char :: coll) =? 1) with false
      by (symmetry; apply Z.eqb_neq; lia).
    replace (len ("/"%char :: coll) <? 2) with false
      by (symmetry; apply Z.ltb_ge; lia).
    cbn [orb andb]. rewrite strchr_slash_none.
    + destruct m; try reflexivity. contradiction.
    + eapply Forall_impl; [|exact Hc]. now intros c [H _].
  - intros -> Hp. cbv zeta.
    pose proof (fill_ctx_empty_id jbr req Hm Hp Hc) as Hf.
    unfold fill_ctx_finish, collection_len in Hf.
    cbn [collection set_collection] in Hf.
    destruct (len coll <=? EJDB_COLLECTION_NAME_MAX_LEN jbr) eqn:E.
    + apply Z.leb_le in E. split; [|split].
      * intros r'. rewrite Hf. split.
        -- intros [= <-]. auto.
        -- intros [_ ->]. reflexivity.
      * intros Hlt. lia.
      * intros _ Ht w. unfold _jbr_on_http_request.
        rewrite Hf, (gate_presented jbr req _ Ht). rewrite exec_bind.
        unfold _jbr_process. rewrite exec_bind. reflexivity.
    + apply Z.leb_gt in E. split; [|split].
      * intros r'. rewrite Hf. split; [discriminate|]. intros [H _]. lia.
      * intros _. now apply Hrej.
      * intros H. lia.
Qed.

Lemma fill_ctx_path_rules_witness :
  exists v, strtoll (lit "1") = (v, []) /\ 1 <= v /\ JBR_GET <> JBR_POST
            /\ id sample_head_ctx = v
            /\ collection sample_head_ctx = Some (lit "users")
            /\ method (set_method JBR_GET sample_head_ctx) = Some JBR_GET.
Proof.
  destruct (proj1 (@fill_ctx_path_rules
             (sample_jbr None false [] IW_OK IW_OK)
             (sample_req "GET" "/users/1" [] "") 2 JBR_GET (lit "users")
             eq_refl
             ltac:(repeat constructor; discriminate))
           (lit "1")
           (set_method JBR_GET sample_head_ctx)
           ltac:(discriminate) eq_refl eq_refl)
    as (v & H).
  exists v. exact H.
Defined.

(** C4 as stated fails: a path with a trailing slash and no id is not
    rejected (the length test jumps to [finish]); POST on it inserts a
    document and is answered 200 with the new id. *)
Lemma empty_id_component_accepted :
  _jbr_fill_ctx (sample_jbr None false [] IW_OK IW_OK)
                (sample_req "POST" "/users/" [] "{}")
  = Some (set_collection (Some (lit "users"))
            (set_method JBR_POST JBRCTX_zero))
  /\ run (_jbr_on_http_request (sample_jbr None false [] IW_OK IW_OK)
                               (sample_req "POST" "/users/" [] "{}")) []
     = [EvSendBody 200 [(k_header_content_type, lit "text/plain")]
                   (Some (lit "7")) 1].
Proof. split; reflexivity. Qed.

(** On the same path the methods that need an id reach their handler with
    [id = 0]: GET is answered by the database's "not found". *)
Lemma empty_id_component_get :
  run (_jbr_on_http_request (sample_jbr None false [] IW_OK IW_OK)
                            (sample_req "GET" "/users/" [] "")) []
  = [EvSendBody 404 [] None 0].
Proof. reflexivity. Qed.

(** * Further properties of the gateway *)

(** ** Decimal texts *)

Lemma isdigit_facts c :
  isdigit c = true ->
  isspace c = false /\ c <> "-"%char /\ c <> "+"%char /\ c <> NUL
  /\ c <> "/"%char /\ 0 <= digit_val c <= 9.
Proof.
  destruct c as [[] [] [] [] [] [] [] []]; intros H; try discriminate H;
    repeat split; try discriminate; vm_compute; discriminate.
Qed.

Lemma digit_char_dec d :
  (d < 10)%N ->
  isdigit (digit_char d) = true /\ digit_val (digit_char d) = Z.of_N d.
Proof.
  intros H.
  assert (E : (d = 0 \/ d = 1 \/ d = 2 \/ d = 3 \/ d = 4 \/ d = 5 \/ d = 6
               \/ d = 7 \/ d = 8 \/ d = 9)%N) by lia.
  repeat destruct E as [->|E]; try subst d; split; reflexivity.
Qed.

Lemma utoa_aux_digits fuel n acc :
  Forall (fun c => isdigit c = true) acc ->
  Forall (fun c => isdigit c = true) (utoa_aux fuel 10 n acc).
Proof.
  revert n acc. induction fuel as [|f IH]; intros n acc Ha; simpl; auto.
  assert (Hd : Forall (fun c => isdigit c = true)
                      (digit_char (n mod 10) :: acc)).
  { constructor; auto. apply digit_char_dec. apply N.mod_lt. discriminate. }
  destruct (_ =? 0)%N; auto.
Qed.

Lemma utoa_aux_length fuel base n acc :
  (List.length acc <= List.length (utoa_aux fuel base n acc)
   <= fuel + List.length acc)%nat
  /\ (fuel <> O -> List.length acc < List.length (utoa_aux fuel base n acc))%nat.
Proof.
  revert n acc. induction fuel as [|f IH]; intros n acc; simpl.
  - split; [lia|]. intros H. now elim H.
  - destruct (_ =? 0)%N; simpl; [lia|].
    destruct (IH (n / base)%N (digit_char (n mod base) :: acc)) as [H _].
    simpl in H. lia.
Qed.

Lemma utoa_aux_val fuel n acc :
  (n < 2 ^ N.of_nat fuel)%N -> fuel <> O ->
  fold_left (fun a c => 10 * a + digit_val c) (utoa_aux fuel 10 n acc) 0
  = fold_left (fun a c => 10 * a + digit_val c) acc (Z.of_N n).
Proof.
  revert n acc. induction fuel as [|f IH]; intros n acc Hn Hf; [now elim Hf|].
  simpl utoa_aux.
  assert (Hm : (n mod 10 < 10)%N) by (apply N.mod_lt; discriminate).
  destruct (digit_char_dec Hm) as [_ Hv].
  pose proof (N.div_mod n 10 ltac:(discriminate)) as Hdm.
  destruct (n / 10 =? 0)%N eqn:E.
  - apply N.eqb_eq in E. cbn [fold_left]. rewrite Hv. f_equal. lia.
  - apply N.eqb_neq in E.
    assert (Hlt : (n / 10 < 2 ^ N.of_nat f)%N).
    { apply N.Div0.div_lt_upper_bound.
      rewrite Nat2N.inj_succ, N.pow_succ_r' in Hn. lia. }
    assert (Hf' : f <> O).
    { intros ->. simpl in Hlt. lia. }
    rewrite (IH _ _ Hlt Hf'). cbn [fold_left]. rewrite Hv. f_equal. lia.
Qed.

Lemma utoa_fuel n : (n < 2 ^ N.of_nat (S (N.to_nat (N.log2 n))))%N.
Proof.
  rewrite Nat2N.inj_succ, N2Nat.id.
  destruct n as [|p]; [reflexivity|].
  apply N.log2_spec. reflexivity.
Qed.

(** The decimal text of a non-negative number: digits only, at least one,
    and read back it gives the number. *)
Lemma utoa_dec n :
  Forall (fun c => isdigit c = true) (utoa 10 n)
  /\ utoa 10 n <> []
  /\ digits_val (utoa 10 n) = Z.of_N n
  /\ (List.length (utoa 10 n) <= S (N.to_nat (N.log2 n)))%nat.
Proof.
  unfold utoa, digits_val. split; [|split; [|split]].
  - apply utoa_aux_digits. constructor.
  - intros H.
    destruct (utoa_aux_length (S (N.to_nat (N.log2 n))) 10 n []) as [_ L].
    rewrite H in L. simpl in L. specialize (L ltac:(discriminate)). lia.
  - rewrite utoa_aux_val; auto using utoa_fuel.
  - destruct (utoa_aux_length (S (N.to_nat (N.log2 n))) 10 n []) as [L _].
    cbn [List.length] in L. lia.
Qed.

Lemma span_digits_all d :
  Forall (fun c => isdigit c = true) d -> span_digits d = (d, []).
Proof.
  induction 1 as [|c d H _ IH]; simpl; auto. now rewrite H, IH.
Qed.

Lemma c_str_id s : Forall (fun c => c <> NUL) s -> c_str s = s.
Proof.
  induction 1 as [|c s H _ IH]; simpl; auto.
  unfold ascii_eqb. destruct (Ascii.eqb c NUL) eqn:E.
  - apply Ascii.eqb_eq in E. contradiction.
  - now rewrite IH.
Qed.

Lemma digits_no_nul d :
  Forall (fun c => isdigit c = true) d -> Forall (fun c => c <> NUL) d.
Proof.
  apply Forall_impl. intros c H. now apply isdigit_facts in H.
Qed.

(** [strtoll] on a non-empty run of digits converts all of it. *)
Lemma strtoll_digits d :
  Forall (fun c => isdigit c = true) d -> d <> [] ->
  strtoll d = (clamp_ll (digits_val d), []).
Proof.
  intros Hd Hne. unfold strtoll.
  rewrite (c_str_id (digits_no_nul Hd)).
  destruct d as [|c d]; [contradiction|].
  pose proof (Forall_inv Hd) as Hc.
  destruct (isdigit_facts _ Hc) as (Hs & _).
  assert (Hsk : skip_spaces (c :: d) = c :: d) by (simpl; now rewrite Hs).
  rewrite Hsk. pose proof (span_digits_all Hd) as Hsp. clear Hs Hsk Hd Hne.
  destruct c as [[] [] [] [] [] [] [] []]; vm_compute in Hc;
    try discriminate Hc; cbv beta iota; rewrite Hsp; reflexivity.
Qed.

Lemma strtoll_range s : LLONG_MIN <= fst (strtoll s) <= LLONG_MAX.
Proof.
  unfold strtoll.
  destruct (match skip_spaces (c_str s) with
            | "-"%char :: t => (true, t)
            | "+"%char :: t => (false, t)
            | _ => (false, skip_spaces (c_str s))
            end) as [neg s2].
  destruct (span_digits s2) as [d rest].
  destruct d; simpl; [unfold LLONG_MIN, LLONG_MAX; lia|].
  unfold clamp_ll.
  repeat match goal with
         | |- context [if ?c then _ else _] => destruct c eqn:?
         end; unfold LLONG_MIN, LLONG_MAX in *; lia.
Qed.

(** [%lld] of a positive id and [strtoll] are inverse to each other. *)
Lemma strtoll_fmt_lld v :
  0 <= v <= LLONG_MAX ->
  strtoll (fmt_lld v) = (v, [])
  /\ fmt_lld v <> []
  /\ Forall (fun c => isdigit c = true) (fmt_lld v)
  /\ len (fmt_lld v) <= 63.
Proof.
  intros Hv. unfold fmt_lld.
  replace (v <? 0) with false by (symmetry; apply Z.ltb_ge; lia).
  destruct (utoa_dec (Z.to_N v)) as (Hd & Hne & Hval & Hlen).
  split; [|split; [|split]]; auto.
  - rewrite (strtoll_digits Hd Hne), Hval, Z2N.id by lia.
    unfold clamp_ll.
    replace (v >? LLONG_MAX) with false
      by (symmetry; rewrite Z.gtb_ltb; apply Z.ltb_ge; lia).
    replace (v <? LLONG_MIN) with false
      by (symmetry; apply Z.ltb_ge; unfold LLONG_MIN; lia).
    reflexivity.
  - unfold len.
    assert (N.log2 (Z.to_N v) < 63)%N.
    { destruct (Z.to_N v) as [|p] eqn:E; [reflexivity|].
      apply N.log2_lt_pow2; [reflexivity|].
      unfold LLONG_MAX in Hv. change (2 ^ 63)%N with 9223372036854775808%N.
      lia. }
    lia.
Qed.

(** ** The request parser *)

Lemma parse_method_name s m : parse_method s = Some m -> s = method_name m.
Proof.
  unfold parse_method.
  destruct s as [|a [|b [|c [|d [|e [|f [|g s]]]]]]]; cbn [List.length];
    try discriminate;
    repeat match goal with
           | |- context [cstr_eqb ?x ?y] =>
               let E := fresh "E" in
               destruct (cstr_eqb x y) eqn:E;
               [apply cstr_eqb_eq in E; rewrite <- E; intros [= <-]; reflexivity|]
           end; discriminate.
Qed.

(** X1.  The parser knows exactly the six method names GET, PUT, PATCH,
    DELETE, POST and HEAD, compared byte for byte: each of them is accepted
    as its method, nothing else is, and a request whose method is none of
    them is answered 400 whatever its path, headers and body. *)
Theorem request_method_names jbr req :
  (forall m, parse_method (method_name m) = Some m)
  /\ (forall s m, parse_method s = Some m -> s = method_name m)
  /\ ((forall m, fiobj_obj2cstr (req_method req) <> method_name m) ->
      forall faults,
        run (_jbr_on_http_request jbr req) faults = [EvSendError 400]).
Proof.
  split; [|split].
  - intros []; reflexivity.
  - exact parse_method_name.
  - intros H faults. apply run_rejected. left. split; [|reflexivity].
    unfold _jbr_fill_ctx.
    destruct (parse_method (fiobj_obj2cstr (req_method req))) as [m|] eqn:E;
      [|reflexivity].
    apply parse_method_name in E. now elim (H m).
Qed.

Lemma request_method_names_witness :
  run (_jbr_on_http_request (sample_jbr None false [] IW_OK IW_OK)
                            (sample_req "get" "/users/1" [] "")) []
  = [EvSendError 400].
Proof.
  apply (proj2 (proj2 (request_method_names
                         (sample_jbr None false [] IW_OK IW_OK)
                         (sample_req "get" "/users/1" [] "")))).
  intros []; discriminate.
Defined.

(** What suffices for a path ["/" collection "/" id] to be accepted. *)
Lemma id_path_accepted jbr req p m coll idc v :
  parse_method (fiobj_obj2cstr (req_method req)) = Some m ->
  req_path req = FIOBJ_STRING p ("/"%char :: coll ++ "/"%char :: idc) ->
  path_component coll -> idc <> [] ->
  len idc <= JBNUMBUF_SIZE jbr - 1 -> strtoll idc = (v, []) -> 1 <= v ->
  m <> JBR_POST -> len coll <= EJDB_COLLECTION_NAME_MAX_LEN jbr ->
  _jbr_fill_ctx jbr req = Some (ctx_of m coll v).
Proof.
  intros Hm Hp Hc Hi Hl Hs Hv Hpost Hcl.
  rewrite (fill_ctx_with_id jbr req Hm Hp Hc Hi), Hs. cbn [fst snd].
  replace (len idc >? JBNUMBUF_SIZE jbr - 1) with false
    by (symmetry; rewrite Z.gtb_ltb; apply Z.ltb_ge; lia).
  replace (v <? 1) with false by (symmetry; apply Z.ltb_ge; lia).
  replace (method_eqb m JBR_POST) with false
    by (destruct m; try reflexivity; now elim Hpost).
  cbn [len List.length Z.of_nat Z.eqb negb orb].
  unfold fill_ctx_finish, collection_len. cbn [collection set_id
    set_collection set_method].
  replace (len coll <=? EJDB_COLLECTION_NAME_MAX_LEN jbr) with true
    by (symmetry; apply Z.leb_le; lia).
  reflexivity.
Qed.

(** X2.  A path ["/" collection "/" id] with a non-empty id component is
    accepted exactly when the id component has at most [JBNUMBUF_SIZE - 1]
    bytes, [strtoll] converts all of it to a value of at least 1, the method
    is not POST and the collection name has at most
    [EJDB_COLLECTION_NAME_MAX_LEN] bytes; the context then holds the method,
    the collection name and the converted id, and nothing else. *)
Theorem id_path_accepted_iff jbr req p m coll idc r :
  parse_method (fiobj_obj2cstr (req_method req)) = Some m ->
  req_path req = FIOBJ_STRING p ("/"%char :: coll ++ "/"%char :: idc) ->
  path_component coll -> idc <> [] ->
  _jbr_fill_ctx jbr req = Some r
  <-> (len idc <= JBNUMBUF_SIZE jbr - 1
       /\ snd (strtoll idc) = [] /\ 1 <= fst (strtoll idc)
       /\ m <> JBR_POST
       /\ len coll <= EJDB_COLLECTION_NAME_MAX_LEN jbr
       /\ r = ctx_of m coll (fst (strtoll idc))).
Proof.
  intros Hm Hp Hc Hi. rewrite (fill_ctx_with_id jbr req Hm Hp Hc Hi).
  unfold fill_ctx_finish, ctx_of, collection_len. cbn [collection set_id
    set_collection set_method].
  destruct (len idc >? JBNUMBUF_SIZE jbr - 1) eqn:E1.
  { split; [discriminate|]. intros (H & _).
    rewrite Z.gtb_ltb in E1. apply Z.ltb_lt in E1. lia. }
  rewrite Z.gtb_ltb in E1. apply Z.ltb_ge in E1.
  destruct (len (snd (strtoll idc)) =? 0) eqn:E2; cbn [negb orb].
  2:{ split; [discriminate|]. intros (_ & H & _). rewrite H in E2.
      discriminate. }
  assert (Hs : snd (strtoll idc) = []).
  { apply Z.eqb_eq in E2. unfold len in E2.
    destruct (snd (strtoll idc)); [reflexivity|simpl in E2; lia]. }
  destruct (fst (strtoll idc) <? 1) eqn:E3; cbn [orb].
  { split; [discriminate|]. intros (_ & _ & H & _).
    apply Z.ltb_lt in E3. lia. }
  apply Z.ltb_ge in E3.
  destruct (method_eqb m JBR_POST) eqn:E4.
  { split; [discriminate|]. intros (_ & _ & _ & H & _).
    destruct m; try discriminate E4. now elim H. }
  assert (Hpost : m <> JBR_POST) by (intros ->; discriminate E4).
  destruct (len coll <=? EJDB_COLLECTION_NAME_MAX_LEN jbr) eqn:E5.
  - apply Z.leb_le in E5. split.
    + intros [= <-]. repeat split; auto.
    + intros (_ & _ & _ & _ & _ & ->). reflexivity.
  - apply Z.leb_gt in E5. split; [discriminate|].
    intros (_ & _ & _ & _ & H & _). lia.
Qed.

Lemma id_path_accepted_iff_witness :
  _jbr_fill_ctx (sample_jbr None false [] IW_OK IW_OK)
                (sample_req "GET" "/users/0042" [] "")
  = Some (ctx_of JBR_GET (lit "users") 42).
Proof.
  apply (proj2 (@id_path_accepted_iff
                  (sample_jbr None false [] IW_OK IW_OK)
                  (sample_req "GET" "/users/0042" [] "")
                  2%positive JBR_GET (lit "users") (lit "0042")
                  (ctx_of JBR_GET (lit "users") 42)
                  eq_refl eq_refl
                  ltac:(repeat constructor; discriminate)
                  ltac:(discriminate))).
  vm_compute. repeat split; discriminate.
Defined.

Lemma strchr_slash_some s k :
  strchr_slash s = Some k -> ~ In "/"%char (c_str (firstn k s)).
Proof.
  revert k. induction s as [|c s IH]; intros k; simpl; [discriminate|].
  unfold ascii_eqb. destruct (Ascii.eqb c NUL) eqn:E1; [discriminate|].
  destruct (Ascii.eqb c "/") eqn:E2.
  - intros [= <-]. simpl. tauto.
  - destruct (strchr_slash s) as [k'|]; [|discriminate].
    intros [= <-]. simpl. unfold ascii_eqb. rewrite E1. simpl.
    intros [H|H].
    + subst c. discriminate E2.
    + now apply (IH k').
Qed.

Lemma strchr_slash_no s : strchr_slash s = None -> ~ In "/"%char (c_str s).
Proof.
  induction s as [|c s IH]; simpl; [tauto|].
  unfold ascii_eqb. destruct (Ascii.eqb c NUL) eqn:E1; [tauto|].
  destruct (Ascii.eqb c "/") eqn:E2; [discriminate|].
  destruct (strchr_slash s); [discriminate|].
  intros _ [H|H].
  - subst c. discriminate E2.
  - now apply IH.
Qed.

(** X3.  What the handlers can rely on in a context the parser accepted,
    whatever the request was: the method is one of the six and named by the
    request; the collection name has at most
    [EJDB_COLLECTION_NAME_MAX_LEN] bytes and, read as a C string, holds no
    slash; and the id is either 0 (no id component was converted) or a value
    from 1 to [LLONG_MAX], in which case a collection is set and the method
    is not POST.  A negative id never reaches a handler. *)
Theorem accepted_context_shape jbr req r :
  _jbr_fill_ctx jbr req = Some r ->
  (exists m, method r = Some m
             /\ fiobj_obj2cstr (req_method req) = method_name m)
  /\ (forall c, collection r = Some c ->
                len c <= EJDB_COLLECTION_NAME_MAX_LEN jbr
                /\ ~ In "/"%char (c_str c))
  /\ (id r = 0
      \/ (1 <= id r <= LLONG_MAX /\ collection r <> None
          /\ method r <> Some JBR_POST)).
Proof.
  unfold _jbr_fill_ctx.
  destruct (parse_method (fiobj_obj2cstr (req_method req))) as [m|] eqn:Em;
    [|discriminate].
  pose proof Em as Hn. apply parse_method_name in Hn.
  assert (Hfin : forall r0,
             method r0 = Some m ->
             (forall c, collection r0 = Some c -> ~ In "/"%char (c_str c)) ->
             (id r0 = 0
              \/ (1 <= id r0 <= LLONG_MAX /\ collection r0 <> None
                  /\ method r0 <> Some JBR_POST)) ->
             fill_ctx_finish jbr r0 = Some r ->
             (exists m, method r = Some m
                        /\ fiobj_obj2cstr (req_method req) = method_name m)
             /\ (forall c, collection r = Some c ->
                           len c <= EJDB_COLLECTION_NAME_MAX_LEN jbr
                           /\ ~ In "/"%char (c_str c))
             /\ (id r = 0
                 \/ (1 <= id r <= LLONG_MAX /\ collection r <> None
                     /\ method r <> Some JBR_POST))).
  { intros r0 H1 H2 H3. unfold fill_ctx_finish, collection_len.
    destruct (_ <=? _) eqn:E; [|discriminate].
    intros [= <-]. apply Z.leb_le in E. split; [eauto|]. split; [|exact H3].
    intros c Hc. rewrite Hc in E. split; auto. }
  destruct (_ || _).
  { intros [= <-]. cbn. split; [eauto|]. split; [discriminate|now left]. }
  destruct (_ <? 2); [discriminate|].
  destruct (strchr_slash _) as [k|] eqn:Es.
  - destruct (_ <? 1).
    + apply Hfin; cbn; auto. intros c [= <-].
      now apply strchr_slash_some.
    + destruct (_ >? _); [discriminate|].
      pose proof (strtoll_range
                    (skipn (S k) (tl (fiobj_obj2cstr (req_path req))))) as Hr.
      destruct (strtoll _) as [v eptr]. cbn [fst] in Hr.
      destruct (negb _) eqn:E1; [discriminate|].
      destruct (v <? 1) eqn:E2; [discriminate|].
      destruct (method_eqb m JBR_POST) eqn:E3; [discriminate|].
      cbn [orb]. apply Hfin; cbn; auto.
      * intros c [= <-]. now apply strchr_slash_some.
      * right. apply Z.ltb_ge in E2. repeat split; try lia; try discriminate.
        intros [= ->]. discriminate E3.
  - destruct m; try discriminate.
    apply Hfin; cbn; auto. intros c [= <-]. now apply strchr_slash_no.
Qed.

Lemma accepted_context_shape_witness :
  (exists m, method (ctx_of JBR_DELETE (lit "users") 7) = Some m
             /\ lit "DELETE" = method_name m)
  /\ (forall c, collection (ctx_of JBR_DELETE (lit "users") 7) = Some c ->
                len c <= 128 /\ ~ In "/"%char (c_str c))
  /\ (id (ctx_of JBR_DELETE (lit "users") 7) = 0
      \/ (1 <= id (ctx_of JBR_DELETE (lit "users") 7) <= LLONG_MAX
          /\ collection (ctx_of JBR_DELETE (lit "users") 7) <> None
          /\ method (ctx_of JBR_DELETE (lit "users") 7) <> Some JBR_POST)).
Proof.
  apply (@accepted_context_shape
           (sample_jbr None false [] IW_OK IW_OK)
           (sample_req "DELETE" "/users/7" [] "")
           (ctx_of JBR_DELETE (lit "users") 7)).
  reflexivity.
Defined.

(** X4.  The id that POST hands out comes back through the parser.  An
    authenticated POST with a body the JSON parser accepts answers 200 with
    the new document's id, printed in decimal by [iwitoa], as [text/plain]
    body; and a later GET, HEAD, PUT, PATCH or DELETE whose path is
    ["/" collection "/"] followed by that body is accepted with exactly this
    id, for every id from 1 to [LLONG_MAX], when the number buffer has room
    for 63 digits. *)
Theorem post_id_round_trip jbr req req' p m coll jbl v w :
  read_anon (w_ctx w) = false -> 1 <= len (req_body req) ->
  jbl_from_json (db jbr) (req_body req) = (IW_OK, jbl) ->
  ejdb_put_new (db jbr) (cname (w_ctx w)) jbl = (IW_OK, v) ->
  w_faults w = [] -> w_out_headers w = [] ->
  1 <= v <= LLONG_MAX ->
  parse_method (fiobj_obj2cstr (req_method req')) = Some m -> m <> JBR_POST ->
  path_component coll -> len coll <= EJDB_COLLECTION_NAME_MAX_LEN jbr ->
  64 <= JBNUMBUF_SIZE jbr ->
  req_path req' = FIOBJ_STRING p ("/"%char :: coll ++ "/"%char :: fmt_lld v) ->
  w_trace (exec (_jbr_on_post jbr req) w)
  = w_trace w ++ [EvSendBody 200 [(k_header_content_type, lit "text/plain")]
                             (Some (fmt_lld v)) (len (fmt_lld v))]
  /\ _jbr_fill_ctx jbr req' = Some (ctx_of m coll v).
Proof.
  intros Ha Hb Hj Hn Hf Ho Hv Hm Hpost Hc Hl Hnb Hp.
  destruct (strtoll_fmt_lld (v := v) ltac:(lia)) as (Hs & Hne & _ & Hlen).
  split.
  - unfold _jbr_on_post. rewrite exec_bind. cbn [get_ctx fst snd].
    rewrite Ha.
    replace (len (req_body req) <? 1) with false
      by (symmetry; apply Z.ltb_ge; lia).
    rewrite Hj. cbn [rc_is_err]. rewrite Hn. cbn [rc_is_err].
    destruct w as [ctx st oh fl tr]. simpl in Hf, Ho. subst.
    unfold_m. reflexivity.
  - apply (@id_path_accepted jbr req' p m coll (fmt_lld v) v Hm Hp Hc Hne);
      auto; lia.
Qed.

Lemma post_id_round_trip_witness :
  w_trace (exec (_jbr_on_post (sample_jbr None false [] IW_OK IW_OK)
                              (sample_req "POST" "/users" [] "{}"))
                (handler_world (set_collection (Some (lit "users"))
                                  (set_method JBR_POST JBRCTX_zero))))
  = [EvSendBody 200 [(k_header_content_type, lit "text/plain")]
                (Some (lit "7")) 1]
  /\ _jbr_fill_ctx (sample_jbr None false [] IW_OK IW_OK)
                   (sample_req "GET" "/users/7" [] "")
     = Some (ctx_of JBR_GET (lit "users") 7).
Proof.
  apply (@post_id_round_trip
           (sample_jbr None false [] IW_OK IW_OK)
           (sample_req "POST" "/users" [] "{}")
           (sample_req "GET" "/users/7" [] "")
           2%positive JBR_GET (lit "users") sample_jbl 7
           (handler_world (set_collection (Some (lit "users"))
                             (set_method JBR_POST JBRCTX_zero))));
    try reflexivity; try discriminate;
    try (repeat constructor; discriminate);
    try (vm_compute; discriminate);
    try (split; vm_compute; discriminate).
Defined.

(** ** The document handlers *)

Ltac once_tac w :=
  destruct w as [ctx st oh fl tr]; unfold_m; simpl; repeat break;
  unfold count; rewrite ?responses_app, ?filter_app, ?length_app; simpl;
  rewrite ?app_nil_r;
  try (split; [|lia]); eexists; (split; [|reflexivity]); simpl; tauto.

(** X5.  Whatever the database returns and whichever library calls fail,
    each of the handlers for GET/HEAD, PUT, POST and DELETE sends exactly one
    response: 200, 404 or 500 for GET and HEAD; 200, 400, 403 or 500 for PUT
    and POST; 200, 403, 404 or 500 for DELETE.  The string buffer
    [_jbr_on_get] allocates for the document text is released before it
    returns, also when printing fails. *)
Theorem document_handlers_answer_once jbr req w :
  ((exists s, In s [200; 404; 500]
              /\ responses (w_trace (exec (_jbr_on_get jbr req) w))
                 = responses (w_trace w) ++ [s])
   /\ (count (is_new RES_XSTR) (w_trace (exec (_jbr_on_get jbr req) w))
       + count (is_destroy RES_XSTR) (w_trace w)
       = count (is_destroy RES_XSTR) (w_trace (exec (_jbr_on_get jbr req) w))
         + count (is_new RES_XSTR) (w_trace w))%nat)
  /\ (exists s, In s [200; 400; 403; 500]
                /\ responses (w_trace (exec (_jbr_on_put jbr req) w))
                   = responses (w_trace w) ++ [s])
  /\ (exists s, In s [200; 400; 403; 500]
                /\ responses (w_trace (exec (_jbr_on_post jbr req) w))
                   = responses (w_trace w) ++ [s])
  /\ (exists s, In s [200; 403; 404; 500]
                /\ responses (w_trace (exec (_jbr_on_delete jbr req) w))
                   = responses (w_trace w) ++ [s]).
Proof.
  split; [|split; [|split]].
  - unfold _jbr_on_get. once_tac w.
  - unfold _jbr_on_put. once_tac w.
  - unfold _jbr_on_post. once_tac w.
  - unfold _jbr_on_delete. once_tac w.
Qed.

(** ** Requests that carry the token *)

(** X6.  A request whose X-Access-Token header is the configured token is
    handled exactly as the same request by a server without a token: the
    gate leaves the context alone and the same handler runs.  Such a request
    is therefore never answered 403, whichever library calls fail. *)
Theorem matching_token_is_transparent jbr req tok p :
  access_token (http jbr) = Some tok ->
  fiobj_hash_get2 (req_headers req) k_header_x_access_token
  = FIOBJ_STRING p tok ->
  (forall w, exec (_jbr_on_http_request jbr req) w
             = exec (_jbr_on_http_request (without_token jbr) req) w)
  /\ forall faults,
       Forall not403 (run (_jbr_on_http_request jbr req) faults).
Proof.
  intros Ht Hh.
  assert (E : forall w, exec (_jbr_on_http_request jbr req) w
                        = exec (_jbr_on_http_request (without_token jbr) req) w).
  { intros w. unfold _jbr_on_http_request.
    change (_jbr_fill_ctx (without_token jbr) req) with (_jbr_fill_ctx jbr req).
    destruct (_jbr_fill_ctx jbr req) as [r|]; [|reflexivity].
    assert (G : _jbr_token_gate jbr req r = (GATE_PROCESS, r)).
    { unfold _jbr_token_gate. rewrite Ht, Hh.
      cbn [fiobj_is_null fiobj_handle fiobj_type_is_string fiobj_obj2cstr negb].
      replace (8 * Z.pos p + 2 =? 0) with false
        by (symmetry; apply Z.eqb_neq; lia).
      unfold access_token_len. rewrite Ht.
      now rewrite (proj2 (token_compare tok tok) eq_refl). }
    rewrite G. reflexivity. }
  split; [exact E|].
  intros faults. unfold run. rewrite E.
  destruct (request_inv (without_token jbr) req faults) as (_ & _ & C & _).
  apply C. reflexivity.
Qed.

Lemma matching_token_is_transparent_witness :
  Forall not403
    (run (_jbr_on_http_request
            (sample_jbr (Some (lit "tok")) false [] IW_OK IW_OK)
            (sample_req "DELETE" "/users/1" [hdr "x-access-token" "tok"] ""))
         []).
Proof.
  apply (proj2 (@matching_token_is_transparent
                  (sample_jbr (Some (lit "tok")) false [] IW_OK IW_OK)
                  (sample_req "DELETE" "/users/1"
                              [hdr "x-access-token" "tok"] "")
                  (lit "tok") 3%positive eq_refl eq_refl)).
Defined.

(** ** The WebSocket upgrade *)

Lemma upgrade_entry_spec req proto :
  (negb (len (fiobj_obj2cstr (req_path req)) =? 1)
   || negb (ascii_eqb (nth 0 (fiobj_obj2cstr (req_path req)) NUL) "/"%char))
  || (negb (len proto =? 9)
      || negb (ascii_eqb (nth 1 proto NUL) "e"%char)) = false
  <-> upgrade_entry req proto.
Proof.
  unfold upgrade_entry, ascii_eqb.
  rewrite !orb_false_iff, !negb_false_iff, !Z.eqb_eq, !Ascii.eqb_eq.
  split.
  - intros [[H1 H2] [H3 H4]]. split; auto.
    destruct (fiobj_obj2cstr (req_path req)) as [|c [|c' s]];
      unfold len in H1; simpl in *; try lia. now subst c.
  - intros (-> & H3 & H4). repeat split; auto.
Qed.

(** The runs of the upgrade handler: the entry test fails; the session
    context cannot be allocated; the token test fails; the server library
    refuses the upgrade; or the connection is upgraded. *)
Lemma upgrade_cases jbr req proto faults :
  let t := run (_jbr_on_http_upgrade jbr req proto) faults in
  (~ upgrade_entry req proto /\ t = [EvSendError 400])
  \/ (upgrade_entry req proto
      /\ (t = [EvSendError 500]
          \/ (exists s, t = [EvNew RES_WCTX; EvDestroy RES_WCTX; EvSendError s]
                        /\ ~ token_presented jbr req)
          \/ (token_presented jbr req
              /\ ((exists rc h b n,
                      t = [EvNew RES_WCTX; EvDestroy RES_WCTX; EvLog rc;
                           EvSendBody 500 h b n])
                  \/ (exists rc h b n rc',
                      t = [EvNew RES_WCTX; EvDestroy RES_WCTX; EvLog rc;
                           EvSendBody 500 h b n; EvLog rc'])
                  \/ t = [EvNew RES_WCTX; EvUpgrade false])))).
Proof.
  cbv zeta. unfold run, _jbr_on_http_upgrade.
  destruct (_ || _) eqn:Et.
  { left. split; [|reflexivity]. intros H. apply upgrade_entry_spec in H.
    congruence. }
  apply upgrade_entry_spec in Et. right. split; [exact Et|].
  unfold token_presented, access_token_len.
  destruct (access_token (http jbr)) as [tok|] eqn:Etok.
  2:{ destruct faults as [|[] [|[] [|[] fs]]]; unfold_m; simpl; auto;
      right; right; (split; [exact I|]); eauto 10. }
  destruct (fiobj_hash_get2 (req_headers req) k_header_x_access_token)
    as [| |p s|p l] eqn:Eh.
  - destruct (http_read_anon (http jbr));
      destruct faults as [|[] fs]; unfold_m; simpl; auto;
      right; left; eexists; (split; [reflexivity|]); intros [p' Hp'];
      discriminate.
  - destruct faults as [|[] fs]; unfold_m; simpl; auto;
      right; left; eexists; (split; [reflexivity|]); intros [p' Hp'];
      discriminate.
  - cbn [fiobj_is_null fiobj_handle fiobj_type_is_string fiobj_obj2cstr].
    replace (8 * Z.pos p + 2 =? 0) with false
      by (symmetry; apply Z.eqb_neq; lia).
    cbn [andb negb].
    destruct (negb (Nat.eqb (List.length s) (List.length tok))
              || memcmp_ne s tok (List.length tok)) eqn:Ec.
    + destruct faults as [|[] fs]; unfold_m; simpl; auto;
        right; left; eexists; (split; [reflexivity|]); intros [p' [= _ Hp']];
        subst s; rewrite (proj2 (token_compare tok tok) eq_refl) in Ec;
        discriminate.
    + apply token_compare in Ec. subst s.
      destruct faults as [|[] [|[] [|[] fs]]]; unfold_m; simpl; auto;
        right; right; (split; [eauto|]); eauto 10.
  - destruct faults as [|[] fs]; unfold_m; simpl; auto;
      right; left; eexists; (split; [reflexivity|]); intros [p' Hp'];
      discriminate.
Qed.

(** X7.  Whatever the request and whichever library calls fail, the upgrade
    handler ends in exactly one of two ways: it sends one response, or it
    upgrades the connection.  It upgrades only a request that passed the
    entry test and carries the configured token (when one is configured),
    and the session it creates is never anonymous; the session context is
    released on every path that does not upgrade. *)
Theorem upgrade_outcomes jbr req proto faults :
  let t := run (_jbr_on_http_upgrade jbr req proto) faults in
  (forall anon, In (EvUpgrade anon) t ->
                anon = false /\ upgrade_entry req proto
                /\ token_presented jbr req)
  /\ (count is_response t + count is_upgrade t = 1)%nat
  /\ count (is_new RES_WCTX) t
     = (count (is_destroy RES_WCTX) t + count is_upgrade t)%nat.
Proof.
  cbv zeta.
  destruct (upgrade_cases jbr req proto faults)
    as [[He ->]|[He [->|[(s & -> & Hn)|[Ht [(rc & h & b & n & ->)
        |[(rc & h & b & n & rc' & ->)| ->]]]]]]];
    (split; [|split; reflexivity]); intros anon Hin; simpl in Hin;
    repeat match goal with
           | H : _ \/ _ |- _ => destruct H as [H|H]
           end; try discriminate; try contradiction.
  injection Hin as <-. auto.
Qed.

Lemma upgrade_outcomes_witness :
  false = false
  /\ upgrade_entry (sample_req "GET" "/" [hdr "x-access-token" "tok"] "")
                   (lit "websocket")
  /\ token_presented (sample_jbr (Some (lit "tok")) true [] IW_OK IW_OK)
                     (sample_req "GET" "/" [hdr "x-access-token" "tok"] "").
Proof.
  apply (proj1 (@upgrade_outcomes
                  (sample_jbr (Some (lit "tok")) true [] IW_OK IW_OK)
                  (sample_req "GET" "/" [hdr "x-access-token" "tok"] "")
                  (lit "websocket") []) false).
  vm_compute. right. left. reflexivity.
Defined.

(** X8.  The entry test of the upgrade handler looks at the path, the
    length of the requested protocol name and its second byte only: the
    answer is a bare 400 exactly when the path is not ["/"], or the name has
    not nine bytes, or its second byte is not [e].  A request that passes
    the test and carries the configured token (or meets a server without
    one) is upgraded when no library call fails, whatever the other bytes
    of the protocol name are. *)
Theorem upgrade_entry_test jbr req proto faults :
  (run (_jbr_on_http_upgrade jbr req proto) faults = [EvSendError 400]
   <-> ~ upgrade_entry req proto)
  /\ (upgrade_entry req proto -> token_presented jbr req -> faults = [] ->
      run (_jbr_on_http_upgrade jbr req proto) faults
      = [EvNew RES_WCTX; EvUpgrade false]).
Proof.
  split.
  - destruct (upgrade_cases jbr req proto faults)
      as [[He ->]|[He [->|[(s & -> & Hn)|[Ht [(rc & h & b & n & ->)
          |[(rc & h & b & n & rc' & ->)| ->]]]]]]];
      split; auto; try discriminate; intros H; contradiction.
  - intros He Ht ->. apply upgrade_entry_spec in He.
    unfold run, _jbr_on_http_upgrade. rewrite He.
    unfold token_presented, access_token_len in *.
    destruct (access_token (http jbr)) as [tok|]; [|reflexivity].
    destruct Ht as [p ->].
    cbn [fiobj_is_null fiobj_handle fiobj_type_is_string fiobj_obj2cstr].
    replace (8 * Z.pos p + 2 =? 0) with false
      by (symmetry; apply Z.eqb_neq; lia).
    cbn [andb negb].
    rewrite (proj2 (token_compare tok tok) eq_refl). reflexivity.
Qed.

Lemma upgrade_entry_test_witness :
  run (_jbr_on_http_upgrade
         (sample_jbr (Some (lit "tok")) false [] IW_OK IW_OK)
         (sample_req "GET" "/" [hdr "x-access-token" "tok"] "")
         (lit "xexxxxxxx")) []
  = [EvNew RES_WCTX; EvUpgrade false].
Proof.
  apply (proj2 (@upgrade_entry_test
                  (sample_jbr (Some (lit "tok")) false [] IW_OK IW_OK)
                  (sample_req "GET" "/" [hdr "x-access-token" "tok"] "")
                  (lit "xexxxxxxx") [])).
  - repeat split; reflexivity.
  - exists 3%positive. reflexivity.
  - reflexivity.
Defined.

(** ** The WebSocket message handler *)

Lemma skip_spaces_head s : skip_spaces s = [] \/ starts_text (skip_spaces s).
Proof.
  induction s as [|c s IH]; simpl; auto.
  destruct (isspace c) eqn:E; [exact IH|right; exact E].
Qed.

Lemma skip_spaces_text s : starts_text s -> skip_spaces s = s.
Proof. destruct s as [|c s]; simpl; [tauto|]. now intros ->. Qed.

Lemma skip_spaces_app sp s : whitespace sp -> skip_spaces (sp ++ s) = skip_spaces s.
Proof. induction 1 as [|c sp H _ IH]; simpl; auto. now rewrite H. Qed.

Lemma span_nonspace_spec s a b :
  span_nonspace s = (a, b) ->
  s = a ++ b /\ nonspace a /\ (b = [] \/ skip_spaces b <> b).
Proof.
  revert a b. induction s as [|c s IH]; intros a b; simpl.
  - intros [= <- <-]. repeat split; auto. constructor.
  - destruct (isspace c) eqn:E.
    + intros [= <- <-]. repeat split; [constructor|]. right. simpl. rewrite E.
      intros H. apply (f_equal (@List.length ascii)) in H. simpl in H.
      assert (L : forall t, (List.length (skip_spaces t) <= List.length t)%nat).
      { clear. induction t as [|x t IH]; simpl; auto.
        destruct (isspace x); simpl; lia. }
      specialize (L s). lia.
    + destruct (span_nonspace s) as [a' b'] eqn:Es. intros [= <- <-].
      destruct (IH a' b' eq_refl) as (-> & Hn & Hb).
      repeat split; auto. now constructor.
Qed.

Lemma span_nonspace_text s : starts_text s -> fst (span_nonspace s) <> [].
Proof.
  destruct s as [|c s]; simpl; [tauto|]. intros ->.
  destruct (span_nonspace s). discriminate.
Qed.

Lemma span_nonspace_token tok rest :
  nonspace tok -> (rest = [] \/ skip_spaces rest <> rest) ->
  span_nonspace (tok ++ rest) = (tok, rest).
Proof.
  intros Ht Hr. induction Ht as [|c tok H _ IH]; simpl.
  - destruct rest as [|c rest]; [reflexivity|]. simpl.
    destruct Hr as [Hr|Hr]; [discriminate|]. simpl in Hr.
    destruct (isspace c); [reflexivity|]. now elim Hr.
  - now rewrite H, IH.
Qed.

Lemma take_digits_spec n s d r :
  take_digits n s = (d, r) ->
  s = d ++ r /\ (List.length d <= n)%nat /\ Forall (fun c => isdigit c = true) d.
Proof.
  revert s d r. induction n as [|n IH]; intros s d r.
  - destruct s; intros [= <- <-]; repeat split; auto.
  - destruct s as [|c s]; simpl.
    + intros [= <- <-]. repeat split; simpl; auto; lia.
    + destruct (isdigit c) eqn:E.
      * destruct (take_digits n s) as [d' r'] eqn:Et. intros [= <- <-].
        destruct (IH _ _ _ Et) as (-> & Hl & Hd).
        repeat split; simpl; auto; lia.
      * intros [= <- <-]. repeat split; simpl; auto; lia.
Qed.

Lemma take_digits_run n d r :
  Forall (fun c => isdigit c = true) d -> (List.length d <= n)%nat ->
  no_leading_digit r ->
  take_digits n (d ++ r) = (d, r).
Proof.
  intros Hd. revert n. induction Hd as [|c d H _ IH]; intros n Hl Hr; simpl.
  - destruct n; [reflexivity|]. destruct r as [|c r]; [reflexivity|].
    simpl in *. now rewrite Hr.
  - destruct n as [|n]; [simpl in Hl; lia|]. simpl in *.
    rewrite H, IH; auto. lia.
Qed.

Lemma len_pos_text s : (len s <? 1) = false <-> s <> [].
Proof.
  unfold len. destruct s; simpl; split; intros H; try discriminate; auto.
  - now elim H.
  - apply Z.ltb_ge. lia.
Qed.

(** X9.  Whatever a WebSocket frame holds, the handler calls a document
    handler only with arguments that fit: the key has 1 to 36 bytes and the
    collection name 1 to [EJDB_COLLECTION_NAME_MAX_LEN] bytes (so the copies
    into [keybuf] and [cnamebuf] stay inside the buffers), neither holds
    white space, the id is at least 1, and the text handed on starts at a
    byte that is not white space (for set and patch it may also be empty).
    The socket is closed exactly for binary frames. *)
Theorem ws_calls_well_formed iwatoi jbr msg is_text call :
  (_jbr_ws_on_message iwatoi jbr msg is_text = Some call ->
   ws_call_ok jbr is_text call)
  /\ _jbr_ws_on_message iwatoi jbr msg false = Some WS_CLOSE.
Proof.
  split; [|reflexivity].
  unfold _jbr_ws_on_message.
  destruct is_text; cbn [negb]; [|intros [= <-]; reflexivity].
  destruct (len msg <? 1); [discriminate|].
  destruct (len (skip_spaces msg) <? 1) eqn:E0; [discriminate|].
  apply len_pos_text in E0.
  destruct (skip_spaces_head msg) as [H0|H0]; [contradiction|].
  pose proof (span_nonspace_text _ H0) as Hk0.
  destruct (span_nonspace (skip_spaces msg)) as [key rest] eqn:Ek.
  destruct (span_nonspace_spec _ Ek) as (_ & Hkey & _). cbn [fst] in Hk0.
  destruct ((len rest <? 1) || (len key >? JBR_MAX_KEY_LEN)) eqn:E1;
    [discriminate|].
  apply orb_false_iff in E1. destruct E1 as [_ E1].
  rewrite Z.gtb_ltb in E1. apply Z.ltb_ge in E1.
  assert (Hkok : ws_key_ok key).
  { split; auto. split; auto.
    apply len_pos_text in Hk0. apply Z.ltb_ge in Hk0. exact Hk0. }
  destruct (len (skip_spaces rest) <? 1) eqn:E2; [discriminate|].
  apply len_pos_text in E2.
  destruct (skip_spaces_head rest) as [H1|H1]; [contradiction|].
  destruct (span_nonspace (skip_spaces rest)) as [cmd after] eqn:Ec.
  destruct (if 0 <? len after
            then ws_command (skip_spaces rest) (List.length cmd) else None)
    as [op|]; [|intros [= <-]; repeat split; auto; apply Hkok].
  destruct (len (skip_spaces after) <? 1) eqn:E3; [discriminate|].
  apply len_pos_text in E3.
  destruct (skip_spaces_head after) as [H2|H2]; [contradiction|].
  destruct (span_nonspace (skip_spaces after)) as [coll rest'] eqn:Ecl.
  destruct (span_nonspace_spec _ Ecl) as (_ & Hcoll & _).
  destruct ((len coll <? 1) || (len rest' <? 1)
            || (len coll >? EJDB_COLLECTION_NAME_MAX_LEN jbr)) eqn:E4;
    [discriminate|].
  apply orb_false_iff in E4. destruct E4 as [E4 E5].
  apply orb_false_iff in E4. destruct E4 as [E4 _].
  rewrite Z.gtb_ltb in E5. apply Z.ltb_ge in E5. apply Z.ltb_ge in E4.
  assert (Hcok : ws_coll_ok jbr coll) by (repeat split; auto).
  destruct (len (skip_spaces rest') <? 1) eqn:E6; [discriminate|].
  apply len_pos_text in E6.
  destruct (skip_spaces_head rest') as [H3|H3]; [contradiction|].
  assert (Hid : forall nbuf r,
             (if iwatoi nbuf <? 1 then None
              else match op with
                   | JBWS_SET =>
                       Some (WS_SET_DOCUMENT key coll (iwatoi nbuf)
                                             (skip_spaces r))
                   | JBWS_DEL => Some (WS_DEL_DOCUMENT key coll (iwatoi nbuf))
                   | JBWS_PATCH =>
                       Some (WS_PATCH_DOCUMENT key coll (iwatoi nbuf)
                                               (skip_spaces r))
                   | JBWS_ADD => None
                   end) = Some call ->
             ws_call_ok jbr true call).
  { intros nbuf r. destruct (iwatoi nbuf <? 1) eqn:E7; [discriminate|].
    apply Z.ltb_ge in E7.
    destruct op; try discriminate; intros [= <-]; repeat split;
      try apply Hkok; try apply Hcok; auto;
      destruct (skip_spaces_head r); auto. }
  destruct op;
    try (destruct (take_digits _ _) as [nbuf r]; exact (Hid nbuf r)).
  intros [= <-]. repeat split; try apply Hkok; try apply Hcok; auto.
Qed.

Lemma ws_calls_well_formed_witness :
  ws_call_ok sample_ws_jbr true
             (WS_SET_DOCUMENT (lit "k1") (lit "c1") 1 (lit "{}")).
Proof.
  apply (proj1 (@ws_calls_well_formed sample_iwatoi sample_ws_jbr
                  (lit "k1 set c1 1 {}") true
                  (WS_SET_DOCUMENT (lit "k1") (lit "c1") 1 (lit "{}")))).
  reflexivity.
Defined.

Lemma spaces_not_text ws t : spaces ws -> skip_spaces (ws ++ t) <> ws ++ t.
Proof.
  intros [Hne Hw]. destruct Hw as [|c ws Hc Hw]; [contradiction|].
  simpl. rewrite Hc. intros H.
  apply (f_equal (@List.length ascii)) in H. simpl in H.
  assert (L : forall s, (List.length (skip_spaces s) <= List.length s)%nat).
  { clear. induction s as [|x s IH]; simpl; auto.
    destruct (isspace x); simpl; lia. }
  specialize (L (ws ++ t)). lia.
Qed.

Lemma token_text a b : a <> [] -> nonspace a -> starts_text (a ++ b).
Proof.
  intros Hne Hn. destruct Hn as [|c a H _]; [contradiction|]. exact H.
Qed.

Lemma len_pos_app a b : a <> [] -> (len (a ++ b) <? 1) = false.
Proof.
  intros H. apply len_pos_text. destruct a; [contradiction|discriminate].
Qed.

Lemma abbreviates_chars cmd op :
  ws_abbreviates cmd op ->
  nonspace cmd /\ ~ In NUL cmd
  /\ forall after, ws_command (cmd ++ after) (List.length cmd) = Some op.
Proof.
  intros [Hne Hp].
  assert (E : In cmd [lit "s"; lit "se"; lit "set"; lit "a"; lit "ad";
                      lit "add"; lit "d"; lit "de"; lit "del"; lit "p";
                      lit "pa"; lit "pat"; lit "patc"; lit "patch"]
              /\ ws_command_name op
                 = ws_command_name
                     (match cmd with
                      | "s"%char :: _ => JBWS_SET
                      | "a"%char :: _ => JBWS_ADD
                      | "d"%char :: _ => JBWS_DEL
                      | _ => JBWS_PATCH
                      end)).
  { destruct op; cbv [ws_command_name lit list_ascii_of_string] in *;
      repeat match goal with
             | H : is_prefix ?c _ = true |- _ =>
                 destruct c as [|? ?]; simpl in H;
                 [|try discriminate H; apply andb_true_iff in H;
                   let H1 := fresh in
                   destruct H as [H1 H]; apply Ascii.eqb_eq in H1; subst]
             end; try contradiction; simpl; intuition auto. }
  destruct E as [E Hop].
  assert (Hop' : op = match cmd with
                      | "s"%char :: _ => JBWS_SET
                      | "a"%char :: _ => JBWS_ADD
                      | "d"%char :: _ => JBWS_DEL
                      | _ => JBWS_PATCH
                      end).
  { destruct op;
      repeat (destruct E as [<-|E]; [try discriminate Hop; try reflexivity|]);
      try contradiction. }
  clear Hop Hp Hne. subst op.
  repeat (destruct E as [<-|E];
          [split; [repeat constructor|split; [|reflexivity]];
           simpl; intuition discriminate|]).
  contradiction.
Qed.

Lemma strncmp_prefix name cmd after :
  ~ In NUL cmd ->
  strncmp_eq name (cmd ++ after) (List.length cmd) = true ->
  is_prefix cmd name = true.
Proof.
  revert name. induction cmd as [|c cmd IH]; intros name Hn; simpl; auto.
  unfold ascii_eqb.
  destruct (Ascii.eqb (hd NUL name) c) eqn:E; cbn [negb]; [|discriminate].
  apply Ascii.eqb_eq in E.
  destruct (Ascii.eqb (hd NUL name) NUL) eqn:E2.
  { apply Ascii.eqb_eq in E2. elim Hn. left. congruence. }
  intros H. destruct name as [|x name]; simpl in *.
  { subst c. elim Hn. now left. }
  subst x. rewrite Ascii.eqb_refl. apply IH; auto.
Qed.

Lemma command_none cmd after :
  cmd <> [] -> ~ In NUL cmd -> (forall op, ~ ws_abbreviates cmd op) ->
  ws_command (cmd ++ after) (List.length cmd) = None.
Proof.
  intros Hne Hn Hab. unfold ws_command.
  repeat match goal with
         | |- context [strncmp_eq ?name _ _] =>
             let E := fresh "E" in
             destruct (strncmp_eq name (cmd ++ after) (List.length cmd)) eqn:E;
             [apply strncmp_prefix in E; auto|]
         end; auto.
  - elim (Hab JBWS_SET). now split.
  - elim (Hab JBWS_ADD). now split.
  - elim (Hab JBWS_DEL). now split.
  - elim (Hab JBWS_PATCH). now split.
Qed.

(** The handler up to the command token: the key is cut off and the rest of
    the frame begins with the command. *)
Lemma ws_key_step iwatoi jbr ws0 key ws1 q :
  whitespace ws0 -> ws_key_ok key -> spaces ws1 -> starts_text q ->
  _jbr_ws_on_message iwatoi jbr (ws0 ++ key ++ ws1 ++ q) true
  = let '(cmd, after) := span_nonspace q in
    match (if 0 <? len after then ws_command q (List.length cmd) else None)
    with
    | None => Some (WS_QUERY key q)
    | Some op =>
        let data := skip_spaces after in
        if len data <? 1 then None
        else
          let '(coll, rest) := span_nonspace data in
          if (len coll <? 1) || (len rest <? 1)
             || (len coll >? EJDB_COLLECTION_NAME_MAX_LEN jbr)
          then None
          else
            let data := skip_spaces rest in
            if len data <? 1 then None
            else
              match op with
              | JBWS_ADD => Some (WS_ADD_DOCUMENT key coll data)
              | _ =>
                  let '(nbuf, r) :=
                    take_digits (Z.to_nat (JBNUMBUF_SIZE jbr - 1)) data in
                  let data := skip_spaces r in
                  let id := iwatoi nbuf in
                  if id <? 1 then None
                  else
                    match op with
                    | JBWS_SET => Some (WS_SET_DOCUMENT key coll id data)
                    | JBWS_DEL => Some (WS_DEL_DOCUMENT key coll id)
                    | JBWS_PATCH => Some (WS_PATCH_DOCUMENT key coll id data)
                    | JBWS_ADD => None
                    end
              end
    end.
Proof.
  intros H0 [[Hk1 Hk2] Hk] H1 Hq.
  assert (Hkne : key <> []).
  { intros ->. unfold len in Hk1. simpl in Hk1. lia. }
  assert (Hqne : q <> []) by (destruct q; [contradiction|discriminate]).
  unfold _jbr_ws_on_message. cbn [negb].
  replace (len (ws0 ++ key ++ ws1 ++ q) <? 1) with false.
  2:{ symmetry. apply len_pos_text. intros H.
      apply app_eq_nil in H. destruct H as [_ H].
      apply app_eq_nil in H. destruct H as [H _]. contradiction. }
  rewrite (skip_spaces_app _ H0).
  rewrite (skip_spaces_text _ (token_text (ws1 ++ q) Hkne Hk)).
  rewrite (len_pos_app _ Hkne).
  rewrite (span_nonspace_token Hk (or_intror (spaces_not_text q H1))).
  rewrite (len_pos_app _ (proj1 H1)).
  replace (len key >? JBR_MAX_KEY_LEN) with false
    by (symmetry; rewrite Z.gtb_ltb; apply Z.ltb_ge; lia).
  cbn [orb]. rewrite (skip_spaces_app _ (proj2 H1)).
  rewrite (skip_spaces_text _ Hq).
  rewrite (proj2 (len_pos_text q) Hqne). reflexivity.
Qed.

(** X10.  The document commands as the handler reads them.  In a text frame
    [key command collection ...] whose parts are separated by white space,
    the command may be [set], [add], [del] or [patch] or any non-empty
    beginning of one of these names ([s], [pa], ...): the comparison is
    [strncmp] over the length of the token.  For [add] the rest of the frame
    is the document; for the others the leading digits of the rest (at most
    [JBNUMBUF_SIZE - 1]) are converted to the id, which must be at least 1,
    and what follows the digits and the white space after them is the
    document. *)
Theorem ws_document_frames iwatoi jbr ws0 key ws1 cmd ws2 coll ws3 op :
  whitespace ws0 -> ws_key_ok key -> spaces ws1 -> ws_abbreviates cmd op ->
  spaces ws2 -> ws_coll_ok jbr coll -> spaces ws3 ->
  (op = JBWS_ADD ->
   forall json,
     starts_text json ->
     _jbr_ws_on_message iwatoi jbr
       (ws0 ++ key ++ ws1 ++ cmd ++ ws2 ++ coll ++ ws3 ++ json) true
     = Some (WS_ADD_DOCUMENT key coll json))
  /\ (op <> JBWS_ADD ->
      forall idc tail,
        idc <> [] -> Forall (fun c => isdigit c = true) idc ->
        len idc <= JBNUMBUF_SIZE jbr - 1 -> no_leading_digit tail ->
        1 <= iwatoi idc ->
        _jbr_ws_on_message iwatoi jbr
          (ws0 ++ key ++ ws1 ++ cmd ++ ws2 ++ coll ++ ws3 ++ idc ++ tail) true
        = ws_id_call op key coll (iwatoi idc) (skip_spaces tail)).
Proof.
  intros H0 Hk H1 Hab H2 [[Hc1 Hc2] Hc] H3.
  destruct (abbreviates_chars Hab) as (Hcmd & _ & Hop).
  assert (Hcne : coll <> []).
  { intros ->. unfold len in Hc1. simpl in Hc1. lia. }
  assert (Hstep : forall rest,
             starts_text rest ->
             _jbr_ws_on_message iwatoi jbr
               (ws0 ++ key ++ ws1 ++ cmd ++ ws2 ++ coll ++ ws3 ++ rest) true
             = match op with
               | JBWS_ADD => Some (WS_ADD_DOCUMENT key coll rest)
               | _ =>
                   let '(nbuf, r) :=
                     take_digits (Z.to_nat (JBNUMBUF_SIZE jbr - 1)) rest in
                   if iwatoi nbuf <? 1 then None
                   else ws_id_call op key coll (iwatoi nbuf) (skip_spaces r)
               end).
  { intros rest Hr.
    assert (Hrne : rest <> []) by (destruct rest; [contradiction|discriminate]).
    rewrite (@ws_key_step iwatoi jbr ws0 key ws1 _ H0 Hk H1
               (token_text (ws2 ++ coll ++ ws3 ++ rest) (proj1 Hab) Hcmd)).
    rewrite (span_nonspace_token Hcmd (or_intror (spaces_not_text _ H2))).
    rewrite Hop.
    replace (0 <? len (ws2 ++ coll ++ ws3 ++ rest)) with true.
    2:{ symmetry. apply Z.ltb_lt. pose proof (len_pos_app (coll ++ ws3 ++ rest)
          (proj1 H2)) as L. apply Z.ltb_ge in L. lia. }
    cbv zeta. rewrite (skip_spaces_app _ (proj2 H2)).
    rewrite (skip_spaces_text _ (token_text (ws3 ++ rest) Hcne Hc)).
    rewrite (len_pos_app _ Hcne).
    rewrite (span_nonspace_token Hc (or_intror (spaces_not_text rest H3))).
    replace (len coll <? 1) with false by (symmetry; apply Z.ltb_ge; lia).
    rewrite (len_pos_app _ (proj1 H3)).
    replace (len coll >? EJDB_COLLECTION_NAME_MAX_LEN jbr) with false
      by (symmetry; rewrite Z.gtb_ltb; apply Z.ltb_ge; lia).
    cbn [orb]. rewrite (skip_spaces_app _ (proj2 H3)).
    rewrite (skip_spaces_text _ Hr), (proj2 (len_pos_text rest) Hrne).
    destruct op; try reflexivity;
      destruct (take_digits _ rest) as [nbuf r]; reflexivity. }
  split.
  - intros -> json Hj. exact (Hstep json Hj).
  - intros Hop' idc tail Hi Hd Hl Ht Hid.
    assert (Hs : starts_text (idc ++ tail)).
    { destruct idc as [|c idc]; [contradiction|].
      destruct (isdigit_facts c) as [Hsp _]; [now inversion Hd|exact Hsp]. }
    rewrite (Hstep _ Hs).
    rewrite (@take_digits_run (Z.to_nat (JBNUMBUF_SIZE jbr - 1)) idc tail Hd);
      auto.
    2:{ unfold len in Hl. lia. }
    replace (iwatoi idc <? 1) with false by (symmetry; apply Z.ltb_ge; lia).
    destruct op; try reflexivity. now elim Hop'.
Qed.

Lemma ws_document_frames_witness :
  _jbr_ws_on_message sample_iwatoi sample_ws_jbr
                     (lit "k1 pa c1 33 {}") true
  = Some (WS_PATCH_DOCUMENT (lit "k1") (lit "c1") 33 (lit "{}")).
Proof.
  apply (proj2 (@ws_document_frames sample_iwatoi sample_ws_jbr
                  [] (lit "k1") (lit " ") (lit "pa") (lit " ") (lit "c1")
                  (lit " ") JBWS_PATCH
                  ltac:(constructor)
                  ltac:(split; [split; vm_compute; discriminate
                               |repeat constructor])
                  ltac:(split; [discriminate|repeat constructor])
                  ltac:(split; [discriminate|reflexivity])
                  ltac:(split; [discriminate|repeat constructor])
                  ltac:(split; [split; vm_compute; discriminate
                               |repeat constructor])
                  ltac:(split; [discriminate|repeat constructor]))
               ltac:(discriminate) (lit "33") (lit " {}")
               ltac:(discriminate) ltac:(repeat constructor)
               ltac:(vm_compute; discriminate) ltac:(reflexivity)
               ltac:(vm_compute; discriminate)).
Defined.

(** X11.  Everything else is a query.  When the text after the key does not
    begin with a command token, or consists of one token only (so that a
    frame [key set] is a query for the text [set]), the handler passes the
    whole text after the key, from its first byte that is not white space to
    the end of the frame, to the query handler. *)
Theorem ws_query_frames iwatoi jbr ws0 key ws1 q :
  whitespace ws0 -> ws_key_ok key -> spaces ws1 -> starts_text q ->
  snd (span_nonspace q) = []
  \/ (~ In NUL (fst (span_nonspace q))
      /\ forall op, ~ ws_abbreviates (fst (span_nonspace q)) op) ->
  _jbr_ws_on_message iwatoi jbr (ws0 ++ key ++ ws1 ++ q) true
  = Some (WS_QUERY key q).
Proof.
  intros H0 Hk H1 Hq Hc.
  rewrite (@ws_key_step iwatoi jbr ws0 key ws1 q H0 Hk H1 Hq).
  pose proof (span_nonspace_text _ Hq) as Hne.
  destruct (span_nonspace q) as [cmd after] eqn:Es. cbn [fst snd] in *.
  destruct (span_nonspace_spec _ Es) as (-> & _ & _).
  destruct Hc as [->|[Hn Hab]]; [reflexivity|].
  rewrite (command_none after Hne Hn Hab).
  destruct (0 <? len after); reflexivity.
Qed.

Lemma ws_query_frames_witness :
  _jbr_ws_on_message sample_iwatoi sample_ws_jbr (lit "k1 set") true
  = Some (WS_QUERY (lit "k1") (lit "set")).
Proof.
  apply (@ws_query_frames sample_iwatoi sample_ws_jbr
           [] (lit "k1") (lit " ") (lit "set")
           ltac:(constructor)
           ltac:(split; [split; vm_compute; discriminate|repeat constructor])
           ltac:(split; [discriminate|repeat constructor])
           ltac:(reflexivity)
           ltac:(left; reflexivity)).
Defined.

(** ** The chunks of a query response *)

Lemma spec_stream_chunks buf docs :
  exists bs,
    spec_stream buf docs = chunk_writes bs
    /\ List.concat bs = stream_body buf docs
    /\ bs <> []
    /\ Forall (fun b => 1 <= len b) bs
    /\ Forall (fun b => JBR_HTTP_CHUNK_SIZE <= len b) (removelast bs).
Proof.
  revert buf. induction docs as [|d ds IH]; intros buf.
  - exists [buf ++ CRLF]. unfold chunk_writes, stream_body.
    cbn [spec_stream map List.concat removelast]. rewrite !app_nil_r.
    split; [reflexivity|]. split; [reflexivity|]. split; [discriminate|].
    split; [|constructor].
    constructor; [|constructor]. rewrite len_app.
    pose proof (len_nonneg buf). unfold len at 2. simpl. lia.
  - cbn [spec_stream]. cbv zeta.
    destruct (JBR_HTTP_CHUNK_SIZE <=? len (buf ++ frame d)) eqn:E.
    + apply Z.leb_le in E.
      destruct (IH []) as (bs & -> & Hc & Hne & Hpos & Hbig).
      exists ((buf ++ frame d) :: bs). unfold chunk_writes, stream_body in *.
      cbn [map List.concat app] in *.
      split; [now rewrite <- !app_assoc|].
      split; [rewrite Hc; now rewrite <- !app_assoc|].
      split; [discriminate|].
      split; [constructor; auto; unfold JBR_HTTP_CHUNK_SIZE in E; lia|].
      destruct bs as [|b bs]; [contradiction|].
      change (removelast ((buf ++ frame d) :: b :: bs))
        with ((buf ++ frame d) :: removelast (b :: bs)).
      constructor; auto.
    + destruct (IH (buf ++ frame d)) as (bs & -> & Hc & Hne & Hpos & Hbig).
      exists bs. unfold stream_body in *. cbn [map List.concat].
      split; [reflexivity|]. split; [|auto].
      rewrite Hc. now rewrite <- !app_assoc.
Qed.

(** X12.  The chunks of a query response carry the result without loss.
    For an admitted query that visits at least one document (no library
    call failing) the handler writes a sequence of data chunks and then the
    terminating chunk; the chunk payloads, put together, are the explain
    text (when asked for), the frames of all documents in result order and
    the closing line end; no data chunk is empty, so none can be taken for
    the terminating chunk; and every data chunk but the last carries at
    least 4096 bytes. *)
Theorem query_chunks_carry_frames jbr req q w :
  fresh_world w -> query_admitted jbr req q w ->
  ex_rc (ejdb_exec_plan (db jbr) q) = IW_OK ->
  ex_docs (ejdb_exec_plan (db jbr) q) <> [] ->
  exists bs,
    writes (w_trace (exec (_jbr_on_query jbr req) w))
    = writes (w_trace w) ++ chunk_writes bs
    /\ List.concat bs
       = stream_body (explain_prefix jbr req q)
                     (ex_docs (ejdb_exec_plan (db jbr) q))
    /\ bs <> []
    /\ Forall (fun b => 1 <= len b) bs
    /\ Forall (fun b => JBR_HTTP_CHUNK_SIZE <= len b) (removelast bs).
Proof.
  intros Hfw Ha Hrc Hd.
  destruct (spec_stream_chunks (explain_prefix jbr req q)
              (ex_docs (ejdb_exec_plan (db jbr) q)))
    as (bs & Hs & Hrest).
  exists bs. split; [|exact Hrest].
  rewrite <- Hs. now apply on_query_stream.
Qed.

Lemma query_chunks_carry_frames_witness :
  exists bs,
    writes (w_trace (exec (_jbr_on_query
                             (sample_jbr None false [sample_doc 1; sample_doc 2]
                                         IW_OK IW_OK)
                             (sample_query_req [])) sample_query_world))
    = writes (w_trace sample_query_world) ++ chunk_writes bs
    /\ List.concat bs = stream_body [] [sample_doc 1; sample_doc 2]
    /\ bs <> []
    /\ Forall (fun b => 1 <= len b) bs
    /\ Forall (fun b => JBR_HTTP_CHUNK_SIZE <= len b) (removelast bs).
Proof.
  apply (@query_chunks_carry_frames
           (sample_jbr None false [sample_doc 1; sample_doc 2] IW_OK IW_OK)
           (sample_query_req []) sample_q sample_query_world
           ltac:(witness_hyps) ltac:(witness_hyps)
           ltac:(witness_hyps) ltac:(witness_hyps)).
Defined.

(** ** The buffers of a request *)

Lemma buf_event_count d k :
  forallb buf_event d = true -> k = RES_WBUF \/ k = RES_XSTR ->
  count (is_new k) d = 0%nat /\ count (is_destroy k) d = 0%nat.
Proof.
  intros Hd Hk. induction d as [|e d IH]; [split; reflexivity|].
  simpl in Hd. apply andb_true_iff in Hd. destruct Hd as [He Hd].
  destruct (IH Hd) as [I1 I2]. unfold count in *. simpl.
  destruct Hk as [-> | ->];
    destruct e as [| | | | | | |[]|[]]; simpl in *; try discriminate He; auto.
Qed.

Lemma buf_step_refl w : buf_step w w.
Proof. constructor; auto. exists []. now rewrite app_nil_r. Qed.

Lemma buf_step_trans w1 w2 w3 : buf_step w1 w2 -> buf_step w2 w3 -> buf_step w1 w3.
Proof.
  intros [A (d1 & D1 & F1)] [B (d2 & D2 & F2)]. constructor; [congruence|].
  exists (d1 ++ d2). rewrite D2, D1, <- app_assoc. split; auto.
  rewrite forallb_app, F1, F2. reflexivity.
Qed.

Lemma buf_step_inv w w' : buf_step w w' -> buf_inv w -> buf_inv w'.
Proof.
  intros [A (d & D & F)] [H1 H2].
  destruct (@buf_event_count d RES_WBUF F (or_introl eq_refl)) as [N1 N2].
  destruct (@buf_event_count d RES_XSTR F (or_intror eq_refl)) as [N3 N4].
  constructor; rewrite D, !count_app, ?A; lia.
Qed.

Lemma buf_step_released w w' : buf_step w w' -> released w -> released w'.
Proof.
  intros S [H1 H2]. split; [eapply buf_step_inv; eauto|].
  destruct S as [A _]. congruence.
Qed.

Lemma buf_step_attached w w' : buf_step w w' -> attached w -> attached w'.
Proof.
  intros S [H1 H2]. split; [eapply buf_step_inv; eauto|].
  destruct S as [A _]. congruence.
Qed.

Lemma buf_step_bind (A B : Type) (m : M A) (k : A -> M B) w :
  buf_step w (snd (m w)) -> (forall a w1, buf_step w1 (snd (k a w1))) ->
  buf_step w (snd (bind m k w)).
Proof.
  intros Hm Hk. unfold bind. destruct (m w) as [a w1]. simpl in *.
  eapply buf_step_trans; [exact Hm|apply Hk].
Qed.

Ltac buf_leaf :=
  constructor; simpl;
  [ reflexivity
  | eexists; split;
    [first [rewrite <- ?app_assoc; reflexivity | symmetry; apply app_nil_r]
    |reflexivity] ].

Ltac buf_crush w :=
  let ctx := fresh "ctx" in
  destruct w as [ctx ? ? ? ?]; destruct ctx; unfold_m; simpl;
  repeat break; buf_leaf.

Lemma buf_step_http_send status ctype body n w :
  buf_step w (snd (_jbr_http_send status ctype body n w)).
Proof. buf_crush w. Qed.

Lemma buf_step_rc_report jbr code rc w :
  buf_step w (snd (JBR_RC_REPORT jbr code rc w)).
Proof. buf_crush w. Qed.

Lemma buf_step_on_put jbr req w : buf_step w (exec (_jbr_on_put jbr req) w).
Proof. unfold _jbr_on_put. buf_crush w. Qed.

Lemma buf_step_on_post jbr req w : buf_step w (exec (_jbr_on_post jbr req) w).
Proof. unfold _jbr_on_post. buf_crush w. Qed.

Lemma buf_step_on_patch jbr req w : buf_step w (exec (_jbr_on_patch jbr req) w).
Proof. unfold _jbr_on_patch. buf_crush w. Qed.

Lemma buf_step_on_delete jbr req w :
  buf_step w (exec (_jbr_on_delete jbr req) w).
Proof. unfold _jbr_on_delete. buf_crush w. Qed.

Lemma buf_step_finish_response jbr q rc r w :
  buf_step w (snd (finish_response jbr q rc r w)).
Proof. unfold finish_response. buf_crush w. Qed.

Lemma buf_step_destroy_explain w : buf_step w (snd (iwxstr_destroy_explain w)).
Proof. buf_crush w. Qed.

Lemma buf_step_query_hints h w : buf_step w (snd (query_hints h w)).
Proof. unfold query_hints. buf_crush w. Qed.

Ltac inv_crush w :=
  let ctx := fresh "ctx" in
  destruct w as [ctx ? ? ? ?]; destruct ctx; unfold_m; simpl in *;
  try match goal with
      | H : ?b <> None |- _ => is_var b; destruct b; [|now elim H]
      end;
  repeat break; subst; simpl in *;
  repeat split; unfold count in *; simpl in *;
  rewrite ?filter_app, ?length_app in *; simpl in *;
  try lia; try congruence; try discriminate; try contradiction.

Lemma released_on_get jbr req w :
  released w -> released (exec (_jbr_on_get jbr req) w).
Proof. unfold _jbr_on_get. intros [[H1 H2] H3]. inv_crush w. Qed.

Lemma released_destroy_wbuf w :
  buf_inv w -> released (snd (iwxstr_destroy_wbuf w)).
Proof. intros [H1 H2]. inv_crush w. Qed.

Lemma attached_write_or_fail data w : buf_step w (snd (write_or_fail data w)).
Proof. buf_crush w. Qed.

Lemma attached_cat data w :
  attached w -> attached (snd (iwxstr_cat_wbuf data w)).
Proof. intros [[H1 H2] H3]. inv_crush w. Qed.

Lemma attached_flush finish w :
  attached w -> attached (snd (_jbr_flush_chunk finish w)).
Proof. unfold _jbr_flush_chunk. intros [[H1 H2] H3]. inv_crush w. Qed.

Lemma keeps_attached_rcret (m k : M iwrc) :
  keeps_attached m -> keeps_attached k -> keeps_attached (m ;;? k).
Proof.
  intros Hm Hk w Hw. unfold rcret, bind. specialize (Hm w Hw).
  destruct (m w) as [rc w1]. simpl in *.
  destruct (rc_is_err rc); [exact Hm|now apply Hk].
Qed.

Lemma keeps_attached_cat data : keeps_attached (iwxstr_cat_wbuf data).
Proof. intros w. apply attached_cat. Qed.

Lemma keeps_attached_flush finish : keeps_attached (_jbr_flush_chunk finish).
Proof. intros w. apply attached_flush. Qed.

Lemma keeps_attached_explain :
  keeps_attached
    (r <- get_ctx ;;
     match explain r with
     | Some e =>
         iwxstr_cat_wbuf e ;;?
         iwxstr_cat_wbuf explain_separator ;;?
         (emit (EvDestroy RES_EXPLAIN) ;; upd_ctx (set_explain None) ;;
          ret IW_OK)
     | None => ret IW_OK
     end).
Proof. intros w [[H1 H2] H3]. inv_crush w. Qed.

Lemma visitor_alloc_buf w :
  buf_inv w ->
  let m := (r <- get_ctx ;;
            match wbuf r with
            | Some _ => ret IW_OK
            | None =>
                failed <- fault ;;
                if failed then ret (iwrc_set_errno IW_ERROR_ALLOC ENOMEM)
                else (emit (EvNew RES_WBUF) ;; upd_ctx (set_wbuf (Some [])) ;;
                      ret IW_OK)
            end) in
  buf_inv (snd (m w))
  /\ (rc_is_err (fst (m w)) = false -> attached (snd (m w))).
Proof. intros [H1 H2]. cbv zeta. inv_crush w. Qed.

Lemma rcret_attached (m k : M iwrc) w :
  attached (snd (m w)) -> keeps_attached k -> attached (snd ((m ;;? k) w)).
Proof.
  intros Hm Hk. unfold rcret, bind. destruct (m w) as [rc w1]. simpl in *.
  destruct (rc_is_err rc); [exact Hm|now apply Hk].
Qed.

Lemma rcret_buf (m k : M iwrc) w :
  buf_inv (snd (m w))
  /\ (rc_is_err (fst (m w)) = false -> attached (snd (m w))) ->
  keeps_attached k -> buf_inv (snd ((m ;;? k) w)).
Proof.
  intros [H1 H2] Hk. unfold rcret, bind. destruct (m w) as [rc w1].
  simpl in *. destruct (rc_is_err rc); [exact H1|].
  now apply Hk, H2.
Qed.

(** One visitor call keeps the account of the buffers. *)
Lemma visitor_buf d w : buf_inv w -> buf_inv (snd (_jbr_query_visitor d w)).
Proof.
  intros Hw. unfold _jbr_query_visitor. unfold bind at 1. cbn [get_ctx].
  apply rcret_buf; [exact (visitor_alloc_buf Hw)|].
  intros w1 Hw1. unfold bind at 1. cbn [get_ctx].
  apply rcret_attached; [exact (keeps_attached_explain Hw1)|].
  apply keeps_attached_rcret; [apply keeps_attached_cat|].
  apply keeps_attached_rcret; [|apply keeps_attached_flush].
  destruct (doc_node d); apply keeps_attached_cat.
Qed.

Lemma visit_all_buf docs w : buf_inv w -> buf_inv (snd (visit_all docs w)).
Proof.
  revert w. induction docs as [|d ds IH]; intros w Hw; simpl; auto.
  unfold rcret, bind. pose proof (visitor_buf d Hw) as H.
  destruct (_jbr_query_visitor d w) as [rc w1]. simpl in *.
  destruct (rc_is_err rc); auto.
Qed.

Lemma ejdb_exec_buf p w : buf_inv w -> buf_inv (snd (ejdb_exec p w)).
Proof.
  intros Hw. unfold ejdb_exec.
  assert (H0 : buf_inv (snd (upd_ctx
              (fun r => match explain r with
                        | Some e => set_explain (Some (e ++ ex_log p)) r
                        | None => r
                        end) w))).
  { apply (buf_step_inv (w := w)); auto. buf_crush w. }
  unfold bind at 1.
  destruct (upd_ctx _ w) as [u w0]. cbn [snd] in H0.
  unfold rcret, bind. pose proof (visit_all_buf (ex_docs p) H0) as H.
  destruct (visit_all (ex_docs p) w0) as [rc w1]. simpl in *.
  destruct (rc_is_err rc); auto.
Qed.

Lemma query_close_buf rc w :
  buf_inv w -> buf_inv (snd (query_close rc (w_ctx w) w)).
Proof.
  intros Hw. unfold query_close.
  destruct rc; auto. destruct (wbuf (w_ctx w)) eqn:E; auto.
  apply (keeps_attached_rcret (keeps_attached_cat CRLF)
           (keeps_attached_flush true)).
  split; auto. congruence.
Qed.

Lemma query_finish_buf jbr q rc w :
  buf_inv w -> released (exec (_jbr_on_query_finish jbr q rc) w).
Proof.
  intros Hw. unfold _jbr_on_query_finish.
  rewrite exec_bind. cbn [get_ctx fst snd]. rewrite !exec_bind. unfold exec.
  apply released_destroy_wbuf.
  eapply buf_step_inv; [apply buf_step_destroy_explain|].
  eapply buf_step_inv; [apply buf_step_finish_response|]. exact Hw.
Qed.

Lemma query_run_buf jbr q w :
  buf_inv w -> released (exec (query_run jbr q) w).
Proof.
  intros Hw. unfold query_run. rewrite exec_bind.
  pose proof (ejdb_exec_buf (ejdb_exec_plan (db jbr) q) Hw) as H1.
  destruct (ejdb_exec _ w) as [rc w1]. cbn [fst snd] in *.
  rewrite exec_bind. cbn [get_ctx fst snd]. rewrite exec_bind.
  apply query_finish_buf. now apply query_close_buf.
Qed.

Lemma on_query_buf jbr req w :
  released w -> released (exec (_jbr_on_query jbr req) w).
Proof.
  intros Hw. unfold _jbr_on_query.
  destruct (len (req_body req) <? 1).
  { eapply buf_step_released; [|exact Hw]. unfold exec, _jbr_http_error_send.
    apply buf_step_bind; [apply buf_step_http_send|].
    intros. apply buf_step_refl. }
  destruct (jql_create (db jbr) (req_body req)) as [rc q].
  destruct (rc_is_err rc); [apply query_finish_buf, Hw|].
  rewrite exec_bind. cbn [get_ctx fst snd].
  destruct (read_anon (w_ctx w) && jql_has_apply q).
  { eapply buf_step_released; [|exact Hw]. unfold exec, _jbr_http_error_send.
    apply buf_step_bind; [apply buf_step_http_send|].
    intros. apply buf_step_refl. }
  destruct (negb _ && negb _).
  { eapply buf_step_released; [|exact Hw]. unfold exec, _jbr_http_error_send.
    apply buf_step_bind; [apply buf_step_http_send|].
    intros. apply buf_step_refl. }
  rewrite exec_bind.
  pose proof (buf_step_inv (buf_step_query_hints
                (fiobj_hash_get2 (req_headers req) k_header_x_hints) w)
                (proj1 Hw)) as H1.
  destruct (query_hints _ w) as [rc1 w1]. cbn [fst snd] in *.
  destruct (rc_is_err rc1); [now apply query_finish_buf|].
  now apply query_run_buf.
Qed.

Lemma buf_step_send_error s w : buf_step w (exec (http_send_error s) w).
Proof. buf_crush w. Qed.

Lemma process_buf jbr req w :
  released w -> released (exec (_jbr_process jbr req) w).
Proof.
  intros Hw. unfold _jbr_process. rewrite exec_bind. cbn [get_ctx fst snd].
  destruct (collection (w_ctx w)).
  - destruct (method (w_ctx w)) as [[]|];
      first [ now apply released_on_get
            | eapply buf_step_released; [|exact Hw];
              auto using buf_step_on_put, buf_step_on_post, buf_step_on_patch,
                buf_step_on_delete, buf_step_send_error ].
  - destruct (method_is (w_ctx w) JBR_POST); [now apply on_query_buf|].
    eapply buf_step_released; [apply buf_step_send_error|exact Hw].
Qed.

(** X13.  The string buffers ([IWXSTR]) that [jbr.c] allocates itself are
    always released.  Whatever the request, whatever the database returns
    and whichever library calls fail, when [_jbr_on_http_request] returns
    the context holds no assembly buffer, and every assembly buffer of the
    query stream ([rctx->wbuf]) and every output buffer of [_jbr_on_get]
    ([xstr]) that was allocated has been released.  The objects that the
    database library hands out (the [JBL] document of [ejdb_get], the
    compiled query) are not string buffers and are not part of this
    account. *)
Theorem string_buffers_released jbr req faults :
  let w' := exec (_jbr_on_http_request jbr req) (world_init faults) in
  wbuf (w_ctx w') = None
  /\ count (is_new RES_WBUF) (w_trace w')
     = count (is_destroy RES_WBUF) (w_trace w')
  /\ count (is_new RES_XSTR) (w_trace w')
     = count (is_destroy RES_XSTR) (w_trace w').
Proof.
  cbv zeta.
  assert (R : released (exec (_jbr_on_http_request jbr req)
                             (world_init faults))).
  { unfold _jbr_on_http_request.
    destruct (_jbr_fill_ctx jbr req) as [r|] eqn:Ef.
    2:{ repeat split. }
    destruct (_jbr_token_gate jbr req r) as [[|s] r'] eqn:Eg.
    2:{ repeat split. }
    rewrite exec_bind. apply process_buf.
    destruct (fill_ctx_fresh _ _ Ef) as (_ & _ & Hwb & _).
    assert (Hr' : wbuf r' = None).
    { destruct (token_gate_ctx _ _ _ Eg) as [-> | ->]; exact Hwb. }
    split; [|exact Hr']. constructor; simpl; [now rewrite Hr'|reflexivity]. }
  destruct R as [[H1 H2] H3]. rewrite H3 in H1. simpl in H1.
  split; [exact H3|]. split; [lia|exact H2].
Qed.

(** ** Requests seen from outside *)

Lemma run_presented jbr req r faults :
  token_presented jbr req -> _jbr_fill_ctx jbr req = Some r ->
  run (_jbr_on_http_request jbr req) faults
  = w_trace (exec (_jbr_process jbr req)
                  (exec (upd_ctx (fun _ => r)) (world_init faults))).
Proof.
  intros Ht Hf. unfold run, _jbr_on_http_request.
  rewrite Hf, (gate_presented jbr req r Ht). now rewrite exec_bind.
Qed.

(** X14.  An anonymous client cannot run a query with an [apply] clause.
    With a token configured and anonymous read enabled, a POST to the root
    path without X-Access-Token header whose body compiles to a query with
    an [apply] part is answered 403 and nothing else happens: no header
    block, no chunk, no explain buffer; whichever library calls fail. *)
Theorem anonymous_apply_forbidden jbr req tok p q faults :
  access_token (http jbr) = Some tok -> http_read_anon (http jbr) = true ->
  fiobj_hash_get2 (req_headers req) k_header_x_access_token = FIOBJ_INVALID ->
  fiobj_obj2cstr (req_method req) = lit "POST" ->
  req_path req = FIOBJ_STRING p (lit "/") ->
  1 <= len (req_body req) ->
  jql_create (db jbr) (req_body req) = (IW_OK, q) ->
  jql_has_apply q = true ->
  let t := run (_jbr_on_http_request jbr req) faults in
  t = [EvSendBody 403 [] None 0]
  \/ t = [EvSendBody 403 [] None 0; EvLog (ERR JBR_ERROR_SEND_RESPONSE)].
Proof.
  intros Ht Ha Hh Hm Hp Hb Hq Hap. cbv zeta.
  unfold run, _jbr_on_http_request, _jbr_fill_ctx. rewrite Hm, Hp.
  change (parse_method (lit "POST")) with (Some JBR_POST). cbv beta iota.
  cbn [fiobj_is_null fiobj_handle fiobj_obj2cstr].
  change (len (lit "/") =? 1) with true.
  change (ascii_eqb (nth 0 (lit "/") NUL) "/"%char) with true.
  rewrite orb_true_r.
  unfold _jbr_token_gate. rewrite Ht, Hh, Ha.
  cbn [fiobj_is_null fiobj_handle Z.eqb]. cbv beta iota.
  change (method_is (set_method JBR_POST JBRCTX_zero) JBR_GET) with false.
  change (method_is (set_method JBR_POST JBRCTX_zero) JBR_HEAD) with false.
  change (method_is (set_method JBR_POST JBRCTX_zero) JBR_POST) with true.
  change (collection_is_null (set_method JBR_POST JBRCTX_zero)) with true.
  cbn [andb orb]. rewrite exec_bind. unfold _jbr_process.
  rewrite exec_bind. cbn [get_ctx upd_ctx fst snd w_ctx collection
    set_read_anon set_method JBRCTX_zero method].
  change (method_is _ JBR_POST) with true. cbv beta iota.
  unfold _jbr_on_query.
  replace (len (req_body req) <? 1) with false
    by (symmetry; apply Z.ltb_ge; lia).
  rewrite Hq. cbn [rc_is_err]. rewrite exec_bind.
  cbn [get_ctx fst snd w_ctx read_anon]. rewrite Hap. cbn [andb].
  destruct faults as [|[] fs]; unfold_m; simpl; auto.
Qed.

Lemma anonymous_apply_forbidden_witness :
  let t := run (_jbr_on_http_request
                  (mk_JBR (mk_EJDB_HTTP (Some (lit "tok")) true)
                          (mk_EJDB (ejdb_get (sample_db [] IW_OK IW_OK))
                                   (ejdb_put (sample_db [] IW_OK IW_OK))
                                   (ejdb_put_new (sample_db [] IW_OK IW_OK))
                                   (ejdb_patch (sample_db [] IW_OK IW_OK))
                                   (ejdb_remove (sample_db [] IW_OK IW_OK))
                                   (jbl_from_json (sample_db [] IW_OK IW_OK))
                                   (fun _ => (IW_OK, mk_JQL true None))
                                   (ejdb_exec_plan (sample_db [] IW_OK IW_OK)))
                          (fun _ => Some (lit "error")) 64 128)
                  (sample_req "POST" "/" [] "@users/* | apply {}")) [] in
  t = [EvSendBody 403 [] None 0]
  \/ t = [EvSendBody 403 [] None 0; EvLog (ERR JBR_ERROR_SEND_RESPONSE)].
Proof.
  apply (@anonymous_apply_forbidden _ _ (lit "tok") 2%positive
           (mk_JQL true None) []);
    try reflexivity. vm_compute. discriminate.
Defined.

Lemma responses_send_error_once status w :
  responses (w_trace (snd (_jbr_http_error_send status w)))
  = responses (w_trace w) ++ [status].
Proof. unfold _jbr_http_error_send. apply http_send_responses. Qed.

(** X15.  Edge cases of the document requests, seen from the client.  For a
    request that carries the configured token (or meets a server without
    one) on a path ["/" collection "/" id] with a valid id: GET, HEAD and
    DELETE of a document the database does not find are answered 404, and
    PUT and PATCH without a body are answered 400; in each case this is the
    only response, whichever library calls fail. *)
Theorem document_edge_cases jbr req p m coll idc v faults :
  token_presented jbr req ->
  parse_method (fiobj_obj2cstr (req_method req)) = Some m ->
  req_path req = FIOBJ_STRING p ("/"%char :: coll ++ "/"%char :: idc) ->
  path_component coll -> len coll <= EJDB_COLLECTION_NAME_MAX_LEN jbr ->
  idc <> [] -> len idc <= JBNUMBUF_SIZE jbr - 1 ->
  strtoll idc = (v, []) -> 1 <= v ->
  let t := run (_jbr_on_http_request jbr req) faults in
  (m = JBR_GET \/ m = JBR_HEAD ->
   rc_is_notfound (fst (ejdb_get (db jbr) coll v)) = true ->
   responses t = [404])
  /\ (m = JBR_DELETE ->
      rc_is_notfound (ejdb_remove (db jbr) coll v) = true ->
      responses t = [404])
  /\ (m = JBR_PUT \/ m = JBR_PATCH -> req_body req = [] ->
      responses t = [400]).
Proof.
  intros Ht Hm Hp Hc Hl Hi Hil Hs Hv. cbv zeta.
  assert (Hcn : cname (ctx_of m coll v) = coll).
  { unfold cname, ctx_of. cbn. apply c_str_id.
    revert Hc. apply Forall_impl. tauto. }
  assert (Hrun : m <> JBR_POST ->
                 run (_jbr_on_http_request jbr req) faults
                 = w_trace
                     (snd (match m with
                           | JBR_GET | JBR_HEAD => _jbr_on_get jbr req
                           | JBR_PUT => _jbr_on_put jbr req
                           | JBR_PATCH => _jbr_on_patch jbr req
                           | JBR_DELETE => _jbr_on_delete jbr req
                           | JBR_POST => _jbr_on_post jbr req
                           end (exec (upd_ctx (fun _ => ctx_of m coll v))
                                     (world_init faults))))).
  { intros Hpost.
    assert (Hf : _jbr_fill_ctx jbr req = Some (ctx_of m coll v)).
    { apply (@id_path_accepted jbr req p m coll idc v Hm Hp Hc Hi);
        auto; lia. }
    rewrite (run_presented jbr req faults Ht Hf).
    unfold _jbr_process. rewrite exec_bind. reflexivity. }
  split; [|split].
  - intros Hg Hnf. rewrite Hrun by (destruct Hg as [-> | ->]; discriminate).
    replace (match m with
             | JBR_GET | JBR_HEAD => _jbr_on_get jbr req
             | JBR_PUT => _jbr_on_put jbr req
             | JBR_PATCH => _jbr_on_patch jbr req
             | JBR_DELETE => _jbr_on_delete jbr req
             | JBR_POST => _jbr_on_post jbr req
             end) with (_jbr_on_get jbr req)
      by (destruct Hg as [-> | ->]; reflexivity).
    unfold _jbr_on_get. unfold bind at 1. cbn [get_ctx exec upd_ctx snd w_ctx].
    rewrite Hcn. cbn [id ctx_of set_id].
    destruct (ejdb_get (db jbr) coll v) as [rc jbl]. cbn [fst] in Hnf.
    rewrite Hnf. unfold bind at 1.
    rewrite (surjective_pairing (_jbr_http_error_send 404 _)).
    cbn [snd ret]. now rewrite responses_send_error_once.
  - intros -> Hnf. rewrite Hrun by discriminate.
    unfold _jbr_on_delete. unfold bind at 1.
    cbn [get_ctx exec upd_ctx snd w_ctx read_anon ctx_of set_id set_collection
         set_method JBRCTX_zero id].
    change (cname _) with (cname (ctx_of JBR_DELETE coll v)).
    rewrite Hcn, Hnf. unfold bind at 1.
    rewrite (surjective_pairing (_jbr_http_error_send 404 _)).
    cbn [snd ret]. now rewrite responses_send_error_once.
  - intros Hg Hb. rewrite Hrun by (destruct Hg as [-> | ->]; discriminate).
    destruct Hg as [-> | ->];
      [unfold _jbr_on_put|unfold _jbr_on_patch];
      unfold bind at 1;
      cbn [get_ctx exec upd_ctx snd w_ctx read_anon ctx_of set_id
           set_collection set_method JBRCTX_zero];
      rewrite Hb; change (len [] <? 1) with true; cbv beta iota;
      unfold bind at 1;
      rewrite (surjective_pairing (_jbr_http_error_send 400 _));
      cbn [snd ret]; now rewrite responses_send_error_once.
Qed.

Lemma document_edge_cases_witness :
  responses (run (_jbr_on_http_request
                    (sample_jbr (Some (lit "tok")) false [] IW_OK IW_OK)
                    (sample_req "DELETE" "/users/2"
                                [hdr "x-access-token" "tok"] "")) [])
  = [404].
Proof.
  apply (proj1 (proj2 (@document_edge_cases
           (sample_jbr (Some (lit "tok")) false [] IW_OK IW_OK)
           (sample_req "DELETE" "/users/2" [hdr "x-access-token" "tok"] "")
           2%positive JBR_DELETE (lit "users") (lit "2") 2 []
           ltac:(exists 3%positive; reflexivity) eq_refl eq_refl
           ltac:(repeat constructor; discriminate)
           ltac:(vm_compute; discriminate) ltac:(discriminate)
           ltac:(vm_compute; discriminate) eq_refl
           ltac:(vm_compute; discriminate))));
    reflexivity.
Defined.

Lemma answered_app t d : answered t = true -> answered (t ++ d) = true.
Proof. unfold answered. rewrite existsb_app. now intros ->. Qed.

Lemma answered_step w w' :
  buf_step w w' -> answered (w_trace w) = true -> answered (w_trace w') = true.
Proof. intros [_ (d & -> & _)]. apply answered_app. Qed.

Ltac answered_crush w :=
  let ctx := fresh "ctx" in
  destruct w as [ctx ? ? ? ?]; destruct ctx; unfold_m; simpl;
  repeat break; unfold answered; rewrite ?existsb_app; simpl;
  rewrite ?orb_true_r; reflexivity.

Lemma answered_http_send status ctype body n w :
  answered (w_trace (snd (_jbr_http_send status ctype body n w))) = true.
Proof. answered_crush w. Qed.

Lemma answered_on_get jbr req w :
  answered (w_trace (exec (_jbr_on_get jbr req) w)) = true.
Proof. unfold _jbr_on_get. answered_crush w. Qed.

Lemma answered_on_put jbr req w :
  answered (w_trace (exec (_jbr_on_put jbr req) w)) = true.
Proof. unfold _jbr_on_put. answered_crush w. Qed.

Lemma answered_on_post jbr req w :
  answered (w_trace (exec (_jbr_on_post jbr req) w)) = true.
Proof. unfold _jbr_on_post. answered_crush w. Qed.

Lemma answered_on_patch jbr req w :
  answered (w_trace (exec (_jbr_on_patch jbr req) w)) = true.
Proof. unfold _jbr_on_patch. answered_crush w. Qed.

Lemma answered_on_delete jbr req w :
  answered (w_trace (exec (_jbr_on_delete jbr req) w)) = true.
Proof. unfold _jbr_on_delete. answered_crush w. Qed.

Lemma answered_finish_response jbr q rc r w :
  answered (w_trace (snd (finish_response jbr q rc r w))) = true.
Proof. unfold finish_response. answered_crush w. Qed.

Lemma trace_destroy_wbuf w :
  exists d, w_trace (snd (iwxstr_destroy_wbuf w)) = w_trace w ++ d.
Proof.
  destruct w as [ctx st oh fl tr]. destruct ctx as [? ? ? ? ? [b|] ?];
    unfold_m; simpl; eexists; [reflexivity|symmetry; apply app_nil_r].
Qed.

Lemma answered_query_finish jbr q rc w :
  answered (w_trace (exec (_jbr_on_query_finish jbr q rc) w)) = true.
Proof.
  unfold _jbr_on_query_finish.
  rewrite exec_bind. cbn [get_ctx fst snd]. rewrite !exec_bind. unfold exec.
  destruct (trace_destroy_wbuf
              (snd (iwxstr_destroy_explain
                      (snd (finish_response jbr q rc (w_ctx w) w)))))
    as [d ->].
  apply answered_app.
  eapply answered_step; [apply buf_step_destroy_explain|].
  apply answered_finish_response.
Qed.

Lemma answered_on_query jbr req w :
  answered (w_trace (exec (_jbr_on_query jbr req) w)) = true.
Proof.
  assert (S : forall s w0,
             answered (w_trace (exec (_jbr_http_error_send s ;; ret tt) w0))
             = true).
  { intros s w0. unfold exec, _jbr_http_error_send, bind at 1.
    rewrite (surjective_pairing (_jbr_http_send s None None 0 w0)).
    cbn [snd ret]. apply answered_http_send. }
  unfold _jbr_on_query.
  destruct (len (req_body req) <? 1); [apply S|].
  destruct (jql_create (db jbr) (req_body req)) as [rc q].
  destruct (rc_is_err rc); [apply answered_query_finish|].
  rewrite exec_bind. cbn [get_ctx fst snd].
  destruct (read_anon (w_ctx w) && jql_has_apply q); [apply S|].
  destruct (negb _ && negb _); [apply S|].
  rewrite exec_bind.
  destruct (rc_is_err _); [apply answered_query_finish|].
  unfold query_run. rewrite !exec_bind. cbn [get_ctx fst snd].
  rewrite ?exec_bind. apply answered_query_finish.
Qed.

(** X16.  Every request is answered.  Whatever the request, whatever the
    database returns and whichever library calls fail, when
    [_jbr_on_http_request] returns it has sent a response or, for a chunked
    response that was under way, completed it: no request is left without
    an end. *)
Theorem every_request_is_answered jbr req faults :
  answered (run (_jbr_on_http_request jbr req) faults) = true.
Proof.
  unfold run, _jbr_on_http_request.
  destruct (_jbr_fill_ctx jbr req) as [r|]; [|reflexivity].
  destruct (_jbr_token_gate jbr req r) as [[|s] r']; [|reflexivity].
  rewrite exec_bind. unfold _jbr_process. rewrite exec_bind.
  cbn [get_ctx upd_ctx fst snd w_ctx].
  destruct (collection r').
  - destruct (method r') as [[]|];
      auto using answered_on_get, answered_on_put, answered_on_post,
        answered_on_patch, answered_on_delete.
  - destruct (method_is r' JBR_POST); [apply answered_on_query|reflexivity].
Qed.

(** X17.  A path ["/" collection] without a second slash is accepted exactly
    for POST with a collection name of at most
    [EJDB_COLLECTION_NAME_MAX_LEN] bytes; the context then holds the method
    and the collection and no id, which is what sends the request to the
    handler that creates a document. *)
Theorem collection_path_accepted_iff jbr req p m coll r :
  parse_method (fiobj_obj2cstr (req_method req)) = Some m ->
  req_path req = FIOBJ_STRING p ("/"%char :: coll) ->
  coll <> [] -> Forall (fun c => c <> "/"%char) coll ->
  _jbr_fill_ctx jbr req = Some r
  <-> (m = JBR_POST /\ len coll <= EJDB_COLLECTION_NAME_MAX_LEN jbr
       /\ r = set_collection (Some coll) (set_method JBR_POST JBRCTX_zero)).
Proof.
  intros Hm Hp Hne Hc. unfold _jbr_fill_ctx. rewrite Hm, Hp.
  cbn [fiobj_obj2cstr fiobj_is_null fiobj_handle tl].
  replace (8 * Z.pos p + 2 =? 0) with false by (symmetry; apply Z.eqb_neq; lia).
  assert (Hl : 2 <= len ("/"%char :: coll)).
  { destruct coll; [contradiction|]. unfold len. simpl. lia. }
  replace (len ("/"%char :: coll) =? 1) with false
    by (symmetry; apply Z.eqb_neq; lia).
  replace (len ("/"%char :: coll) <? 2) with false
    by (symmetry; apply Z.ltb_ge; lia).
  cbn [orb andb]. rewrite (strchr_slash_none Hc).
  unfold fill_ctx_finish, collection_len. cbn [collection set_collection].
  destruct m; try (split; [discriminate|intros [H _]; discriminate]).
  destruct (len coll <=? EJDB_COLLECTION_NAME_MAX_LEN jbr) eqn:E.
  - apply Z.leb_le in E. split.
    + intros [= <-]. auto.
    + intros (_ & _ & ->). reflexivity.
  - apply Z.leb_gt in E. split; [discriminate|]. intros (_ & H & _). lia.
Qed.

Lemma collection_path_accepted_iff_witness :
  _jbr_fill_ctx (sample_jbr None false [] IW_OK IW_OK)
                (sample_req "POST" "/users" [] "{}")
  = Some (set_collection (Some (lit "users"))
                         (set_method JBR_POST JBRCTX_zero)).
Proof.
  apply (proj2 (@collection_path_accepted_iff
                  (sample_jbr None false [] IW_OK IW_OK)
                  (sample_req "POST" "/users" [] "{}")
                  2%positive JBR_POST (lit "users")
                  (set_collection (Some (lit "users"))
                                  (set_method JBR_POST JBRCTX_zero))
                  eq_refl eq_refl ltac:(discriminate)
                  ltac:(repeat constructor; discriminate))).
  split; [reflexivity|]. split; [vm_compute; discriminate|reflexivity].
Defined.
